(** * AD-HTC gas cycle: the cycle solvers of [ad_htc_app.py]

    A shallow embedding of the three computational routines of the
    application,

      - [calculate_steam_cycle]      (Rankine cycle and saturation dome),
      - [calculate_gas_cycle_THdot]  (Brayton cycle and its four T-Hdot traces),
      - [biomass_outputs]            (linear mass split),

    together with the statements the specification makes about them.

    The Python code computes on binary64 floats and obtains every fluid
    property from CoolProp ([CP.PropsSI]).  The embedding is written once, over
    an abstract carrier of numbers ([Num]) and an abstract property backend
    (a partial function on queries), and is instantiated twice: at the
    primitive binary64 floats, on which it runs as the Python code does, and
    at the real numbers, where the algebraic statements of the specification
    (conservation, boundary exactness, monotonicity) are exact. *)

From Stdlib Require Import String QArith Qreals Reals Lra Lia ZArith List Bool.
From Stdlib Require Import Floats Uint63.
Import ListNotations.

Set Implicit Arguments.
Set Warnings "-inexact-float".

(** ** Numbers *)

(** The arithmetic the solvers use.  [ofQ] reads a decimal literal of the
    source ([273.15], [1000.0], [0.9995]); [is_zero] is the test behind
    Python's [ZeroDivisionError]; [nltb] is [<]. *)
Class Num (F : Type) : Type := {
  nadd : F -> F -> F;
  nsub : F -> F -> F;
  nmul : F -> F -> F;
  ndiv : F -> F -> F;
  ofQ : Q -> F;
  is_zero : F -> bool;
  nltb : F -> F -> bool
}.

Declare Scope num_scope.
Delimit Scope num_scope with num.
Infix "+" := nadd : num_scope.
Infix "-" := nsub : num_scope.
Infix "*" := nmul : num_scope.
Infix "/" := ndiv : num_scope.
Notation "'#' q" := (ofQ q%Q) (at level 1, q constr at level 0, format "'#' q") : num_scope.

(** Binary64, as Python's [float]: an integer below 2^53 converts exactly and
    the one division rounds to nearest, so that [float_ofQ 273.15] is the
    double that Python reads for the literal [273.15]. *)
Definition float_ofZ (z : Z) : float :=
  match z with
  | Z0 => PrimFloat.of_uint63 0%uint63
  | Zpos _ => PrimFloat.of_uint63 (Uint63.of_Z z)
  | Zneg p => PrimFloat.opp (PrimFloat.of_uint63 (Uint63.of_Z (Zpos p)))
  end.

Definition float_ofQ (q : Q) : float :=
  PrimFloat.div (float_ofZ (Qnum q)) (float_ofZ (Zpos (Qden q))).

#[export] Instance float_num : Num float := {
  nadd := PrimFloat.add;
  nsub := PrimFloat.sub;
  nmul := PrimFloat.mul;
  ndiv := PrimFloat.div;
  ofQ := float_ofQ;
  is_zero := fun x => PrimFloat.eqb x (PrimFloat.of_uint63 0%uint63);
  nltb := PrimFloat.ltb
}.

(** Exact real arithmetic. *)
Definition R_is_zero (x : R) : bool := if Req_dec_T x 0%R then true else false.
Definition R_ltb (x y : R) : bool := if Rlt_dec x y then true else false.

#[export] Instance R_num : Num R := {
  nadd := Rplus;
  nsub := Rminus;
  nmul := Rmult;
  ndiv := Rdiv;
  ofQ := Q2R;
  is_zero := R_is_zero;
  nltb := R_ltb
}.

(** ** The property backend

    [CP.PropsSI(out, name1, value1, name2, value2, fluid)] and the two-argument
    form [CP.PropsSI('Pcrit', fluid)].  The parameter keys the program uses are
    ['H'], ['S'], ['D'], ['T'], ['P'], ['Q']; the fluids are ['Water'] and
    ['Air']. *)
Inductive Param : Set := pH | pS | pD | pT | pP | pQ.
Inductive Fluid : Set := Water | Air.

Inductive Query (F : Type) : Type :=
| QProps (out name1 : Param) (value1 : F) (name2 : Param) (value2 : F) (fluid : Fluid)
| QPcrit (fluid : Fluid).
Arguments QPcrit {F} fluid.

(** What a Python call can raise here: CoolProp's [ValueError] when the
    backend cannot resolve a state, and [ZeroDivisionError] from [/] on
    Python floats. *)
Inductive Exc (F : Type) : Type :=
| ValueError (q : Query F)
| ZeroDivisionError.
Arguments ZeroDivisionError {F}.

(** ** Computations

    A computation yields the list of backend queries it issued, in order, and
    either the exception that aborted it or its value. *)
Definition M (F A : Type) : Type := (list (Query F) * (Exc F + A))%type.

Definition queries {F A} (m : M F A) : list (Query F) := fst m.
Definition outcome {F A} (m : M F A) : Exc F + A := snd m.

Definition ret {F A} (a : A) : M F A := ([], inr a).
Definition raise {F A} (e : Exc F) : M F A := ([], inl e).

Definition bind {F A B} (m : M F A) (k : A -> M F B) : M F B :=
  match m with
  | (l, inl e) => (l, inl e)
  | (l, inr a) => let (l', r) := k a in (l ++ l', r)
  end.

Declare Scope comp_scope.
Delimit Scope comp_scope with comp.
Notation "x <- m ;; k" := (bind m (fun x => k))
  (at level 100, m at next level, right associativity) : comp_scope.
Notation "' pat <- m ;; k" := (bind m (fun x => match x with pat => k end))
  (at level 100, pat pattern, m at next level, right associativity) : comp_scope.

(** A list comprehension whose element expression may raise. *)
Fixpoint mapM {F X Y} (f : X -> M F Y) (xs : list X) : M F (list Y) :=
  match xs with
  | [] => ret []
  | x :: xs' => bind (f x) (fun y => bind (mapM f xs') (fun ys => ret (y :: ys)))
  end.

(** A [for] loop over a sequence, threading the variables it updates. *)
Fixpoint for_each {F X St} (xs : list X) (body : X -> St -> M F St) (st : St)
  : M F St :=
  match xs with
  | [] => ret st
  | x :: xs' => bind (body x st) (fun st' => for_each xs' body st')
  end.

(** ** Results *)

(** The [states] dictionary both solvers return. *)
Record States (F : Type) : Type := mkStates {
  labels : list string;
  T_C : list F;
  P_kPa : list F;
  h_kJ : list F;
  s_kJ : list F
}.

(** The tuple [calculate_steam_cycle] returns, in order. *)
Record SteamResult (F : Type) : Type := mkSteam {
  steam_h_cycle : list F;
  steam_s_cycle : list F;
  steam_sf : list F;
  steam_hf : list F;
  steam_sg : list F;
  steam_hg : list F;
  steam_pump_w : F;
  steam_boiler_q : F;
  steam_turb_w : F;
  steam_cond_q : F;
  steam_net_w : F;
  steam_eta : F;
  steam_states : States F
}.

(** One entry of the [traces] dictionary: [(H_dot list, T list, colour)]. *)
Definition Trace (F : Type) : Type := (list F * list F * string)%type.

Definition trace_H {F} (t : Trace F) : list F := fst (fst t).
Definition trace_T {F} (t : Trace F) : list F := snd (fst t).

Record Traces (F : Type) : Type := mkTraces {
  tr_compression : Trace F;      (* '1-2 Compression' *)
  tr_combustion : Trace F;       (* '2-3 Combustion' *)
  tr_expansion : Trace F;        (* '3-4 Expansion' *)
  tr_heat_rejection : Trace F    (* '4-1 Heat Rejection' *)
}.

(** The tuple [calculate_gas_cycle_THdot] returns, in order; [state_labels],
    four strings formatted from the state values for the plot, is left out. *)
Record GasResult (F : Type) : Type := mkGas {
  gas_traces : Traces F;
  gas_h_states : list F;
  gas_T_states : list F;
  gas_comp_w : F;
  gas_heat_in : F;
  gas_turb_w : F;
  gas_net_w : F;
  gas_bwr : F;
  gas_eta : F;
  gas_states : States F
}.

(** First and last element of a sequence. *)
Fixpoint last_error {A} (l : list A) : option A :=
  match l with
  | [] => None
  | [x] => Some x
  | _ :: l' => last_error l'
  end.

(** First and last sampled point [(H_dot, T)] of a trace, and the [i]-th
    state point [(h_states[i], T_states[i])] of a result. *)
Definition first_sample {F} (t : Trace F) : option (F * F) :=
  match hd_error (trace_H t), hd_error (trace_T t) with
  | Some h, Some T => Some (h, T)
  | _, _ => None
  end.

Definition last_sample {F} (t : Trace F) : option (F * F) :=
  match last_error (trace_H t), last_error (trace_T t) with
  | Some h, Some T => Some (h, T)
  | _, _ => None
  end.

Definition state_point {F} (r : GasResult F) (i : nat) : option (F * F) :=
  match nth_error (gas_h_states r) i, nth_error (gas_T_states r) i with
  | Some h, Some T => Some (h, T)
  | _, _ => None
  end.

(** Every trace starts at the state point of its start state and ends at
    the state point of its end state. *)
Definition boundary_exact {F} (r : GasResult F) : Prop :=
  exists p1 p2 p3 p4,
    state_point r 0 = Some p1 /\ state_point r 1 = Some p2 /\
    state_point r 2 = Some p3 /\ state_point r 3 = Some p4 /\
    first_sample (tr_compression (gas_traces r)) = Some p1 /\
    last_sample (tr_compression (gas_traces r)) = Some p2 /\
    first_sample (tr_combustion (gas_traces r)) = Some p2 /\
    last_sample (tr_combustion (gas_traces r)) = Some p3 /\
    first_sample (tr_expansion (gas_traces r)) = Some p3 /\
    last_sample (tr_expansion (gas_traces r)) = Some p4 /\
    first_sample (tr_heat_rejection (gas_traces r)) = Some p4 /\
    last_sample (tr_heat_rejection (gas_traces r)) = Some p1.

(** An equation of state relates temperature and enthalpy at a given
    pressure one to one: the backend answers [h] for [(P, T)] exactly when it
    answers [T] for [(P, h)]. *)
Definition consistent {F} (backend : Query F -> option F) (fluid : Fluid) : Prop :=
  forall P T h,
    backend (QProps pH pP P pT T fluid) = Some h <->
    backend (QProps pT pP P pH h fluid) = Some T.

(** ** The solvers *)

Section Solvers.

Context {F : Type} {NF : Num F}.

(** [CP.PropsSI], an external collaborator: [None] is its [ValueError]. *)
Variable backend : Query F -> option F.

(** [np.log], from numpy. *)
Variable np_log : F -> F.

Local Open Scope num_scope.
Local Open Scope comp_scope.

Definition ask (q : Query F) : M F F :=
  ([q], match backend q with
        | Some v => inr v
        | None => inl (ValueError q)
        end).

Definition PropsSI (out name1 : Param) (value1 : F) (name2 : Param) (value2 : F)
  (fluid : Fluid) : M F F :=
  ask (QProps out name1 value1 name2 value2 fluid).

Definition PropsSI_Pcrit (fluid : Fluid) : M F F := ask (QPcrit fluid).

(** [x / y] on Python floats. *)
Definition pydiv (x y : F) : M F F :=
  if is_zero y then raise ZeroDivisionError else ret (x / y).

Definition of_nat (n : nat) : F := ofQ (inject_Z (Z.of_nat n)).

(** [np.linspace(start, stop, num)] with its default [endpoint=True]:
    [num] samples [i*step + start] with [step = (stop - start)/(num - 1)]
    (computed as [(i/(num-1))*(stop - start) + start] when the step is zero),
    the last one then overwritten by [stop]; a single sample is
    [0*(stop - start) + start]. *)
Definition linspace_at (start stop : F) (num i : nat) : F :=
  let div := of_nat (num - 1) in
  let delta := stop - start in
  let step := delta / div in
  if is_zero step then of_nat i / div * delta + start
  else of_nat i * step + start.

Definition linspace (start stop : F) (num : nat) : list F :=
  match num with
  | O => []
  | S O => [of_nat 0 * (stop - start) + start]
  | S n => map (linspace_at start stop num) (seq 0 n) ++ [stop]
  end.

(** [calculate_steam_cycle(P_cond_kPa, P_boiler_kPa, T_boiler_C,
    pump_eff_pct, turb_eff_pct)].  The local list [T_states] of the source is
    assigned twice and never used; it is left out. *)
Definition calculate_steam_cycle
  (P_cond_kPa P_boiler_kPa T_boiler_C pump_eff_pct turb_eff_pct : F)
  : M F (SteamResult F) :=
  let P1 := P_cond_kPa * #1000 in
  let P2 := P_boiler_kPa * #1000 in
  let T3 := T_boiler_C + #273.15 in
  let eta_p := pump_eff_pct / #100 in
  let eta_t := turb_eff_pct / #100 in
  (* State 1: saturated liquid at condenser pressure *)
  h1 <- PropsSI pH pP P1 pQ #0 Water ;;
  s1 <- PropsSI pS pP P1 pQ #0 Water ;;
  d1 <- PropsSI pD pP P1 pQ #0 Water ;;
  v1 <- pydiv #1 d1 ;;
  t1 <- PropsSI pT pP P1 pQ #0 Water ;;
  let T1 := t1 - #273.15 in
  (* State 2: after pump *)
  let h2s := h1 + v1 * (P2 - P1) in
  dh <- pydiv (h2s - h1) eta_p ;;
  let h2 := h1 + dh in
  s2 <- PropsSI pS pP P2 pH h2 Water ;;
  t2 <- PropsSI pT pP P2 pH h2 Water ;;
  let T2 := t2 - #273.15 in
  (* State 3: superheated steam at boiler outlet *)
  h3 <- PropsSI pH pP P2 pT T3 Water ;;
  s3 <- PropsSI pS pP P2 pT T3 Water ;;
  (* State 4: after turbine *)
  h4s <- PropsSI pH pP P1 pS s3 Water ;;
  let h4 := h3 - (h3 - h4s) * eta_t in
  s4 <- PropsSI pS pP P1 pH h4 Water ;;
  t4 <- PropsSI pT pP P1 pH h4 Water ;;
  let T4 := t4 - #273.15 in
  (* Saturation dome *)
  pcrit <- PropsSI_Pcrit Water ;;
  let P_sat_arr := linspace #700 (pcrit * #0.9995) 300 in
  hf <- mapM (fun p => x <- PropsSI pH pP p pQ #0 Water ;; ret (x / #1000)) P_sat_arr ;;
  sf <- mapM (fun p => x <- PropsSI pS pP p pQ #0 Water ;; ret (x / #1000)) P_sat_arr ;;
  hg <- mapM (fun p => x <- PropsSI pH pP p pQ #1 Water ;; ret (x / #1000)) P_sat_arr ;;
  sg <- mapM (fun p => x <- PropsSI pS pP p pQ #1 Water ;; ret (x / #1000)) P_sat_arr ;;
  let h_cycle := map (fun x => x / #1000) [h1; h2; h3; h4; h1] in
  let s_cycle := map (fun x => x / #1000) [s1; s2; s3; s4; s1] in
  let pump_w := (h2 - h1) / #1000 in
  let boiler_q := (h3 - h2) / #1000 in
  let turb_w := (h3 - h4) / #1000 in
  let cond_q := (h4 - h1) / #1000 in
  let net_w := turb_w - pump_w in
  r <- pydiv net_w boiler_q ;;
  let eta := r * #100 in
  let states :=
    {| labels := ["1 (Cond Out)"; "2 (Pump Out)"; "3 (Turb In)"; "4 (Turb Out)"]%string;
       T_C := [T1; T2; T_boiler_C; T4];
       P_kPa := [P_cond_kPa; P_boiler_kPa; P_boiler_kPa; P_cond_kPa];
       h_kJ := [h1 / #1000; h2 / #1000; h3 / #1000; h4 / #1000];
       s_kJ := [s1 / #1000; s2 / #1000; s3 / #1000; s4 / #1000] |} in
  ret (mkSteam h_cycle s_cycle sf hf sg hg pump_w boiler_q turb_w cond_q net_w eta states).

(** [calculate_gas_cycle_THdot(pr, T1_C, T3_C, eta_c, eta_t, m_dot)].  The
    sample counts [N = 60] and [N2 = 80] are local constants of the source;
    they are binders here so that statements can range over them, and
    [calculate_gas_cycle_THdot] below fixes them as the source does. *)
Definition gas_cycle_THdot_with (N N2 : nat) (pr T1_C T3_C eta_c eta_t m_dot : F)
  : M F (GasResult F) :=
  let T1 := T1_C + #273.15 in
  let T3 := T3_C + #273.15 in
  let P1 := #101325 in
  let P2 := P1 * pr in
  let ec := eta_c / #100 in
  let et := eta_t / #100 in
  h1 <- PropsSI pH pP P1 pT T1 Air ;;
  s1 <- PropsSI pS pP P1 pT T1 Air ;;
  (* Isentropic compression *)
  h2s <- PropsSI pH pP P2 pS s1 Air ;;
  dh <- pydiv (h2s - h1) ec ;;
  let h2 := h1 + dh in
  T2 <- PropsSI pT pP P2 pH h2 Air ;;
  s2 <- PropsSI pS pP P2 pH h2 Air ;;
  h3 <- PropsSI pH pP P2 pT T3 Air ;;
  s3 <- PropsSI pS pP P2 pT T3 Air ;;
  h4s <- PropsSI pH pP P1 pS s3 Air ;;
  let h4 := h3 - (h3 - h4s) * et in
  T4 <- PropsSI pT pP P1 pH h4 Air ;;
  s4 <- PropsSI pS pP P1 pH h4 Air ;;
  (* Process 1-2: compression *)
  let P_12 := linspace P1 P2 N in
  '(H_12, T_12) <- for_each P_12 (fun P_i '(H_12, T_12) =>
      let frac := (np_log P_i - np_log P1) / (np_log P2 - np_log P1) in
      let h_i := h1 + frac * (h2 - h1) in
      t <- PropsSI pT pP P_i pH h_i Air ;;
      let T_i := t - #273.15 in
      ret (H_12 ++ [(h_i - h1) * m_dot / #1000], T_12 ++ [T_i])) ([], []) ;;
  (* Process 2-3: heat addition at constant pressure P2 *)
  let T_23_arr := linspace T2 T3 N2 in
  '(H_23, T_23) <- for_each T_23_arr (fun T_i '(H_23, T_23) =>
      h_i <- PropsSI pH pP P2 pT T_i Air ;;
      ret (H_23 ++ [(h_i - h1) * m_dot / #1000], T_23 ++ [T_i - #273.15])) ([], []) ;;
  (* Process 3-4: expansion *)
  let P_34 := linspace P2 P1 N in
  '(H_34, T_34) <- for_each P_34 (fun P_i '(H_34, T_34) =>
      let frac := (np_log P2 - np_log P_i) / (np_log P2 - np_log P1) in
      let h_i := h3 - frac * (h3 - h4) in
      t <- PropsSI pT pP P_i pH h_i Air ;;
      let T_i := t - #273.15 in
      ret (H_34 ++ [(h_i - h1) * m_dot / #1000], T_34 ++ [T_i])) ([], []) ;;
  (* Process 4-1: heat rejection at P1 *)
  let T_41_arr := linspace T4 T1 N in
  '(H_41, T_41) <- for_each T_41_arr (fun T_i '(H_41, T_41) =>
      h_i <- PropsSI pH pP P1 pT T_i Air ;;
      ret (H_41 ++ [(h_i - h1) * m_dot / #1000], T_41 ++ [T_i - #273.15])) ([], []) ;;
  let comp_w := (h2 - h1) * m_dot / #1000 in
  let heat_in := (h3 - h2) * m_dot / #1000 in
  let turb_w := (h3 - h4) * m_dot / #1000 in
  let net_w := turb_w - comp_w in
  b <- pydiv comp_w turb_w ;;
  let bwr := b * #100 in
  e <- pydiv net_w heat_in ;;
  let eta := e * #100 in
  let T_states := [T1_C; T2 - #273.15; T3_C; T4 - #273.15] in
  let h_states := [#0; (h2 - h1) * m_dot / #1000; (h3 - h1) * m_dot / #1000;
                   (h4 - h1) * m_dot / #1000] in
  let states :=
    {| labels := ["1 (Comp In)"; "2 (Comp Out)"; "3 (Turb In)"; "4 (Turb Out)"]%string;
       T_C := [T1_C; T2 - #273.15; T3_C; T4 - #273.15];
       P_kPa := [P1 / #1000; P2 / #1000; P2 / #1000; P1 / #1000];
       h_kJ := [h1 / #1000; h2 / #1000; h3 / #1000; h4 / #1000];
       s_kJ := [s1 / #1000; s2 / #1000; s3 / #1000; s4 / #1000] |} in
  let traces :=
    {| tr_compression := (H_12, T_12, "#f39c12"%string);
       tr_combustion := (H_23, T_23, "#e74c3c"%string);
       tr_expansion := (H_34, T_34, "#9b59b6"%string);
       tr_heat_rejection := (H_41, T_41, "#3498db"%string) |} in
  ret (mkGas traces h_states T_states comp_w heat_in turb_w net_w bwr eta states).

Definition calculate_gas_cycle_THdot := gas_cycle_THdot_with 60 80.

(** [max(0, eff)], the clamp the dashboard applies when it prints an
    efficiency ([max] returns its first argument unless the second is
    greater). *)
Definition display_eff (eff : F) : F := if nltb #0 eff then eff else #0.

(** [biomass_outputs(m_total, moist_pct, ad_eff_pct, htc_conv_pct)]; the
    result is the tuple [(m_rich, m_lean, m_bio, m_char, m_vol)]. *)
Definition biomass_outputs (m_total moist_pct ad_eff_pct htc_conv_pct : F)
  : F * F * F * F * F :=
  let m_rich := m_total * moist_pct / #100 in
  let m_lean := m_total * (#1 - moist_pct / #100) in
  let m_bio := m_total * ad_eff_pct / #100 in
  let m_char := m_lean * htc_conv_pct / #100 in
  let m_vol := m_lean * (#1 - htc_conv_pct / #100) in
  (m_rich, m_lean, m_bio, m_char, m_vol).

End Solvers.

(** ** A stand-in backend

    CoolProp itself is outside the program.  For running the solvers a small
    closed-form fluid model takes its place: a liquid, a saturated and a
    superheated branch for water, a calorically perfect gas for air whose enthalpy and
    temperature queries invert each other.  Other pairs are refused. *)
Section ToyBackend.

Context {F : Type} {NF : Num F}.
Local Open Scope num_scope.

Definition toy_water (out name1 : Param) (P : F) (name2 : Param) (x : F) : option F :=
  match out, name1, name2 with
  | pH, pP, pQ => Some (#100000 + P / #10 + #2000000 * x)
  | pS, pP, pQ => Some (#500 + P / #10000 + #6000 * x)
  | pD, pP, pQ => Some #1000
  | pT, pP, pQ => Some (#300 + P / #10000)
  | pH, pP, pT => Some (#2000 * x + #1500000)
  | pS, pP, pT => Some (#10 * x - P / #1000)
  | pS, pP, pH =>
      Some (if nltb x #1500000 then x / #200 else x / #500 - P / #1000)
  | pT, pP, pH =>
      Some (if nltb x #1500000 then #273.15 + x / #4200
            else (x - #1500000) / #2000)
  | pH, pP, pS => Some (#500 * (x + P / #1000))
  | _, _, _ => None
  end.

Definition toy_air (out name1 : Param) (P : F) (name2 : Param) (x : F) : option F :=
  match out, name1, name2 with
  | pH, pP, pT => Some (#1000 * x)
  | pT, pP, pH => Some (x / #1000)
  | pS, pP, pT => Some (#1000 * x / (P + #1013250))
  | pS, pP, pH => Some (x / (P + #1013250))
  | pH, pP, pS => Some (x * (P + #1013250))
  | pD, pP, pT => Some (P / (#287 * x))
  | _, _, _ => None
  end.

Definition toy_backend (q : Query F) : option F :=
  match q with
  | QPcrit Water => Some #22064000
  | QPcrit Air => Some #3786000
  | QProps out name1 v1 name2 v2 Water => toy_water out name1 v1 name2 v2
  | QProps out name1 v1 name2 v2 Air => toy_air out name1 v1 name2 v2
  end.

End ToyBackend.

(** * Vocabulary for the statements *)

Section Measures.

Context {F : Type} {NF : Num F}.
Variable backend : Query F -> option F.

(** The four sampling loops of the gas solver share one shape: one query per
    sample, one value appended to each of two lists. *)
Definition sample_body X (q : X -> Query F) (fH fT : X -> F -> F)
  (x : X) (st : list F * list F) : M F (list F * list F) :=
  bind (ask backend (q x))
       (fun t => ret (fst st ++ [fH x t], snd st ++ [fT x t])).

(** [cost n m]: the computation [m] issues at most [n] queries, and exactly
    [n] when it returns. *)
Definition cost A (n : nat) (m : M F A) : Prop :=
  (length (queries m) <= n)%nat /\
  forall a, outcome m = inr a -> length (queries m) = n.

(** [fails_well m]: if [m] aborts, it aborts with [ZeroDivisionError], or
    with the [ValueError] of a query the backend refused, that query being
    the last one issued. *)
Definition fails_well A (m : M F A) : Prop :=
  forall e, outcome m = inl e ->
    e = ZeroDivisionError \/
    exists q l, e = ValueError q /\ backend q = None /\ queries m = l ++ [q].

End Measures.

(** ** What a run of the gas solver asks and returns *)

Section GasVocabulary.

Context {F : Type} {NF : Num F}.
Variable backend : Query F -> option F.
Variable np_log : F -> F.
Local Open Scope num_scope.

(** The answers to the ten state-point queries. *)
Record GasAnswers : Type := mkGasAnswers {
  a_h1 : F; a_s1 : F; a_h2s : F; a_T2 : F; a_s2 : F;
  a_h3 : F; a_s3 : F; a_h4s : F; a_T4 : F; a_s4 : F
}.

(** Position of [P_i] between [P1] and [P2] on the logarithmic pressure
    scale, counted from [P1] and from [P2]. *)
Definition log_frac_up (P1 P2 P_i : F) : F :=
  (np_log P_i - np_log P1) / (np_log P2 - np_log P1).
Definition log_frac_down (P1 P2 P_i : F) : F :=
  (np_log P2 - np_log P_i) / (np_log P2 - np_log P1).

(** Enthalpy rate above state 1. *)
Definition Hdot (h1 m_dot h : F) : F := (h - h1) * m_dot / #1000.

Variables (N N2 : nat) (pr T1_C T3_C eta_c eta_t m_dot : F).

Definition gas_T1 : F := T1_C + #273.15.
Definition gas_T3 : F := T3_C + #273.15.
Definition gas_P1 : F := #101325.
Definition gas_P2 : F := gas_P1 * pr.
Definition gas_ec : F := eta_c / #100.
Definition gas_et : F := eta_t / #100.

Definition gas_h2 (a : GasAnswers) : F := a_h1 a + (a_h2s a - a_h1 a) / gas_ec.
Definition gas_h4 (a : GasAnswers) : F := a_h3 a - (a_h3 a - a_h4s a) * gas_et.

(** Enthalpy along the compression and the expansion leg at pressure [P_i]. *)
Definition h_12 (a : GasAnswers) (P_i : F) : F :=
  a_h1 a + log_frac_up gas_P1 gas_P2 P_i * (gas_h2 a - a_h1 a).
Definition h_34 (a : GasAnswers) (P_i : F) : F :=
  a_h3 a - log_frac_down gas_P1 gas_P2 P_i * (a_h3 a - gas_h4 a).

Definition q_12 (a : GasAnswers) (P_i : F) : Query F :=
  QProps pT pP P_i pH (h_12 a P_i) Air.
Definition q_23 (T_i : F) : Query F := QProps pH pP gas_P2 pT T_i Air.
Definition q_34 (a : GasAnswers) (P_i : F) : Query F :=
  QProps pT pP P_i pH (h_34 a P_i) Air.
Definition q_41 (T_i : F) : Query F := QProps pH pP gas_P1 pT T_i Air.

Definition state_queries (a : GasAnswers) : list (Query F) :=
  [ QProps pH pP gas_P1 pT gas_T1 Air; QProps pS pP gas_P1 pT gas_T1 Air;
    QProps pH pP gas_P2 pS (a_s1 a) Air;
    QProps pT pP gas_P2 pH (gas_h2 a) Air; QProps pS pP gas_P2 pH (gas_h2 a) Air;
    QProps pH pP gas_P2 pT gas_T3 Air; QProps pS pP gas_P2 pT gas_T3 Air;
    QProps pH pP gas_P1 pS (a_s3 a) Air;
    QProps pT pP gas_P1 pH (gas_h4 a) Air; QProps pS pP gas_P1 pH (gas_h4 a) Air ].

Definition state_answers (a : GasAnswers) : list F :=
  [ a_h1 a; a_s1 a; a_h2s a; a_T2 a; a_s2 a;
    a_h3 a; a_s3 a; a_h4s a; a_T4 a; a_s4 a ].

Definition P_12 : list F := linspace gas_P1 gas_P2 N.
Definition T_23_arr (a : GasAnswers) : list F := linspace (a_T2 a) gas_T3 N2.
Definition P_34 : list F := linspace gas_P2 gas_P1 N.
Definition T_41_arr (a : GasAnswers) : list F := linspace (a_T4 a) gas_T1 N.

(** The answers to the sampling queries of the four legs. *)
Record LegAnswers : Type := mkLegAnswers {
  t_12 : list F; h_23 : list F; t_34 : list F; h_41 : list F
}.

Definition gas_queries (a : GasAnswers) : list (Query F) :=
  state_queries a ++ map (q_12 a) P_12 ++ map q_23 (T_23_arr a)
  ++ map (q_34 a) P_34 ++ map q_41 (T_41_arr a).

Definition answered (a : GasAnswers) (b : LegAnswers) : Prop :=
  Forall2 (fun q v => backend q = Some v) (state_queries a) (state_answers a) /\
  Forall2 (fun P_i t => backend (q_12 a P_i) = Some t) P_12 (t_12 b) /\
  Forall2 (fun T_i h => backend (q_23 T_i) = Some h) (T_23_arr a) (h_23 b) /\
  Forall2 (fun P_i t => backend (q_34 a P_i) = Some t) P_34 (t_34 b) /\
  Forall2 (fun T_i h => backend (q_41 T_i) = Some h) (T_41_arr a) (h_41 b).

Definition gas_comp_w_of (a : GasAnswers) : F := (gas_h2 a - a_h1 a) * m_dot / #1000.
Definition gas_heat_in_of (a : GasAnswers) : F := (a_h3 a - gas_h2 a) * m_dot / #1000.
Definition gas_turb_w_of (a : GasAnswers) : F := (a_h3 a - gas_h4 a) * m_dot / #1000.

(** The value the solver returns from these answers. *)
Definition gas_result (a : GasAnswers) (b : LegAnswers) : GasResult F :=
  let h1 := a_h1 a in
  let net_w := gas_turb_w_of a - gas_comp_w_of a in
  {| gas_traces :=
       {| tr_compression :=
            (map (fun xv => Hdot h1 m_dot (h_12 a (fst xv))) (combine P_12 (t_12 b)),
             map (fun xv => snd xv - #273.15) (combine P_12 (t_12 b)),
             "#f39c12"%string);
          tr_combustion :=
            (map (fun xv => Hdot h1 m_dot (snd xv)) (combine (T_23_arr a) (h_23 b)),
             map (fun xv => fst xv - #273.15) (combine (T_23_arr a) (h_23 b)),
             "#e74c3c"%string);
          tr_expansion :=
            (map (fun xv => Hdot h1 m_dot (h_34 a (fst xv))) (combine P_34 (t_34 b)),
             map (fun xv => snd xv - #273.15) (combine P_34 (t_34 b)),
             "#9b59b6"%string);
          tr_heat_rejection :=
            (map (fun xv => Hdot h1 m_dot (snd xv)) (combine (T_41_arr a) (h_41 b)),
             map (fun xv => fst xv - #273.15) (combine (T_41_arr a) (h_41 b)),
             "#3498db"%string) |};
     gas_h_states := [#0; Hdot h1 m_dot (gas_h2 a); Hdot h1 m_dot (a_h3 a);
                      Hdot h1 m_dot (gas_h4 a)];
     gas_T_states := [T1_C; a_T2 a - #273.15; T3_C; a_T4 a - #273.15];
     gas_comp_w := gas_comp_w_of a;
     gas_heat_in := gas_heat_in_of a;
     gas_turb_w := gas_turb_w_of a;
     gas_net_w := net_w;
     gas_bwr := gas_comp_w_of a / gas_turb_w_of a * #100;
     gas_eta := net_w / gas_heat_in_of a * #100;
     gas_states :=
       {| labels := ["1 (Comp In)"; "2 (Comp Out)"; "3 (Turb In)"; "4 (Turb Out)"]%string;
          T_C := [T1_C; a_T2 a - #273.15; T3_C; a_T4 a - #273.15];
          P_kPa := [gas_P1 / #1000; gas_P2 / #1000; gas_P2 / #1000; gas_P1 / #1000];
          h_kJ := [h1 / #1000; gas_h2 a / #1000; a_h3 a / #1000; gas_h4 a / #1000];
          s_kJ := [a_s1 a / #1000; a_s2 a / #1000; a_s3 a / #1000; a_s4 a / #1000] |}
  |}.

(** What the solver yields once every query is answered: the two unguarded
    divisions decide between [ZeroDivisionError] and [gas_result]. *)
Definition gas_final (a : GasAnswers) (b : LegAnswers) : Exc F + GasResult F :=
  if is_zero (gas_turb_w_of a) then inl ZeroDivisionError
  else if is_zero (gas_heat_in_of a) then inl ZeroDivisionError
  else inr (gas_result a b).

End GasVocabulary.

(** ** What a run of the steam solver asks and returns *)

Section SteamVocabulary.

Context {F : Type} {NF : Num F}.
Variable backend : Query F -> option F.
Local Open Scope num_scope.

(** The answers to the twelve scalar queries. *)
Record SteamAnswers : Type := mkSteamAnswers {
  w_h1 : F; w_s1 : F; w_d1 : F; w_t1 : F; w_s2 : F; w_t2 : F;
  w_h3 : F; w_s3 : F; w_h4s : F; w_s4 : F; w_t4 : F; w_pcrit : F
}.

(** The answers to the saturation queries along the dome, in J/kg and
    J/(kg K). *)
Record DomeAnswers : Type := mkDomeAnswers {
  w_hf : list F; w_sf : list F; w_hg : list F; w_sg : list F
}.

Variables (P_cond_kPa P_boiler_kPa T_boiler_C pump_eff_pct turb_eff_pct : F).

Definition steam_P1 : F := P_cond_kPa * #1000.
Definition steam_P2 : F := P_boiler_kPa * #1000.
Definition steam_T3 : F := T_boiler_C + #273.15.
Definition steam_eta_p : F := pump_eff_pct / #100.
Definition steam_eta_t : F := turb_eff_pct / #100.

Definition steam_v1 (a : SteamAnswers) : F := #1 / w_d1 a.
Definition steam_h2s (a : SteamAnswers) : F :=
  w_h1 a + steam_v1 a * (steam_P2 - steam_P1).
Definition steam_h2 (a : SteamAnswers) : F :=
  w_h1 a + (steam_h2s a - w_h1 a) / steam_eta_p.
Definition steam_h4 (a : SteamAnswers) : F :=
  w_h3 a - (w_h3 a - w_h4s a) * steam_eta_t.

Definition P_sat_arr (a : SteamAnswers) : list F :=
  linspace #700 (w_pcrit a * #0.9995) 300.

Definition q_sat (out : Param) (x : F) (p : F) : Query F :=
  QProps out pP p pQ x Water.

Definition scalar_queries (a : SteamAnswers) : list (Query F) :=
  [ q_sat pH #0 steam_P1; q_sat pS #0 steam_P1; q_sat pD #0 steam_P1;
    q_sat pT #0 steam_P1;
    QProps pS pP steam_P2 pH (steam_h2 a) Water;
    QProps pT pP steam_P2 pH (steam_h2 a) Water;
    QProps pH pP steam_P2 pT steam_T3 Water;
    QProps pS pP steam_P2 pT steam_T3 Water;
    QProps pH pP steam_P1 pS (w_s3 a) Water;
    QProps pS pP steam_P1 pH (steam_h4 a) Water;
    QProps pT pP steam_P1 pH (steam_h4 a) Water;
    QPcrit Water ].

Definition scalar_answers (a : SteamAnswers) : list F :=
  [ w_h1 a; w_s1 a; w_d1 a; w_t1 a; w_s2 a; w_t2 a;
    w_h3 a; w_s3 a; w_h4s a; w_s4 a; w_t4 a; w_pcrit a ].

Definition steam_queries (a : SteamAnswers) : list (Query F) :=
  scalar_queries a
  ++ map (q_sat pH #0) (P_sat_arr a) ++ map (q_sat pS #0) (P_sat_arr a)
  ++ map (q_sat pH #1) (P_sat_arr a) ++ map (q_sat pS #1) (P_sat_arr a).

Definition steam_answered (a : SteamAnswers) (b : DomeAnswers) : Prop :=
  Forall2 (fun q v => backend q = Some v) (scalar_queries a) (scalar_answers a) /\
  Forall2 (fun p v => backend (q_sat pH #0 p) = Some v) (P_sat_arr a) (w_hf b) /\
  Forall2 (fun p v => backend (q_sat pS #0 p) = Some v) (P_sat_arr a) (w_sf b) /\
  Forall2 (fun p v => backend (q_sat pH #1 p) = Some v) (P_sat_arr a) (w_hg b) /\
  Forall2 (fun p v => backend (q_sat pS #1 p) = Some v) (P_sat_arr a) (w_sg b).

Definition kilo (x : F) : F := x / #1000.

Definition steam_pump_w_of (a : SteamAnswers) : F := (steam_h2 a - w_h1 a) / #1000.
Definition steam_boiler_q_of (a : SteamAnswers) : F := (w_h3 a - steam_h2 a) / #1000.
Definition steam_turb_w_of (a : SteamAnswers) : F := (w_h3 a - steam_h4 a) / #1000.
Definition steam_cond_q_of (a : SteamAnswers) : F := (steam_h4 a - w_h1 a) / #1000.

(** The value the solver returns from these answers. *)
Definition steam_result (a : SteamAnswers) (b : DomeAnswers) : SteamResult F :=
  let net_w := steam_turb_w_of a - steam_pump_w_of a in
  {| steam_h_cycle := map kilo [w_h1 a; steam_h2 a; w_h3 a; steam_h4 a; w_h1 a];
     steam_s_cycle := map kilo [w_s1 a; w_s2 a; w_s3 a; w_s4 a; w_s1 a];
     steam_sf := map kilo (w_sf b);
     steam_hf := map kilo (w_hf b);
     steam_sg := map kilo (w_sg b);
     steam_hg := map kilo (w_hg b);
     steam_pump_w := steam_pump_w_of a;
     steam_boiler_q := steam_boiler_q_of a;
     steam_turb_w := steam_turb_w_of a;
     steam_cond_q := steam_cond_q_of a;
     steam_net_w := net_w;
     steam_eta := net_w / steam_boiler_q_of a * #100;
     steam_states :=
       {| labels := ["1 (Cond Out)"; "2 (Pump Out)"; "3 (Turb In)"; "4 (Turb Out)"]%string;
          T_C := [w_t1 a - #273.15; w_t2 a - #273.15; T_boiler_C; w_t4 a - #273.15];
          P_kPa := [P_cond_kPa; P_boiler_kPa; P_boiler_kPa; P_cond_kPa];
          h_kJ := [kilo (w_h1 a); kilo (steam_h2 a); kilo (w_h3 a); kilo (steam_h4 a)];
          s_kJ := [kilo (w_s1 a); kilo (w_s2 a); kilo (w_s3 a); kilo (w_s4 a)] |}
  |}.

(** What the solver yields once every query is answered and the density and
    the pump efficiency are not zero: the unguarded division by the boiler
    heat decides between [ZeroDivisionError] and [steam_result]. *)
Definition steam_final (a : SteamAnswers) (b : DomeAnswers)
  : Exc F + SteamResult F :=
  if is_zero (steam_boiler_q_of a) then inl ZeroDivisionError
  else inr (steam_result a b).

End SteamVocabulary.

(** ** The answers of the stand-in backend *)

Section ToyAnswers.

Context {F : Type} {NF : Num F}.
Variable np_log : F -> F.
Local Open Scope num_scope.

Section Gas.

Variables (N N2 : nat) (pr T1_C T3_C eta_c eta_t : F).

Definition toy_gas_a : GasAnswers :=
  let T1 := gas_T1 T1_C in
  let T3 := gas_T3 T3_C in
  let P1 := gas_P1 in
  let P2 := gas_P2 pr in
  let h1 := #1000 * T1 in
  let s1 := #1000 * T1 / (P1 + #1013250) in
  let h2s := s1 * (P2 + #1013250) in
  let h2 := h1 + (h2s - h1) / gas_ec eta_c in
  let h3 := #1000 * T3 in
  let s3 := #1000 * T3 / (P2 + #1013250) in
  let h4s := s3 * (P1 + #1013250) in
  let h4 := h3 - (h3 - h4s) * gas_et eta_t in
  {| a_h1 := h1; a_s1 := s1; a_h2s := h2s;
     a_T2 := h2 / #1000; a_s2 := h2 / (P2 + #1013250);
     a_h3 := h3; a_s3 := s3; a_h4s := h4s;
     a_T4 := h4 / #1000; a_s4 := h4 / (P1 + #1013250) |}.

Definition toy_gas_b : LegAnswers :=
  let a := toy_gas_a in
  {| t_12 := map (fun P_i => h_12 np_log pr eta_c a P_i / #1000) (P_12 N pr);
     h_23 := map (fun T_i => #1000 * T_i) (T_23_arr N2 T3_C a);
     t_34 := map (fun P_i => h_34 np_log pr eta_t a P_i / #1000) (P_34 N pr);
     h_41 := map (fun T_i => #1000 * T_i) (T_41_arr N T1_C a) |}.

End Gas.

Section Steam.

Variables (P_cond_kPa P_boiler_kPa T_boiler_C pump_eff_pct turb_eff_pct : F).

Definition toy_steam_a : SteamAnswers :=
  let P1 := steam_P1 P_cond_kPa in
  let P2 := steam_P2 P_boiler_kPa in
  let T3 := steam_T3 T_boiler_C in
  let h1 := #100000 + P1 / #10 + #2000000 * #0 in
  let d1 := #1000 in
  let h2 := h1 + (h1 + #1 / d1 * (P2 - P1) - h1) / steam_eta_p pump_eff_pct in
  let h3 := #2000 * T3 + #1500000 in
  let s3 := #10 * T3 - P2 / #1000 in
  let h4s := #500 * (s3 + P1 / #1000) in
  let h4 := h3 - (h3 - h4s) * steam_eta_t turb_eff_pct in
  let s_of (P h : F) := if nltb h #1500000 then h / #200 else h / #500 - P / #1000 in
  let t_of (h : F) := if nltb h #1500000 then #273.15 + h / #4200
                      else (h - #1500000) / #2000 in
  {| w_h1 := h1; w_s1 := #500 + P1 / #10000 + #6000 * #0; w_d1 := d1;
     w_t1 := #300 + P1 / #10000;
     w_s2 := s_of P2 h2; w_t2 := t_of h2;
     w_h3 := h3; w_s3 := s3; w_h4s := h4s;
     w_s4 := s_of P1 h4; w_t4 := t_of h4;
     w_pcrit := #22064000 |}.

Definition toy_steam_b : DomeAnswers :=
  let dome := P_sat_arr toy_steam_a in
  {| w_hf := map (fun p => #100000 + p / #10 + #2000000 * #0) dome;
     w_sf := map (fun p => #500 + p / #10000 + #6000 * #0) dome;
     w_hg := map (fun p => #100000 + p / #10 + #2000000 * #1) dome;
     w_sg := map (fun p => #500 + p / #10000 + #6000 * #1) dome |}.

End Steam.

End ToyAnswers.

(** The inverted pressures of the specification's error scenario, on
    binary64 and the stand-in backend: [Pc = 2000 kPa], [Pb = 10 kPa]. *)
Definition inverted_run : M float (SteamResult float) :=
  calculate_steam_cycle toy_backend
    (float_ofQ 2000) (float_ofQ 10) (float_ofQ 350) (float_ofQ 85) (float_ofQ 85).

(** ** Properties of results *)

Section ResultProperties.

Context {F : Type} {NF : Num F}.
Local Open Scope num_scope.

(** What the specification says of the derived scalars of the steam cycle:
    the works and heats are the enthalpy differences of the reported states
    (in kJ/kg), the net work is turbine work minus pump work and the
    efficiency is net work over boiler heat, as a percentage. *)
Definition steam_derived (r : SteamResult F) : Prop :=
  exists h1 h2 h3 h4,
    h_kJ (steam_states r) = [h1 / #1000; h2 / #1000; h3 / #1000; h4 / #1000] /\
    steam_pump_w r = (h2 - h1) / #1000 /\
    steam_boiler_q r = (h3 - h2) / #1000 /\
    steam_turb_w r = (h3 - h4) / #1000 /\
    steam_net_w r = steam_turb_w r - steam_pump_w r /\
    steam_eta r = steam_net_w r / steam_boiler_q r * #100.

(** The same for the gas cycle, every work and heat term scaled by the mass
    flow, and with the back-work ratio, compressor work over turbine work as
    a percentage. *)
Definition gas_derived (m_dot : F) (r : GasResult F) : Prop :=
  exists h1 h2 h3 h4,
    h_kJ (gas_states r) = [h1 / #1000; h2 / #1000; h3 / #1000; h4 / #1000] /\
    gas_comp_w r = (h2 - h1) * m_dot / #1000 /\
    gas_heat_in r = (h3 - h2) * m_dot / #1000 /\
    gas_turb_w r = (h3 - h4) * m_dot / #1000 /\
    gas_net_w r = gas_turb_w r - gas_comp_w r /\
    gas_bwr r = gas_comp_w r / gas_turb_w r * #100 /\
    gas_eta r = gas_net_w r / gas_heat_in r * #100.

(** A trace is sampled along the pressures [Ps] when its enthalpy rates are
    those of the enthalpies [h_at P_i], above [h1] and scaled by the mass
    flow, and its temperatures are the backend's answers at
    [(P_i, h_at P_i)], in Celsius. *)
Definition sampled_along (backend : Query F -> option F)
  (m_dot h1 : F) (h_at : F -> F) (Ps : list F) (tr : Trace F) : Prop :=
  trace_H tr = map (fun P_i => (h_at P_i - h1) * m_dot / #1000) Ps /\
  Forall2 (fun P_i T_i =>
             exists t, backend (QProps pT pP P_i pH (h_at P_i) Air) = Some t /\
                       T_i = t - #273.15)
          Ps (trace_T tr).

End ResultProperties.

Section DomeProperty.

Local Open Scope R_scope.

(** The saturation dome of a result [r], for a backend that reports the
    critical pressure [pc] for water: the pressure samples are 300 strictly
    increasing values, the first 700 Pa and the last 99.95 % of [pc]; the
    four sequences of [r] have one entry per pressure sample, in the order
    of the samples, each the backend's answer at that pressure and quality 0
    resp. 1, divided by 1000. *)
Definition dome_of (backend : Query R -> option R) (pc : R) (r : SteamResult R)
  : Prop :=
  let P_sat := linspace (F := R) (#700)%num (pc * #0.9995)%num 300 in
  let sat out x p y :=
    exists v, backend (QProps out pP p pQ x Water) = Some v /\ y = v / 1000 in
  hd_error P_sat = Some 700 /\
  last_error P_sat = Some (pc * 0.9995) /\
  (forall i j, (i < j < 300)%nat -> nth i P_sat 0 < nth j P_sat 0) /\
  length P_sat = 300%nat /\
  length (steam_hf r) = 300%nat /\ length (steam_sf r) = 300%nat /\
  length (steam_hg r) = 300%nat /\ length (steam_sg r) = 300%nat /\
  Forall2 (sat pH 0) P_sat (steam_hf r) /\
  Forall2 (sat pS 0) P_sat (steam_sf r) /\
  Forall2 (sat pH 1) P_sat (steam_hg r) /\
  Forall2 (sat pS 1) P_sat (steam_sg r).

End DomeProperty.

(** * The dashboard around the solvers

    The script that calls the solvers: the analysis block that runs them in
    turn, the values it derives for the charts, the state kept between two
    runs of the script and the tooltips of the schematic, which are built
    from that state. *)

(** [l[i]] on a Python list: a negative index counts from the end, and
    [None] is [IndexError]. *)
Definition py_index {A} (l : list A) (i : Z) : option A :=
  let n := Z.of_nat (length l) in
  if (0 <=? i)%Z then nth_error l (Z.to_nat i)
  else if (- n <=? i)%Z then nth_error l (Z.to_nat (n + i))
  else None.

(** A value of the [states] dictionary: the list of labels or a list of
    numbers. *)
Inductive DictValue (F : Type) : Type :=
| Strs (l : list string)
| Nums (l : list F).

(** [d[key]] on a [states] dictionary; [None] is [KeyError]. *)
Definition states_lookup {F} (d : States F) (key : string) : option (DictValue F) :=
  if (key =? "labels")%string then Some (Strs F (labels d))
  else if (key =? "T_C")%string then Some (Nums (T_C d))
  else if (key =? "P_kPa")%string then Some (Nums (P_kPa d))
  else if (key =? "h_kJ")%string then Some (Nums (h_kJ d))
  else if (key =? "s_kJ")%string then Some (Nums (s_kJ d))
  else None.

(** The fluid a query is about, and the queries the backend answers. *)
Definition query_fluid {F} (q : Query F) : Fluid :=
  match q with
  | QProps _ _ _ _ _ fluid => fluid
  | QPcrit fluid => fluid
  end.

Definition answers {F} (backend : Query F -> option F) (q : Query F) : Prop :=
  backend q <> None.

(** [orderly backend m]: every query of [m] before a failure was answered;
    if [m] aborts with a [ValueError], the error names the one query the
    backend refused, which is the last one issued. *)
Definition orderly {F A} (backend : Query F -> option F) (m : M F A) : Prop :=
  match outcome m with
  | inl (ValueError q) =>
      exists l, queries m = l ++ [q] /\ Forall (answers backend) l /\
                backend q = None
  | _ => Forall (answers backend) (queries m)
  end.

(** The values of the sidebar widgets, under the names the script gives
    them. *)
Record Inputs (F : Type) : Type := mkInputs {
  m_biomass : F; moist_pct : F; htc_conv : F; ad_eff : F; biogas_lhv : F;
  p_cond : F; p_boiler : F; t_boiler : F; pump_eff : F; s_turb_eff : F;
  pr_ratio : F; t_air_in : F; t_turb_in : F; comp_eff : F; g_turb_eff : F;
  m_dot_gas : F
}.

(** What the analysis block has computed before it draws anything. *)
Record Calculations (F : Type) : Type := mkCalculations {
  calc_steam : SteamResult F;
  calc_gas : GasResult F;
  calc_biomass : F * F * F * F * F;
  bio_power : F
}.

(** [st.session_state]: the keys the script writes. *)
Record Session (F : Type) : Type := mkSession {
  ss_steam_states : option (States F);
  ss_gas_states : option (States F);
  ss_bio_lbl : option (F * F)
}.

(** What the first tab shows after a run of the script: the invitation to
    press the button, the results, or the calculation error. *)
Inductive Report (F : Type) : Type :=
| Invitation
| Results (c : Calculations F)
| CalculationError (e : Exc F).
Arguments Invitation {F}.

(** What one run of the script leaves: the tooltips of the schematic, the
    backend queries issued, the first tab and the session state. *)
Record Run (F : Type) : Type := mkRun {
  run_s_tip : list string;
  run_g_tip : list string;
  run_queries : list (Query F);
  run_report : Report F;
  run_session : Session F
}.

Section Dashboard.

Context {F : Type} {NF : Num F}.
Variable backend : Query F -> option F.
Variable np_log : F -> F.

(** Python's fixed-point formatting [f"{x:.{dec}f}"] of a float. *)
Variable format_f : nat -> F -> string.

Local Open Scope num_scope.
Local Open Scope comp_scope.

(** [_fmt(d, key, i, unit, dec)]: the formatted entry, or a dash when the
    lookup or the formatting raises (the labels are strings, which the [f]
    format refuses). *)
Definition _fmt (d : States F) (key : string) (i : Z) (unit : string)
  (dec : nat) : string :=
  match states_lookup d key with
  | Some (Nums l) =>
      match py_index l i with
      | Some v => (format_f dec v ++ " " ++ unit)%string
      | None => "—"%string
      end
  | Some (Strs _ _) => "—"%string
  | None => "—"%string
  end.

(** The tooltip of state [i + 1]. *)
Definition state_tip (d : States F) (i : nat) : string :=
  ("T=" ++ _fmt d "T_C" (Z.of_nat i) "°C" 1
   ++ " | P=" ++ _fmt d "P_kPa" (Z.of_nat i) "kPa" 0
   ++ "<br>h=" ++ _fmt d "h_kJ" (Z.of_nat i) "kJ/kg" 1
   ++ " | s=" ++ _fmt d "s_kJ" (Z.of_nat i) "kJ/kg·K" 4)%string.

(** [s_tip] and [g_tip], from the stored steam and gas states. *)
Definition tips (stored : option (States F)) : list string :=
  match stored with
  | Some d => map (state_tip d) (seq 0 4)
  | None => repeat "Run analysis to see state properties"%string 4
  end.

Definition s_tip (sess : Session F) : list string := tips (ss_steam_states sess).
Definition g_tip (sess : Session F) : list string := tips (ss_gas_states sess).

(** The calculations of the analysis block, in the order of the script. *)
Definition run_calculations (inp : Inputs F) : M F (Calculations F) :=
  steam <- calculate_steam_cycle backend (p_cond inp) (p_boiler inp)
             (t_boiler inp) (pump_eff inp) (s_turb_eff inp) ;;
  gas <- calculate_gas_cycle_THdot backend np_log (pr_ratio inp) (t_air_in inp)
           (t_turb_in inp) (comp_eff inp) (g_turb_eff inp) (m_dot_gas inp) ;;
  let out := biomass_outputs (m_biomass inp) (moist_pct inp) (ad_eff inp)
               (htc_conv inp) in
  let '(m_rich, m_lean, m_bio, m_char, m_vol) := out in
  let bio_power := m_bio * biogas_lhv inp * #1000 in
  ret (mkCalculations steam gas out bio_power).

(** The session state after the calculations have succeeded. *)
Definition store (c : Calculations F) : Session F :=
  let '(m_rich, _, m_bio, _, _) := calc_biomass c in
  {| ss_steam_states := Some (steam_states (calc_steam c));
     ss_gas_states := Some (gas_states (calc_gas c));
     ss_bio_lbl := Some (m_rich, m_bio) |}.

(** One run of the script, top to bottom: the schematic with its tooltips is
    built from the session state first; the analysis block runs when the
    button was pressed, stores the states when the calculations succeed and
    reports the exception otherwise. *)
Definition script_run (sess : Session F) (inp : Inputs F) (analyze_btn : bool)
  : Run F :=
  let st := s_tip sess in
  let gt := g_tip sess in
  if analyze_btn then
    match run_calculations inp with
    | (l, inr c) => mkRun st gt l (Results c) (store c)
    | (l, inl e) => mkRun st gt l (CalculationError e) sess
    end
  else mkRun st gt [] Invitation sess.

(** The bars of the two energy charts. *)
Definition vals_s (r : SteamResult F) : list F :=
  [steam_boiler_q r; steam_turb_w r; steam_pump_w r; steam_net_w r; steam_cond_q r].

Definition vals_g (r : GasResult F) : list F :=
  [gas_heat_in r; gas_turb_w r; gas_comp_w r; gas_net_w r;
   gas_heat_in r - gas_net_w r].

(** The outline of the saturation dome in the h-s diagram: up the liquid
    line, back down the vapour line. *)
Definition dome_outline (r : SteamResult F) : list F * list F :=
  (steam_sf r ++ rev (steam_sg r), steam_hf r ++ rev (steam_hg r)).

(** The [i]-th process line of the h-s diagram, from [(s_s[i], h_s[i])] to
    [(s_s[j], h_s[j])] with [j = (i+1) % 4]; [None] is [IndexError]. *)
Definition process_line (r : SteamResult F) (i : nat) : option ((F * F) * (F * F)) :=
  let j := ((i + 1) mod 4)%nat in
  match nth_error (steam_s_cycle r) i, nth_error (steam_h_cycle r) i,
        nth_error (steam_s_cycle r) j, nth_error (steam_h_cycle r) j with
  | Some si, Some hi, Some sj, Some hj => Some ((si, hi), (sj, hj))
  | _, _, _, _ => None
  end.

End Dashboard.

(** * Proofs *)

(** ** Reasoning about computations *)

Section Laws.

Context {F : Type} {NF : Num F}.
Variable backend : Query F -> option F.
Local Open Scope num_scope.

Lemma outcome_bind A B (m : M F A) (k : A -> M F B) :
  outcome (bind m k) =
  match outcome m with inl e => inl e | inr a => outcome (k a) end.
Proof.
  destruct m as [l [e | a]]; cbn; [reflexivity |].
  destruct (k a); reflexivity.
Qed.

Lemma queries_bind A B (m : M F A) (k : A -> M F B) :
  queries (bind m k) =
  queries m ++ match outcome m with inl _ => [] | inr a => queries (k a) end.
Proof.
  destruct m as [l [e | a]]; cbn; [now rewrite app_nil_r |].
  destruct (k a); reflexivity.
Qed.

Lemma bind_ok A B (m : M F A) (k : A -> M F B) l b :
  bind m k = (l, inr b) ->
  exists l1 a l2, m = (l1, inr a) /\ k a = (l2, inr b) /\ l = l1 ++ l2.
Proof.
  destruct m as [l1 [e | a]]; cbn; [discriminate |].
  destruct (k a) as [l2 r] eqn:E. intros [= <- ->].
  exists l1, a, l2; auto.
Qed.

Lemma ask_ok q l v :
  ask backend q = (l, inr v) -> l = [q] /\ backend q = Some v.
Proof.
  unfold ask. destruct (backend q); [| discriminate].
  now intros [= <- ->].
Qed.

Lemma pydiv_ok x y l v :
  pydiv x y = (l, inr v) -> l = [] /\ is_zero y = false /\ v = x / y.
Proof.
  unfold pydiv. destruct (is_zero y); cbn; [discriminate |].
  now intros [= <- <-].
Qed.

Lemma ret_ok A (a b : A) l : ret (F := F) a = (l, inr b) -> l = [] /\ a = b.
Proof. now intros [= <- ->]. Qed.

(** A comprehension [[g(PropsSI(q(x))) for x in xs]] that succeeds has asked
    [q x] for each element in turn and collected [g] of the answers. *)
Lemma comprehension_ok X (q : X -> Query F) (g : F -> F) xs l ys :
  mapM (fun x => bind (ask backend (q x)) (fun v => ret (g v))) xs = (l, inr ys) ->
  exists vs,
    Forall2 (fun x v => backend (q x) = Some v) xs vs /\
    ys = map g vs /\ l = map q xs.
Proof.
  revert l ys; induction xs as [| x xs IH]; intros l ys H.
  - apply ret_ok in H as [-> <-]. exists []; repeat split; constructor.
  - cbn [mapM] in H.
    apply bind_ok in H as (l1 & y & l2 & Hy & H & ->).
    apply bind_ok in Hy as (l3 & v & l4 & Hv & Hy & ->).
    apply ask_ok in Hv as [-> Hv]. apply ret_ok in Hy as [-> <-].
    apply bind_ok in H as (l5 & ys' & l6 & Hys & H & ->).
    apply ret_ok in H as [-> <-].
    apply IH in Hys as (vs & HF & -> & ->).
    exists (v :: vs); repeat split; [constructor; auto |].
    cbn. now rewrite app_nil_r.
Qed.

Lemma for_each_ext X St (body body' : X -> St -> M F St) xs st :
  (forall x s, body x s = body' x s) ->
  for_each xs body st = for_each xs body' st.
Proof.
  intros E; revert st; induction xs as [| x xs IH]; intros st; cbn; [reflexivity |].
  rewrite E. unfold bind.
  destruct (body' x st) as [l [e | a]]; [reflexivity |].
  now rewrite IH.
Qed.

Lemma sample_loop_ok X (q : X -> Query F) (fH fT : X -> F -> F) xs Hs Ts l Hs' Ts' :
  for_each xs (sample_body backend q fH fT) (Hs, Ts) = (l, inr (Hs', Ts')) ->
  exists vs,
    Forall2 (fun x v => backend (q x) = Some v) xs vs /\
    Hs' = Hs ++ map (fun xv => fH (fst xv) (snd xv)) (combine xs vs) /\
    Ts' = Ts ++ map (fun xv => fT (fst xv) (snd xv)) (combine xs vs) /\
    l = map q xs.
Proof.
  revert Hs Ts l; induction xs as [| x xs IH]; intros Hs Ts l H.
  - apply ret_ok in H as [-> H]. injection H as <- <-.
    exists []; cbn; rewrite !app_nil_r; repeat split; constructor.
  - cbn [for_each] in H.
    apply bind_ok in H as (l1 & [Hs1 Ts1] & l2 & Hb & H & ->).
    unfold sample_body in Hb.
    apply bind_ok in Hb as (l3 & v & l4 & Hv & Hb & ->).
    apply ask_ok in Hv as [-> Hv]. apply ret_ok in Hb as [-> Hb].
    cbn in Hb. injection Hb as <- <-.
    apply IH in H as (vs & HF & -> & -> & ->).
    exists (v :: vs); cbn; rewrite <- !app_assoc; repeat split.
    constructor; auto.
Qed.

(** Forward rules: running a computation whose steps are known. *)
Lemma bind_run A B (m : M F A) (k : A -> M F B) l1 a l2 r :
  m = (l1, inr a) -> k a = (l2, r) -> bind m k = (l1 ++ l2, r).
Proof. intros -> E. cbn. now rewrite E. Qed.

Lemma ask_run q v : backend q = Some v -> ask backend q = ([q], inr v).
Proof. unfold ask. now intros ->. Qed.

Lemma pydiv_run x y : is_zero y = false -> pydiv x y = ([], inr (x / y)).
Proof. unfold pydiv. now intros ->. Qed.

Lemma pydiv_raise x y :
  is_zero y = true -> pydiv x y = ([], inl ZeroDivisionError).
Proof. unfold pydiv. now intros ->. Qed.

Lemma bind_raise A B (m : M F A) (k : A -> M F B) l e :
  m = (l, inl e) -> bind m k = (l, inl e).
Proof. now intros ->. Qed.

Lemma run_eq A (m : M F A) l r l' r' :
  m = (l', r') -> l' = l -> r' = r -> m = (l, r).
Proof. now intros -> -> ->. Qed.

Lemma comprehension_run X (q : X -> Query F) (g : F -> F) xs vs :
  Forall2 (fun x v => backend (q x) = Some v) xs vs ->
  mapM (fun x => bind (ask backend (q x)) (fun v => ret (g v))) xs
  = (map q xs, inr (map g vs)).
Proof.
  induction 1 as [| x v xs vs Hv _ IH]; [reflexivity |].
  cbn [mapM]. rewrite (ask_run Hv), IH. cbn. now rewrite app_nil_r.
Qed.

Lemma sample_loop_run X (q : X -> Query F) (fH fT : X -> F -> F) xs vs :
  Forall2 (fun x v => backend (q x) = Some v) xs vs ->
  forall Hs Ts,
  for_each xs (sample_body backend q fH fT) (Hs, Ts)
  = (map q xs,
     inr (Hs ++ map (fun xv => fH (fst xv) (snd xv)) (combine xs vs),
          Ts ++ map (fun xv => fT (fst xv) (snd xv)) (combine xs vs))).
Proof.
  induction 1 as [| x v xs vs Hv _ IH]; intros Hs Ts.
  - cbn. now rewrite !app_nil_r.
  - cbn [for_each]. unfold sample_body at 1. rewrite (ask_run Hv).
    cbn [bind ret fst snd]. rewrite IH. cbn. now rewrite <- !app_assoc.
Qed.

(** Counting queries. *)

Lemma cost_ret A (a : A) : cost 0 (ret (F := F) a).
Proof. split; cbn; auto. Qed.

Lemma cost_ask q : cost 1 (ask backend q).
Proof. split; cbn; auto. Qed.

Lemma cost_pydiv x y : cost 0 (pydiv x y).
Proof. unfold pydiv; destruct (is_zero y); split; cbn; auto. Qed.

Lemma cost_bind A B n n' (m : M F A) (k : A -> M F B) :
  cost n m -> (forall a, cost n' (k a)) -> cost (n + n') (bind m k).
Proof.
  intros [Hle Heq] Hk. unfold cost.
  rewrite queries_bind, outcome_bind, length_app.
  destruct (outcome m) as [e | a] eqn:E.
  - split; [cbn; lia | discriminate].
  - destruct (Hk a) as [Hle' Heq']. rewrite (Heq a eq_refl).
    split; [lia |]. intros b Hb. now rewrite (Heq' b Hb).
Qed.

Lemma cost_mapM X Y c n (f : X -> M F Y) xs :
  length xs = n -> (forall x, cost c (f x)) -> cost (n * c) (mapM f xs).
Proof.
  intros <- Hf. induction xs as [| x xs IH]; [apply cost_ret |].
  cbn [mapM length Nat.mul]. apply cost_bind; [apply Hf | intros y].
  replace (length xs * c)%nat with (length xs * c + 0)%nat by lia.
  apply cost_bind; [exact IH | intros; apply cost_ret].
Qed.

Lemma cost_for_each X St c n (body : X -> St -> M F St) xs :
  length xs = n -> (forall x st, cost c (body x st)) ->
  forall st, cost (n * c) (for_each xs body st).
Proof.
  intros <- Hb. induction xs as [| x xs IH]; intros st; [apply cost_ret |].
  cbn [for_each length Nat.mul]. apply cost_bind; [apply Hb | exact IH].
Qed.

Lemma cost_eq A n n' (m : M F A) : cost n' m -> n' = n -> cost n m.
Proof. now intros H <-. Qed.

(** Failures. *)

Lemma fails_well_ret A (a : A) : fails_well backend (ret (F := F) a).
Proof. intros e; discriminate. Qed.

Lemma fails_well_ask q : fails_well backend (ask backend q).
Proof.
  intros e. unfold ask, outcome; cbn. destruct (backend q) eqn:E; [discriminate |].
  intros [= <-]. right. exists q, []. auto.
Qed.

Lemma fails_well_pydiv x y : fails_well backend (pydiv x y).
Proof.
  intros e. unfold pydiv. destruct (is_zero y); cbn; [| discriminate].
  intros [= <-]. now left.
Qed.

Lemma fails_well_bind A B (m : M F A) (k : A -> M F B) :
  fails_well backend m -> (forall a, fails_well backend (k a)) ->
  fails_well backend (bind m k).
Proof.
  intros Hm Hk e. rewrite outcome_bind, queries_bind.
  destruct (outcome m) as [e' | a] eqn:E.
  - intros [= <-]. destruct (Hm e' E) as [-> | (q & l & -> & Hq & ->)];
      [now left | right]. exists q, l. now rewrite app_nil_r.
  - intros He. destruct (Hk a e He) as [-> | (q & l & -> & Hq & ->)];
      [now left | right]. exists q, (queries m ++ l). now rewrite app_assoc.
Qed.

Lemma fails_well_mapM X Y (f : X -> M F Y) xs :
  (forall x, fails_well backend (f x)) -> fails_well backend (mapM f xs).
Proof.
  intros Hf. induction xs as [| x xs IH]; [apply fails_well_ret |].
  cbn [mapM]. apply fails_well_bind; [apply Hf | intros y].
  apply fails_well_bind; [exact IH | intros; apply fails_well_ret].
Qed.

Lemma fails_well_for_each X St (body : X -> St -> M F St) xs :
  (forall x st, fails_well backend (body x st)) ->
  forall st, fails_well backend (for_each xs body st).
Proof.
  intros Hb. induction xs as [| x xs IH]; intros st; [apply fails_well_ret |].
  cbn [for_each]. apply fails_well_bind; [apply Hb | exact IH].
Qed.

End Laws.

(** Walk back through a computation that returned a value. *)
Ltac inv_run H :=
  lazymatch type of H with
  | bind _ _ = (_, inr _) =>
      let l1 := fresh "l" in
      let a := fresh "v" in
      let l2 := fresh "l" in
      let Ha := fresh "Hv" in
      let El := fresh "El" in
      apply bind_ok in H; destruct H as (l1 & a & l2 & Ha & H & El);
      cbv beta in H; inv_run Ha; try inv_run H
  | PropsSI _ _ _ _ _ _ _ = (_, inr _) =>
      let El := fresh "El" in
      unfold PropsSI in H; apply ask_ok in H; destruct H as [El H]
  | PropsSI_Pcrit _ _ = (_, inr _) =>
      let El := fresh "El" in
      unfold PropsSI_Pcrit in H; apply ask_ok in H; destruct H as [El H]
  | pydiv _ _ = (_, inr _) =>
      let El := fresh "El" in
      let Hz := fresh "Hnz" in
      apply pydiv_ok in H; destruct H as (El & Hz & H)
  | ret _ = (_, inr _) =>
      let El := fresh "El" in
      apply ret_ok in H; destruct H as [El H]
  | match ?p with (_, _) => _ end = (_, inr _) =>
      destruct p; inv_run H
  | _ => idtac
  end.

(** Bring a sampling loop of the source into the shape of [sample_body]. *)
Ltac loop_shape_in H :=
  erewrite (for_each_ext _ (sample_body _ _ _ _)) in H;
  [| let x := fresh in let s := fresh in
     intros x s; destruct s; unfold sample_body, PropsSI; cbn [fst snd];
     reflexivity ].

Ltac loop_shape :=
  erewrite (for_each_ext _ (sample_body _ _ _ _));
  [| let x := fresh in let s := fresh in
     intros x s; destruct s; unfold sample_body, PropsSI; cbn [fst snd];
     reflexivity ].

(** Run a computation forward, one step at a time, from known answers. *)
Ltac run_step :=
  first
  [ eapply bind_run;
    [ unfold PropsSI, PropsSI_Pcrit; apply ask_run; eassumption | cbv beta ]
  | eapply bind_run; [ apply pydiv_run; eassumption | cbv beta ]
  | eapply bind_raise; apply pydiv_raise; eassumption
  | eapply bind_run;
    [ loop_shape; apply sample_loop_run; eassumption | cbv beta iota ]
  | eapply bind_run;
    [ unfold PropsSI; apply comprehension_run; eassumption | cbv beta ] ].

(** [np.linspace] returns [num] samples. *)
Lemma linspace_length F (NF : Num F) (start stop : F) num :
  length (linspace start stop num) = num.
Proof.
  destruct num as [| [| n]]; [reflexivity | reflexivity |].
  unfold linspace. rewrite length_app, length_map, length_seq. cbn. lia.
Qed.

(** Decompose the query count of a computation along its structure. *)
Ltac cost_step :=
  first
  [ apply cost_ret
  | apply cost_ask
  | apply cost_pydiv
  | eapply cost_mapM; [ apply linspace_length | intros ? ]
  | eapply cost_for_each; [ apply linspace_length | intros ? [? ?] ]
  | eapply cost_bind; [ | intros ? ]
  | match goal with |- cost _ (match ?p with (_, _) => _ end) => destruct p end ].

Ltac fails_step :=
  first
  [ apply fails_well_ret
  | apply fails_well_ask
  | apply fails_well_pydiv
  | apply fails_well_mapM; intros ?
  | apply fails_well_for_each; intros ? [? ?]
  | apply fails_well_bind; [ | intros ? ]
  | match goal with |- fails_well _ (match ?p with (_, _) => _ end) => destruct p end ].

Section Resources.

Context {F : Type} {NF : Num F}.
Variable backend : Query F -> option F.
Variable np_log : F -> F.

Lemma steam_cost Pc Pb Tb ep et :
  cost 1212 (calculate_steam_cycle backend Pc Pb Tb ep et).
Proof.
  unfold calculate_steam_cycle, PropsSI, PropsSI_Pcrit. cbv zeta.
  eapply cost_eq; [ repeat cost_step | reflexivity ].
Qed.

Lemma gas_cost N N2 pr T1_C T3_C eta_c eta_t m_dot :
  cost (10 + N + N2 + N + N)
    (gas_cycle_THdot_with backend np_log N N2 pr T1_C T3_C eta_c eta_t m_dot).
Proof.
  unfold gas_cycle_THdot_with, PropsSI. cbv zeta.
  eapply cost_eq; [ repeat cost_step | lia ].
Qed.

Lemma steam_fails_well Pc Pb Tb ep et :
  fails_well backend (calculate_steam_cycle backend Pc Pb Tb ep et).
Proof.
  unfold calculate_steam_cycle, PropsSI, PropsSI_Pcrit. cbv zeta.
  repeat fails_step.
Qed.

Lemma gas_fails_well N N2 pr T1_C T3_C eta_c eta_t m_dot :
  fails_well backend
    (gas_cycle_THdot_with backend np_log N N2 pr T1_C T3_C eta_c eta_t m_dot).
Proof.
  unfold gas_cycle_THdot_with, PropsSI. cbv zeta.
  repeat fails_step.
Qed.

End Resources.

(** ** Runs of the gas solver *)

Section GasRuns.

Context {F : Type} {NF : Num F}.
Variable backend : Query F -> option F.
Variable np_log : F -> F.
Variables (N N2 : nat) (pr T1_C T3_C eta_c eta_t m_dot : F).
Local Open Scope num_scope.

(** A run that returns has been answered throughout, has divided by no
    zero, and returns [gas_result]. *)
Lemma gas_ok l r :
  gas_cycle_THdot_with backend np_log N N2 pr T1_C T3_C eta_c eta_t m_dot
    = (l, inr r) ->
  exists a b,
    answered backend np_log N N2 pr T1_C T3_C eta_c eta_t a b /\
    is_zero (gas_ec eta_c) = false /\
    is_zero (gas_turb_w_of eta_t m_dot a) = false /\
    is_zero (gas_heat_in_of eta_c m_dot a) = false /\
    l = gas_queries np_log N N2 pr T1_C T3_C eta_c eta_t a /\
    r = gas_result np_log N N2 pr T1_C T3_C eta_c eta_t m_dot a b.
Proof.
  intros H. unfold gas_cycle_THdot_with in H. cbv zeta in H.
  inv_run H.
  repeat match goal with
  | L : for_each _ _ _ = _ |- _ =>
      loop_shape_in L; apply sample_loop_ok in L;
      destruct L as (? & ? & ? & ? & ?)
  end.
  subst. cbn [app] in *.
  exists (mkGasAnswers v v0 v1 v3 v4 v5 v6 v7 v8 v9), (mkLegAnswers x2 x1 x0 x).
  unfold answered. repeat split; try assumption.
  - repeat constructor; assumption.
  - unfold gas_queries. cbn [app]. now rewrite !app_nil_r.
Qed.


Lemma gas_run a b :
  answered backend np_log N N2 pr T1_C T3_C eta_c eta_t a b ->
  is_zero (gas_ec eta_c) = false ->
  gas_cycle_THdot_with backend np_log N N2 pr T1_C T3_C eta_c eta_t m_dot
    = (gas_queries np_log N N2 pr T1_C T3_C eta_c eta_t a,
       gas_final np_log N N2 pr T1_C T3_C eta_c eta_t m_dot a b).
Proof.
  intros (HS & H12 & H23 & H34 & H41) Hec.
  unfold state_queries, state_answers in HS.
  repeat match goal with
  | H : Forall2 _ (_ :: _) (_ :: _) |- _ => inversion H; subst; clear H
  end.
  unfold gas_cycle_THdot_with, gas_final. cbv zeta.
  destruct (is_zero (gas_turb_w_of eta_t m_dot a)) eqn:Et;
    [| destruct (is_zero (gas_heat_in_of eta_c m_dot a)) eqn:Eh];
    (eapply run_eq; [ repeat run_step; reflexivity | | reflexivity ]);
    unfold gas_queries, state_queries; cbn [app]; now rewrite ?app_nil_r.
Qed.


End GasRuns.

(** ** Runs of the steam solver *)

Section SteamRuns.

Context {F : Type} {NF : Num F}.
Variable backend : Query F -> option F.
Variables (P_cond_kPa P_boiler_kPa T_boiler_C pump_eff_pct turb_eff_pct : F).
Local Open Scope num_scope.

(** A run that returns has been answered throughout, has divided by no
    zero, and returns [steam_result]. *)
Lemma steam_ok l r :
  calculate_steam_cycle backend P_cond_kPa P_boiler_kPa T_boiler_C
    pump_eff_pct turb_eff_pct = (l, inr r) ->
  exists a b,
    steam_answered backend P_cond_kPa P_boiler_kPa T_boiler_C pump_eff_pct turb_eff_pct a b /\
    is_zero (w_d1 a) = false /\
    is_zero (steam_eta_p pump_eff_pct) = false /\
    is_zero (steam_boiler_q_of P_cond_kPa P_boiler_kPa pump_eff_pct a) = false /\
    l = steam_queries P_cond_kPa P_boiler_kPa T_boiler_C pump_eff_pct turb_eff_pct a /\
    r = steam_result P_cond_kPa P_boiler_kPa T_boiler_C pump_eff_pct turb_eff_pct a b.
Proof.
  intros H. unfold calculate_steam_cycle in H. cbv zeta in H.
  inv_run H.
  repeat match goal with
  | L : mapM _ _ = _ |- _ =>
      unfold PropsSI in L; apply comprehension_ok in L;
      destruct L as (? & ? & ? & ?)
  end.
  subst. cbn [app] in *.
  exists (mkSteamAnswers v v0 v1 v3 v5 v6 v7 v8 v9 v10 v11 v12),
         (mkDomeAnswers x2 x1 x0 x).
  unfold steam_answered. repeat split; try assumption.
  repeat constructor; assumption.
Qed.

Lemma steam_run a b :
  steam_answered backend P_cond_kPa P_boiler_kPa T_boiler_C pump_eff_pct turb_eff_pct a b ->
  is_zero (w_d1 a) = false ->
  is_zero (steam_eta_p pump_eff_pct) = false ->
  calculate_steam_cycle backend P_cond_kPa P_boiler_kPa T_boiler_C
    pump_eff_pct turb_eff_pct
  = (steam_queries P_cond_kPa P_boiler_kPa T_boiler_C pump_eff_pct turb_eff_pct a,
     steam_final P_cond_kPa P_boiler_kPa T_boiler_C pump_eff_pct turb_eff_pct a b).
Proof.
  intros (HS & Hhf & Hsf & Hhg & Hsg) Hd Hp.
  unfold scalar_queries, scalar_answers in HS.
  repeat match goal with
  | H : Forall2 _ (_ :: _) (_ :: _) |- _ => inversion H; subst; clear H
  end.
  unfold calculate_steam_cycle, steam_final. cbv zeta.
  destruct (is_zero (steam_boiler_q_of P_cond_kPa P_boiler_kPa pump_eff_pct a)) eqn:Eb;
    (eapply run_eq; [ repeat run_step; reflexivity | | reflexivity ]);
    unfold steam_queries, scalar_queries; cbn [app]; now rewrite ?app_nil_r.
Qed.


End SteamRuns.

(** ** The solvers on the stand-in backend *)

Lemma Forall2_map_r X Y (R : X -> Y -> Prop) (f : X -> Y) xs :
  (forall x, R x (f x)) -> Forall2 R xs (map f xs).
Proof. intros H; induction xs; cbn; constructor; auto. Qed.

Section ToyRuns.

Context {F : Type} {NF : Num F}.
Variable np_log : F -> F.

Lemma toy_gas_answered N N2 pr T1_C T3_C eta_c eta_t :
  answered toy_backend np_log N N2 pr T1_C T3_C eta_c eta_t
    (toy_gas_a pr T1_C T3_C eta_c eta_t)
    (toy_gas_b np_log N N2 pr T1_C T3_C eta_c eta_t).
Proof.
  unfold answered. repeat split.
  - repeat constructor.
  - apply Forall2_map_r; reflexivity.
  - apply Forall2_map_r; reflexivity.
  - apply Forall2_map_r; reflexivity.
  - apply Forall2_map_r; reflexivity.
Qed.

Lemma toy_steam_answered Pc Pb Tb ep et :
  steam_answered toy_backend Pc Pb Tb ep et
    (toy_steam_a Pc Pb Tb ep et) (toy_steam_b Pc Pb Tb ep et).
Proof.
  unfold steam_answered. repeat split.
  - repeat constructor.
  - apply Forall2_map_r; reflexivity.
  - apply Forall2_map_r; reflexivity.
  - apply Forall2_map_r; reflexivity.
  - apply Forall2_map_r; reflexivity.
Qed.

End ToyRuns.

(** ** Exact arithmetic: the solvers over the reals *)

Section RealFacts.

Local Open Scope R_scope.

Lemma R_is_zero_true (x : R) : x = 0 -> is_zero x = true.
Proof. intros ->. cbn. unfold R_is_zero. now destruct (Req_dec_T 0 0). Qed.

Lemma R_is_zero_false (x : R) : x <> 0 -> is_zero x = false.
Proof. intros H. cbn. unfold R_is_zero. now destruct (Req_dec_T x 0). Qed.

Lemma R_is_zero_false_inv (x : R) : is_zero x = false -> x <> 0.
Proof. cbn. unfold R_is_zero. now destruct (Req_dec_T x 0). Qed.

Lemma R_of_nat (n : nat) : of_nat n = INR n.
Proof.
  unfold of_nat. cbn. unfold Q2R. cbn. rewrite Rinv_1, Rmult_1_r.
  symmetry. apply INR_IZR_INZ.
Qed.

(** Over the reals the [i]-th sample of [np.linspace] is the affine
    interpolant, whichever way numpy computes it. *)
Lemma linspace_at_R (a b : R) (num i : nat) :
  (2 <= num)%nat ->
  linspace_at a b num i = a + INR i * ((b - a) / INR (num - 1)).
Proof.
  intros Hn. unfold linspace_at. rewrite !R_of_nat.
  assert (Hd : INR (num - 1) <> 0) by (apply not_0_INR; lia).
  cbn [nadd nsub nmul ndiv R_num].
  destruct (is_zero ((b - a) / INR (num - 1))); field; exact Hd.
Qed.

Lemma linspace_nth_R (a b : R) (num i : nat) :
  (2 <= num)%nat -> (i < num)%nat ->
  nth i (linspace a b num) 0 = a + INR i * ((b - a) / INR (num - 1)).
Proof.
  intros Hn Hi. destruct num as [| [| n]]; [lia | lia |].
  unfold linspace.
  destruct (Nat.eq_dec i (S n)) as [-> | Hne].
  - rewrite app_nth2; rewrite length_map, length_seq; [| lia].
    rewrite Nat.sub_diag. cbn [nth].
    replace (S (S n) - 1)%nat with (S n) by lia.
    field. apply not_0_INR; lia.
  - rewrite app_nth1 by (rewrite length_map, length_seq; lia).
    rewrite (nth_indep _ 0 (linspace_at a b (S (S n)) 0))
      by (rewrite length_map, length_seq; lia).
    rewrite map_nth, seq_nth by lia. cbn [Nat.add].
    now apply linspace_at_R.
Qed.

(** The samples begin at [start] and end at [stop]. *)
Lemma linspace_ends_R (a b : R) (num : nat) :
  (2 <= num)%nat -> exists mid, linspace a b num = a :: mid ++ [b].
Proof.
  intros Hn. destruct num as [| [| n]]; [lia | lia |].
  unfold linspace. rewrite <- cons_seq. cbn [map app].
  rewrite linspace_at_R by lia. cbn [INR].
  exists (map (linspace_at a b (S (S n))) (seq 1 n)). f_equal. ring.
Qed.

(** With [start < stop] the samples increase strictly. *)
Lemma linspace_increasing_R (a b : R) (num i j : nat) :
  (2 <= num)%nat -> a < b -> (i < j)%nat -> (j < num)%nat ->
  nth i (linspace a b num) 0 < nth j (linspace a b num) 0.
Proof.
  intros Hn Hab Hij Hj. rewrite !linspace_nth_R by lia.
  assert (Hd : 0 < INR (num - 1)) by (apply lt_0_INR; lia).
  assert (Hs : 0 < (b - a) / INR (num - 1)) by (apply Rdiv_lt_0_compat; lra).
  assert (INR i < INR j) by (apply lt_INR; lia).
  nra.
Qed.

Lemma combine_app_same X Y (l1 l2 : list X) (v1 v2 : list Y) :
  length l1 = length v1 ->
  combine (l1 ++ l2) (v1 ++ v2) = combine l1 v1 ++ combine l2 v2.
Proof.
  revert v1; induction l1 as [| x l1 IH]; intros [| v v1] E;
    try discriminate; cbn; [reflexivity |].
  f_equal. apply IH. now injection E.
Qed.

Lemma Forall2_ends X Y (R : X -> Y -> Prop) a mid b vs :
  Forall2 R (a :: mid ++ [b]) vs ->
  exists va vmid vb,
    vs = va :: vmid ++ [vb] /\ R a va /\ R b vb /\
    combine (a :: mid ++ [b]) vs = (a, va) :: combine mid vmid ++ [(b, vb)].
Proof.
  intros H. inversion H as [| ? va ? vs' Ha H']; subst.
  apply Forall2_app_inv_l in H' as (vmid & vl & Hmid & Hl & ->).
  inversion Hl as [| ? vb ? ? Hb Hnil]; subst. inversion Hnil; subst.
  exists va, vmid, vb. repeat split; auto.
  cbn [combine]. f_equal. rewrite combine_app_same by (eapply Forall2_length; eauto).
  reflexivity.
Qed.

Lemma last_error_ends A (x : A) mid y : last_error (x :: mid ++ [y]) = Some y.
Proof.
  revert x; induction mid as [| z mid IH]; intros x; [reflexivity |].
  cbn [app]. change (last_error (x :: z :: mid ++ [y]))
    with (last_error (z :: mid ++ [y])). apply IH.
Qed.

Lemma gas_P1_R : @gas_P1 R _ = 101325.
Proof. unfold gas_P1. cbn. unfold Q2R. cbn. lra. Qed.

Lemma log_span_R (pr : R) : 1 < pr -> ln (gas_P2 pr) - ln gas_P1 <> 0.
Proof.
  intros Hpr. unfold gas_P2. rewrite gas_P1_R. cbn [nmul R_num].
  assert (ln 101325 < ln (101325 * pr)) by (apply ln_increasing; nra).
  lra.
Qed.

Section Legs.

Variables (pr eta_c eta_t : R) (a : GasAnswers (F := R)).
Hypothesis Hpr : 1 < pr.

Lemma h_12_start : h_12 ln pr eta_c a gas_P1 = a_h1 a.
Proof.
  unfold h_12, log_frac_up. cbn [nadd nsub nmul ndiv R_num].
  unfold Rdiv. ring.
Qed.

Lemma h_12_end : h_12 ln pr eta_c a (gas_P2 pr) = gas_h2 eta_c a.
Proof.
  unfold h_12, log_frac_up. cbn [nadd nsub nmul ndiv R_num].
  field. now apply log_span_R.
Qed.

Lemma h_34_start : h_34 ln pr eta_t a (gas_P2 pr) = a_h3 a.
Proof.
  unfold h_34, log_frac_down. cbn [nadd nsub nmul ndiv R_num].
  unfold Rdiv. ring.
Qed.

Lemma h_34_end : h_34 ln pr eta_t a gas_P1 = gas_h4 eta_t a.
Proof.
  unfold h_34, log_frac_down. cbn [nadd nsub nmul ndiv R_num].
  field. now apply log_span_R.
Qed.

End Legs.

Lemma Hdot_self (h m : R) : Hdot h m h = #0%num.
Proof.
  unfold Hdot. cbn [nsub nmul ndiv ofQ R_num]. unfold Q2R. cbn. field.
Qed.

Lemma celsius_kelvin (T : R) : ((T + #273.15) - #273.15)%num = T.
Proof. cbn [nadd nsub ofQ R_num]. ring. Qed.

End RealFacts.

(** ** The stand-in backend over the reals *)

(** Unfold a quantity of a toy run down to real arithmetic. *)
Ltac toy_arith :=
  unfold gas_turb_w_of, gas_heat_in_of, gas_comp_w_of, gas_h2, gas_h4,
    steam_boiler_q_of, steam_h2, steam_h2s, steam_v1, steam_h4,
    toy_gas_a, toy_steam_a, gas_ec, gas_et, gas_T1, gas_T3, gas_P2, gas_P1,
    steam_eta_p, steam_eta_t, steam_P1, steam_P2, steam_T3;
  cbn [a_h1 a_s1 a_h2s a_T2 a_s2 a_h3 a_s3 a_h4s a_T4 a_s4
       w_h1 w_s1 w_d1 w_t1 w_s2 w_t2 w_h3 w_s3 w_h4s w_s4 w_t4 w_pcrit
       nadd nsub nmul ndiv ofQ R_num];
  unfold Q2R; cbn [Qnum Qden].

Section ToyReal.

Local Open Scope R_scope.

Lemma toy_air_consistent : consistent (F := R) toy_backend Air.
Proof.
  intros P T h. cbn. unfold Q2R. cbn.
  split; intros [= <-]; f_equal; field.
Qed.

(** The default operating point of the dashboard: [rp = 12], [25 C],
    [1100 C], [88 %], [90 %], [1 kg/s]. *)
Lemma toy_gas_default_run :
  calculate_gas_cycle_THdot toy_backend ln 12 25 1100 88 90 1
  = (gas_queries ln 60 80 12 25 1100 88 90 (toy_gas_a 12 25 1100 88 90),
     inr (gas_result ln 60 80 12 25 1100 88 90 1
            (toy_gas_a 12 25 1100 88 90)
            (toy_gas_b ln 60 80 12 25 1100 88 90))).
Proof.
  unfold calculate_gas_cycle_THdot.
  erewrite gas_run; [| apply toy_gas_answered |].
  - unfold gas_final.
    rewrite !R_is_zero_false; [reflexivity | |]; toy_arith; lra.
  - apply R_is_zero_false. toy_arith. lra.
Qed.

(** The default operating point of the steam cycle: [10 kPa], [2000 kPa],
    [350 C], [85 %], [85 %]. *)
Lemma toy_steam_default_run :
  calculate_steam_cycle toy_backend 10 2000 350 85 85
  = (steam_queries 10 2000 350 85 85 (toy_steam_a 10 2000 350 85 85),
     inr (steam_result 10 2000 350 85 85
            (toy_steam_a 10 2000 350 85 85)
            (toy_steam_b 10 2000 350 85 85))).
Proof.
  erewrite steam_run; [| apply toy_steam_answered | |].
  - unfold steam_final.
    rewrite R_is_zero_false; [reflexivity |]. toy_arith. lra.
  - apply R_is_zero_false. toy_arith. lra.
  - apply R_is_zero_false. toy_arith. lra.
Qed.

End ToyReal.

(** ** Running on binary64 *)

(** The dashboard's default biomass feed: 10 kg/s, 50 % moisture, 60 %
    biogas yield, 70 % conversion. *)
Example biomass_default_float :
  biomass_outputs (float_ofQ 10) (float_ofQ 50) (float_ofQ 60) (float_ofQ 70)
  = (5, 5, 6, 3.5, 1.5000000000000002)%float.
Proof. vm_compute. reflexivity. Qed.

(** The default steam cycle on the stand-in backend: pump work, turbine
    work, net work and efficiency. *)
Example steam_default_float :
  match outcome (calculate_steam_cycle toy_backend (float_ofQ 10)
                   (float_ofQ 2000) (float_ofQ 350) (float_ofQ 85) (float_ofQ 85))
  with
  | inr r => Some (steam_pump_w r, steam_turb_w r, steam_net_w r, steam_eta r)
  | inl _ => None
  end
  = Some (2.3411764705882381, 531.71749999999997, 529.37632352941171,
          20.02968486745025)%float.
Proof. vm_compute. reflexivity. Qed.

(** A backend that refuses every query stops the solve at its first query. *)
Example steam_refused_float :
  calculate_steam_cycle (fun _ => None) (float_ofQ 10) (float_ofQ 2000)
    (float_ofQ 350) (float_ofQ 85) (float_ofQ 85)
  = ([QProps pH pP 10000 pQ 0 Water],
     inl (ValueError (QProps pH pP 10000 pQ 0 Water)))%float.
Proof. vm_compute. reflexivity. Qed.

(** * The statements of the specification *)

(** ** In exact arithmetic *)

Section RealStatements.

Local Open Scope R_scope.

(** C2, amended.  Boundary exactness of the process paths holds in exact
    arithmetic (binary64 rounds the temperature of a leg's end).  There, for
    a backend whose temperature and enthalpy queries for air are consistent
    with each other, a pressure ratio above one and any sample counts of at
    least two, every leg of a solved Brayton cycle starts at the state point
    of its start state and ends at the state point of its end state: the
    compression trace runs from point 1 to point 2, the combustion trace from
    2 to 3, the expansion trace from 3 to 4 and the heat-rejection trace from
    4 back to 1, each point being the pair (enthalpy rate above state 1,
    temperature in Celsius) the solver reports in [h_states], [T_states]. *)
Theorem process_path_boundary_exact
  (backend : Query R -> option R) (N N2 : nat)
  (pr T1_C T3_C eta_c eta_t m_dot : R) l r :
  (2 <= N)%nat -> (2 <= N2)%nat -> (1 < pr)%R -> consistent backend Air ->
  gas_cycle_THdot_with backend ln N N2 pr T1_C T3_C eta_c eta_t m_dot
    = (l, inr r) ->
  boundary_exact r.
Proof.
  intros HN HN2 Hpr Hc H.
  apply gas_ok in H as (a & b & (HS & H12 & H23 & H34 & H41) & _ & _ & _ & _ & ->).
  assert (Q1 : backend (QProps pH pP gas_P1 pT (gas_T1 T1_C) Air) = Some (a_h1 a))
    by (inversion HS; assumption).
  assert (Q4 : backend (QProps pT pP (gas_P2 pr) pH (gas_h2 eta_c a) Air)
               = Some (a_T2 a))
    by (do 3 (inversion HS as [| ? ? ? ? _ HS']; clear HS; rename HS' into HS);
        inversion HS; assumption).
  assert (Q6 : backend (QProps pH pP (gas_P2 pr) pT (gas_T3 T3_C) Air)
               = Some (a_h3 a))
    by (do 5 (inversion HS as [| ? ? ? ? _ HS']; clear HS; rename HS' into HS);
        inversion HS; assumption).
  assert (Q9 : backend (QProps pT pP gas_P1 pH (gas_h4 eta_t a) Air)
               = Some (a_T4 a))
    by (do 8 (inversion HS as [| ? ? ? ? _ HS']; clear HS; rename HS' into HS);
        inversion HS; assumption).
  clear HS.
  unfold P_12 in H12. unfold T_23_arr in H23. unfold P_34 in H34.
  unfold T_41_arr in H41.
  destruct (linspace_ends_R gas_P1 (gas_P2 pr) HN) as [m12 E12].
  destruct (linspace_ends_R (a_T2 a) (gas_T3 T3_C) HN2) as [m23 E23].
  destruct (linspace_ends_R (gas_P2 pr) gas_P1 HN) as [m34 E34].
  destruct (linspace_ends_R (a_T4 a) (gas_T1 T1_C) HN) as [m41 E41].
  rewrite E12 in H12. rewrite E23 in H23. rewrite E34 in H34. rewrite E41 in H41.
  apply Forall2_ends in H12 as (ta & tm & tb & _ & Hta & Htb & Ec12).
  apply Forall2_ends in H23 as (ha & hm & hb & _ & Hha & Hhb & Ec23).
  apply Forall2_ends in H34 as (ua & um & ub & _ & Hua & Hub & Ec34).
  apply Forall2_ends in H41 as (ka & km & kb & _ & Hka & Hkb & Ec41).
  (* the answers at the two ends of each leg *)
  unfold q_12 in Hta, Htb. rewrite h_12_start in Hta. rewrite h_12_end in Htb by exact Hpr.
  unfold q_34 in Hua, Hub. rewrite h_34_start in Hua. rewrite h_34_end in Hub by exact Hpr.
  unfold q_23 in Hha, Hhb. unfold q_41 in Hka, Hkb.
  rewrite (proj1 (Hc _ _ _) Q1) in Hta. injection Hta as <-.
  rewrite Q4 in Htb. injection Htb as <-.
  rewrite (proj2 (Hc _ _ _) Q4) in Hha. injection Hha as <-.
  rewrite Q6 in Hhb. injection Hhb as <-.
  rewrite (proj1 (Hc _ _ _) Q6) in Hua. injection Hua as <-.
  rewrite Q9 in Hub. injection Hub as <-.
  rewrite (proj2 (Hc _ _ _) Q9) in Hka. injection Hka as <-.
  rewrite Q1 in Hkb. injection Hkb as <-.
  exists (#0%num, T1_C),
         (Hdot (a_h1 a) m_dot (gas_h2 eta_c a), (a_T2 a - #273.15)%num),
         (Hdot (a_h1 a) m_dot (a_h3 a), T3_C),
         (Hdot (a_h1 a) m_dot (gas_h4 eta_t a), (a_T4 a - #273.15)%num).
  do 4 (split; [reflexivity |]).
  unfold first_sample, last_sample, gas_result.
  cbn [gas_traces tr_compression tr_combustion tr_expansion tr_heat_rejection
       trace_H trace_T fst snd].
  unfold P_12, T_23_arr, P_34, T_41_arr.
  rewrite E12, E23, E34, E41, Ec12, Ec23, Ec34, Ec41.
  cbn [map hd_error]. rewrite !map_app. cbn [map fst snd].
  rewrite !last_error_ends.
  rewrite h_12_start, !Hdot_self, (h_12_end _ _ Hpr), h_34_start,
    (h_34_end _ _ Hpr).
  unfold gas_T1, gas_T3. rewrite !celsius_kelvin.
  repeat split.
Qed.

Lemma process_path_boundary_exact_witness :
  exists l r,
    calculate_gas_cycle_THdot toy_backend ln 12 25 1100 88 90 1 = (l, inr r) /\
    boundary_exact r.
Proof.
  eexists _, _. split; [apply toy_gas_default_run |].
  eapply process_path_boundary_exact
    with (backend := toy_backend) (N := 60%nat) (N2 := 80%nat) (pr := 12);
    [lia | lia | lra | apply toy_air_consistent | apply toy_gas_default_run].
Defined.



Lemma Q2R_700 : Q2R 700 = 700.
Proof. unfold Q2R. cbn. lra. Qed.

Lemma Forall2_map_kilo (R0 : R -> R -> Prop) (ps vs : list R) :
  Forall2 R0 ps vs ->
  Forall2 (fun p y => exists x, R0 p x /\ y = x / 1000) ps (map kilo vs).
Proof.
  induction 1 as [| p v ps vs Hv _ IH]; cbn; constructor; auto.
  exists v. split; [assumption |].
  unfold kilo. cbn [ndiv ofQ R_num]. unfold Q2R. cbn [Qnum Qden]. field.
Qed.

(** C8.  The saturation dome of a solved Rankine cycle is built from a
    strictly increasing pressure sequence that starts at the 700 Pa floor and
    ends at 99.95 % of the critical pressure [pc] the backend reports for
    water (with [700 < 0.9995 pc], as for water); the saturated-liquid and
    saturated-vapour enthalpy and entropy sequences are ordered as the
    pressure samples and of equal length, one entry per sample. *)
Theorem saturation_dome (backend : Query R -> option R)
  (Pc Pb Tb ep et pc : R) l r :
  calculate_steam_cycle backend Pc Pb Tb ep et = (l, inr r) ->
  backend (QPcrit Water) = Some pc ->
  700 < pc * 0.9995 ->
  dome_of backend pc r.
Proof.
  intros H Hpc Hlt. unfold dome_of.
  set (P_sat := linspace (#700)%num (pc * #0.9995)%num 300).
  apply steam_ok in H as (a & b & (HS & Hhf & Hsf & Hhg & Hsg) & _ & _ & _ & _ & ->).
  assert (Epc : w_pcrit a = pc).
  { do 11 (inversion HS as [| ? ? ? ? _ HS']; clear HS; rename HS' into HS).
    inversion HS as [| ? ? ? ? Hq _]. rewrite Hpc in Hq. now injection Hq. }
  clear HS. unfold P_sat_arr in *. rewrite Epc in *. fold P_sat in Hhf, Hsf, Hhg, Hsg.
  assert (E0 : Q2R 0 = 0) by (unfold Q2R; cbn; lra).
  assert (E1 : Q2R 1 = 1) by (unfold Q2R; cbn; lra).
  assert (Ec : (pc * #0.9995)%num = pc * 0.9995)
    by (cbn [nmul ofQ R_num]; unfold Q2R; cbn [Qnum Qden]; lra).
  destruct (@linspace_ends_R (#700)%num (pc * #0.9995)%num 300 ltac:(lia))
    as [mid Emid].
  pose proof (@linspace_length R _ (#700)%num (pc * #0.9995)%num 300) as Hlen.
  fold P_sat in Emid, Hlen.
  split; [rewrite Emid; cbn; now rewrite Q2R_700 |].
  split; [rewrite Emid, last_error_ends; now rewrite Ec |].
  split.
  { intros i j Hij. apply linspace_increasing_R; try lia.
    cbn [nmul ofQ R_num]. rewrite Q2R_700. unfold Q2R. cbn [Qnum Qden]. lra. }
  split; [exact Hlen |].
  cbn [steam_hf steam_sf steam_hg steam_sg steam_result]. rewrite !length_map.
  rewrite <- (Forall2_length Hhf), <- (Forall2_length Hsf),
    <- (Forall2_length Hhg), <- (Forall2_length Hsg).
  do 4 (split; [exact Hlen |]).
  rewrite <- E0, <- E1.
  repeat split;
    apply Forall2_map_kilo with (R0 := fun p x => _ = Some x); assumption.
Qed.

Lemma saturation_dome_witness :
  exists l r,
    calculate_steam_cycle toy_backend 10 2000 350 85 85 = (l, inr r) /\
    toy_backend (F := R) (QPcrit Water) = Some 22064000 /\
    700 < 22064000 * 0.9995 /\
    dome_of toy_backend 22064000 r.
Proof.
  assert (E : toy_backend (F := R) (QPcrit Water) = Some 22064000)
    by (cbn; f_equal; unfold Q2R; cbn; lra).
  eexists _, _. split; [apply toy_steam_default_run |].
  split; [exact E |]. split; [lra |].
  eapply saturation_dome; [apply toy_steam_default_run | exact E | lra].
Defined.

(** C10.  The two divisions at the end of the gas solver are not guarded.
    Once every backend query of a run is answered (and the compressor
    efficiency is not zero), a turbine-inlet enthalpy [h3] equal to the
    turbine-outlet enthalpy [h4], or equal to the compressor-outlet enthalpy
    [h2], makes the run end in Python's [ZeroDivisionError]; conversely a
    run that returns has [h3] different from both. *)
Theorem gas_division_unguarded (backend : Query R -> option R)
  (np_log : R -> R) (N N2 : nat) (pr T1_C T3_C eta_c eta_t m_dot : R) :
  (forall a b,
     answered backend np_log N N2 pr T1_C T3_C eta_c eta_t a b ->
     gas_ec eta_c <> 0 ->
     a_h3 a = gas_h4 eta_t a \/ a_h3 a = gas_h2 eta_c a ->
     outcome (gas_cycle_THdot_with backend np_log N N2 pr T1_C T3_C
                eta_c eta_t m_dot) = inl ZeroDivisionError) /\
  (forall l r,
     gas_cycle_THdot_with backend np_log N N2 pr T1_C T3_C eta_c eta_t m_dot
       = (l, inr r) ->
     exists a,
       h_kJ (gas_states r)
         = map kilo [a_h1 a; gas_h2 eta_c a; a_h3 a; gas_h4 eta_t a] /\
       a_h3 a <> gas_h4 eta_t a /\ a_h3 a <> gas_h2 eta_c a).
Proof.
  split.
  - intros a b Hans Hec Hz.
    rewrite (gas_run m_dot Hans (R_is_zero_false Hec)).
    unfold outcome, gas_final. cbn [snd].
    destruct Hz as [E | E].
    + rewrite R_is_zero_true; [reflexivity |].
      unfold gas_turb_w_of. rewrite <- E.
      cbn [nsub nmul ndiv R_num]. unfold Rdiv. ring.
    + destruct (is_zero (gas_turb_w_of eta_t m_dot a)); [reflexivity |].
      rewrite R_is_zero_true; [reflexivity |].
      unfold gas_heat_in_of. rewrite <- E.
      cbn [nsub nmul ndiv R_num]. unfold Rdiv. ring.
  - intros l r H.
    apply gas_ok in H as (a & b & _ & _ & Ht & Hh & _ & ->).
    exists a. split; [reflexivity |].
    apply R_is_zero_false_inv in Ht, Hh.
    split; intros E; [apply Ht | apply Hh].
    + unfold gas_turb_w_of. rewrite <- E.
      cbn [nsub nmul ndiv R_num]. unfold Rdiv. ring.
    + unfold gas_heat_in_of. rewrite <- E.
      cbn [nsub nmul ndiv R_num]. unfold Rdiv. ring.
Qed.

Lemma gas_division_unguarded_witness :
  outcome (calculate_gas_cycle_THdot toy_backend ln 12 25 1100 88 0 1)
    = inl ZeroDivisionError /\
  exists l r,
    calculate_gas_cycle_THdot toy_backend ln 12 25 1100 88 90 1 = (l, inr r) /\
    exists a,
      h_kJ (gas_states r)
        = map kilo [a_h1 a; gas_h2 88 a; a_h3 a; gas_h4 90 a] /\
      a_h3 a <> gas_h4 90 a /\ a_h3 a <> gas_h2 88 a.
Proof.
  split.
  - apply (proj1 (gas_division_unguarded toy_backend ln 60 80 12 25 1100 88 0 1)
             (toy_gas_a 12 25 1100 88 0) (toy_gas_b ln 60 80 12 25 1100 88 0)).
    + apply toy_gas_answered.
    + toy_arith. lra.
    + left. toy_arith. lra.
  - eexists _, _. split; [apply toy_gas_default_run |].
    apply (proj2 (gas_division_unguarded toy_backend ln 60 80 12 25 1100 88 90 1)
             _ _ toy_gas_default_run).
Defined.

End RealStatements.

(** ** For every arithmetic and every backend *)

Section Statements.

Local Open Scope num_scope.

(** C3.  Every solve that returns, of either cycle, returns derived scalars
    with net work = turbine work - pump (compressor) work and efficiency =
    net work / heat input as a percentage; the gas cycle moreover has
    back-work ratio = compressor work / turbine work as a percentage, and
    each of its work and heat terms is the enthalpy difference times the
    mass flow. *)
Theorem derived_scalars :
  (forall F (NF : Num F) (backend : Query F -> option F) Pc Pb Tb ep et l r,
     calculate_steam_cycle backend Pc Pb Tb ep et = (l, inr r) ->
     steam_derived r) /\
  (forall F (NF : Num F) (backend : Query F -> option F) (np_log : F -> F)
          pr T1_C T3_C eta_c eta_t m_dot l r,
     calculate_gas_cycle_THdot backend np_log pr T1_C T3_C eta_c eta_t m_dot
       = (l, inr r) ->
     gas_derived m_dot r).
Proof.
  split.
  - intros F NF backend Pc Pb Tb ep et l r H.
    apply steam_ok in H as (a & b & _ & _ & _ & _ & _ & ->).
    exists (w_h1 a), (steam_h2 Pc Pb ep a), (w_h3 a), (steam_h4 et a).
    repeat split.
  - intros F NF backend np_log pr T1_C T3_C eta_c eta_t m_dot l r H.
    apply gas_ok in H as (a & b & _ & _ & _ & _ & _ & ->).
    exists (a_h1 a), (gas_h2 eta_c a), (a_h3 a), (gas_h4 eta_t a).
    repeat split.
Qed.

Lemma derived_scalars_witness :
  (exists l r,
     calculate_steam_cycle toy_backend 10%R 2000%R 350%R 85%R 85%R = (l, inr r) /\
     steam_derived r) /\
  (exists l r,
     calculate_gas_cycle_THdot toy_backend ln 12%R 25%R 1100%R 88%R 90%R 1%R
       = (l, inr r) /\
     gas_derived 1%R r).
Proof.
  split; eexists _, _.
  - split; [apply toy_steam_default_run |].
    apply (proj1 derived_scalars _ _ _ _ _ _ _ _ _ _ toy_steam_default_run).
  - split; [apply toy_gas_default_run |].
    apply (proj2 derived_scalars _ _ _ _ _ _ _ _ _ _ _ _ toy_gas_default_run).
Defined.

(** C9.  Every invocation of either solver yields an outcome after a number
    of backend queries that is bounded independently of the inputs: at most
    1212 for the steam cycle (12 state and constant queries, 4 x 300 along
    the dome) and at most 270 for the gas cycle (10 state queries, 60 + 80 +
    60 + 60 along the legs), and exactly that many whenever the solve
    returns.  The backend is any function that answers or refuses each
    query. *)
Theorem bounded_queries :
  forall F (NF : Num F) (backend : Query F -> option F) (np_log : F -> F),
    (forall Pc Pb Tb ep et,
       exists l o,
         calculate_steam_cycle backend Pc Pb Tb ep et = (l, o) /\
         (length l <= 1212)%nat /\
         (forall r, o = inr r -> length l = 1212%nat)) /\
    (forall pr T1_C T3_C eta_c eta_t m_dot,
       exists l o,
         calculate_gas_cycle_THdot backend np_log pr T1_C T3_C eta_c eta_t m_dot
           = (l, o) /\
         (length l <= 270)%nat /\
         (forall r, o = inr r -> length l = 270%nat)).
Proof.
  intros F NF backend np_log. split.
  - intros Pc Pb Tb ep et.
    destruct (steam_cost backend Pc Pb Tb ep et) as [Hle Heq].
    destruct (calculate_steam_cycle backend Pc Pb Tb ep et) as [l o].
    exists l, o. repeat split; [exact Hle | exact Heq].
  - intros pr T1_C T3_C eta_c eta_t m_dot. unfold calculate_gas_cycle_THdot.
    destruct (gas_cost backend np_log 60 80 pr T1_C T3_C eta_c eta_t m_dot)
      as [Hle Heq].
    destruct (gas_cycle_THdot_with backend np_log 60 80 pr T1_C T3_C
                eta_c eta_t m_dot) as [l o].
    exists l, o. repeat split; [exact Hle | exact Heq].
Qed.

Lemma bounded_queries_witness :
  length (queries (calculate_steam_cycle toy_backend 10%R 2000%R 350%R 85%R 85%R))
    = 1212%nat /\
  length (queries (calculate_gas_cycle_THdot toy_backend ln
                     12%R 25%R 1100%R 88%R 90%R 1%R)) = 270%nat.
Proof.
  destruct (bounded_queries R_num toy_backend ln) as [HS HG]. split.
  - destruct (HS 10%R 2000%R 350%R 85%R 85%R) as (l & o & E & _ & Heq).
    rewrite E. rewrite toy_steam_default_run in E. injection E as <- <-.
    exact (Heq _ eq_refl).
  - destruct (HG 12%R 25%R 1100%R 88%R 90%R 1%R) as (l & o & E & _ & Heq).
    rewrite E. rewrite toy_gas_default_run in E. injection E as <- <-.
    exact (Heq _ eq_refl).
Defined.

(** C1, as stated, fails: with the condenser pressure above the boiler
    pressure the solve is not rejected.  All 1212 backend queries are issued,
    the first at the (inverted) condenser pressure, and a result is
    returned. *)
Lemma inverted_pressures_are_solved :
  nltb (float_ofQ 10) (float_ofQ 2000) = true /\
  (exists r, outcome inverted_run = inr r) /\
  length (queries inverted_run) = 1212%nat /\
  hd_error (queries inverted_run)
    = Some (QProps pH pP (float_ofQ 2000000) pQ (float_ofQ 0) Water).
Proof.
  split; [vm_compute; reflexivity |].
  split; [eexists; vm_compute; reflexivity |].
  split; vm_compute; reflexivity.
Qed.

(** C1, amended.  The steam solver checks no constraint on its inputs.
    Whatever the pressures, with the condenser pressure at or above the
    boiler pressure too, its first step is the backend query for the
    saturated-liquid enthalpy at the condenser pressure.  If the solve fails,
    it fails with the backend's [ValueError] for a query the backend refused,
    raised at that query (the last one issued), or with
    [ZeroDivisionError]; a failed solve carries no result.  If every query is
    answered and neither the liquid density, the pump efficiency nor the
    boiler heat is zero, the solve returns its full result. *)
Theorem steam_checks_no_input :
  forall F (NF : Num F) (backend : Query F -> option F) Pc Pb Tb ep et,
    let run := calculate_steam_cycle backend Pc Pb Tb ep et in
    (exists rest, queries run = QProps pH pP (Pc * #1000) pQ #0 Water :: rest) /\
    (forall e, outcome run = inl e ->
       e = ZeroDivisionError \/
       exists q l, e = ValueError q /\ backend q = None /\ queries run = l ++ [q]) /\
    (forall a b,
       steam_answered backend Pc Pb Tb ep et a b ->
       is_zero (w_d1 a) = false ->
       is_zero (steam_eta_p ep) = false ->
       is_zero (steam_boiler_q_of Pc Pb ep a) = false ->
       outcome run = inr (steam_result Pc Pb Tb ep et a b)).
Proof.
  intros F NF backend Pc Pb Tb ep et run. split; [| split].
  - unfold run, calculate_steam_cycle, PropsSI. cbv zeta.
    rewrite queries_bind. cbn [queries ask fst app]. eexists. reflexivity.
  - apply steam_fails_well.
  - intros a b Hans Hd Hp Hq. unfold run.
    rewrite (steam_run Hans Hd Hp). unfold outcome, steam_final. cbn [snd].
    now rewrite Hq.
Qed.

(** The inverted pressures on the stand-in backend, and the same inputs on
    a backend that refuses every query. *)
Lemma steam_checks_no_input_witness :
  (exists rest,
     queries inverted_run
     = QProps pH pP (float_ofQ 2000 * #1000) pQ #0 Water :: rest) /\
  outcome inverted_run
  = inr (steam_result (float_ofQ 2000) (float_ofQ 10) (float_ofQ 350)
           (float_ofQ 85) (float_ofQ 85)
           (toy_steam_a (float_ofQ 2000) (float_ofQ 10) (float_ofQ 350)
              (float_ofQ 85) (float_ofQ 85))
           (toy_steam_b (float_ofQ 2000) (float_ofQ 10) (float_ofQ 350)
              (float_ofQ 85) (float_ofQ 85))) /\
  (let refused :=
     calculate_steam_cycle (fun _ => None) (float_ofQ 2000) (float_ofQ 10)
       (float_ofQ 350) (float_ofQ 85) (float_ofQ 85) in
   let q1 := QProps pH pP (float_ofQ 2000000) pQ (float_ofQ 0) Water in
   outcome refused = inl (ValueError q1) /\
   (ValueError q1 = ZeroDivisionError \/
    exists q l, ValueError q1 = ValueError q /\ None = None (A := float) /\
                queries refused = l ++ [q])).
Proof.
  destruct (steam_checks_no_input float_num toy_backend
              (float_ofQ 2000) (float_ofQ 10) (float_ofQ 350)
              (float_ofQ 85) (float_ofQ 85)) as (H1 & _ & H3).
  split; [exact H1 |].
  split.
  - apply H3; [apply toy_steam_answered | | |]; vm_compute; reflexivity.
  - intros refused q1.
    assert (E : outcome refused = inl (ValueError q1))
      by (vm_compute; reflexivity).
    split; [exact E |].
    exact (proj1 (proj2 (steam_checks_no_input float_num (fun _ => None)
                           (float_ofQ 2000) (float_ofQ 10) (float_ofQ 350)
                           (float_ofQ 85) (float_ofQ 85))) _ E).
Defined.

(** C7.  The efficiency a solver returns is the quotient it computes from
    the state enthalpies, as a percentage, whatever its sign: nothing in the
    solver clamps or traps it.  With the inverted pressures above the steam
    solver returns a negative efficiency; only the dashboard's [max(0, eff)]
    turns it into zero. *)
Theorem efficiency_reported_raw :
  (forall F (NF : Num F) (backend : Query F -> option F) Pc Pb Tb ep et l r,
     calculate_steam_cycle backend Pc Pb Tb ep et = (l, inr r) ->
     exists h1 h2 h3 h4,
       h_kJ (steam_states r) = [h1 / #1000; h2 / #1000; h3 / #1000; h4 / #1000] /\
       steam_eta r
       = ((h3 - h4) / #1000 - (h2 - h1) / #1000) / ((h3 - h2) / #1000) * #100) /\
  (forall F (NF : Num F) (backend : Query F -> option F) (np_log : F -> F)
          pr T1_C T3_C eta_c eta_t m_dot l r,
     calculate_gas_cycle_THdot backend np_log pr T1_C T3_C eta_c eta_t m_dot
       = (l, inr r) ->
     exists h1 h2 h3 h4,
       h_kJ (gas_states r) = [h1 / #1000; h2 / #1000; h3 / #1000; h4 / #1000] /\
       gas_eta r
       = ((h3 - h4) * m_dot / #1000 - (h2 - h1) * m_dot / #1000)
         / ((h3 - h2) * m_dot / #1000) * #100) /\
  (exists r,
     outcome inverted_run = inr r /\
     nltb (steam_eta r) #0 = true /\
     display_eff (steam_eta r) = #0 /\
     display_eff (steam_eta r) <> steam_eta r).
Proof.
  split; [| split].
  - intros F NF backend Pc Pb Tb ep et l r H.
    apply steam_ok in H as (a & b & _ & _ & _ & _ & _ & ->).
    exists (w_h1 a), (steam_h2 Pc Pb ep a), (w_h3 a), (steam_h4 et a).
    split; reflexivity.
  - intros F NF backend np_log pr T1_C T3_C eta_c eta_t m_dot l r H.
    apply gas_ok in H as (a & b & _ & _ & _ & _ & _ & ->).
    exists (a_h1 a), (gas_h2 eta_c a), (a_h3 a), (gas_h4 eta_t a).
    split; reflexivity.
  - eexists. split; [vm_compute; reflexivity |].
    split; [vm_compute; reflexivity |].
    split; [vm_compute; reflexivity |].
    vm_compute. discriminate.
Qed.

Lemma efficiency_reported_raw_witness :
  (exists l r h1 h2 h3 h4,
     calculate_steam_cycle toy_backend 10%R 2000%R 350%R 85%R 85%R = (l, inr r) /\
     h_kJ (steam_states r) = [h1 / #1000; h2 / #1000; h3 / #1000; h4 / #1000] /\
     steam_eta r
     = ((h3 - h4) / #1000 - (h2 - h1) / #1000) / ((h3 - h2) / #1000) * #100) /\
  (exists l r h1 h2 h3 h4,
     calculate_gas_cycle_THdot toy_backend ln 12%R 25%R 1100%R 88%R 90%R 1%R
       = (l, inr r) /\
     h_kJ (gas_states r) = [h1 / #1000; h2 / #1000; h3 / #1000; h4 / #1000] /\
     gas_eta r
     = ((h3 - h4) * 1%R / #1000 - (h2 - h1) * 1%R / #1000)
       / ((h3 - h2) * 1%R / #1000) * #100).
Proof.
  destruct efficiency_reported_raw as (HS & HG & _). split.
  - destruct (HS _ _ _ _ _ _ _ _ _ _ toy_steam_default_run)
      as (h1 & h2 & h3 & h4 & E1 & E2).
    eexists _, _, h1, h2, h3, h4.
    split; [apply toy_steam_default_run | split; assumption].
  - destruct (HG _ _ _ _ _ _ _ _ _ _ _ _ toy_gas_default_run)
      as (h1 & h2 & h3 & h4 & E1 & E2).
    eexists _, _, h1, h2, h3, h4.
    split; [apply toy_gas_default_run | split; assumption].
Defined.

Lemma combine_map_fst X Y Z (R0 : X -> Y -> Prop) (f : X -> Z) xs vs :
  Forall2 R0 xs vs ->
  map (fun xv => f (fst xv)) (combine xs vs) = map f xs.
Proof. induction 1; cbn; [reflexivity | now f_equal]. Qed.

Lemma combine_map_snd X Y Z (R0 : X -> Y -> Prop) (g : Y -> Z) xs vs :
  Forall2 R0 xs vs ->
  Forall2 (fun x z => exists v, R0 x v /\ z = g v) xs
    (map (fun xv => g (snd xv)) (combine xs vs)).
Proof. induction 1; cbn; constructor; eauto. Qed.

(** C5, amended.  In a solved Brayton cycle the compression trace is sampled
    at the [N] evenly spaced pressures of [np.linspace(P1, P2, N)], not at
    logarithmically interpolated ones: each sample sits at the
    fraction [(ln P_i - ln P1)/(ln P2 - ln P1)] of the way on the
    logarithmic pressure scale, its enthalpy is the linear interpolation of
    [h1] and [h2] at that fraction, and its temperature is the backend's
    answer at [(P_i, h_i)].  The expansion trace is sampled in the same way
    along [np.linspace(P2, P1, N)], from [h3] down to [h4] with the fraction
    [(ln P2 - ln P_i)/(ln P2 - ln P1)]. *)
Theorem compression_expansion_sampling :
  forall F (NF : Num F) (backend : Query F -> option F) (np_log : F -> F)
         N N2 pr T1_C T3_C eta_c eta_t m_dot l r,
    gas_cycle_THdot_with backend np_log N N2 pr T1_C T3_C eta_c eta_t m_dot
      = (l, inr r) ->
    let P1 := #101325 in
    let P2 := P1 * pr in
    exists h1 h2 h3 h4,
      h_kJ (gas_states r) = [h1 / #1000; h2 / #1000; h3 / #1000; h4 / #1000] /\
      sampled_along backend m_dot h1
        (fun P_i =>
           h1 + (np_log P_i - np_log P1) / (np_log P2 - np_log P1) * (h2 - h1))
        (linspace P1 P2 N) (tr_compression (gas_traces r)) /\
      sampled_along backend m_dot h1
        (fun P_i =>
           h3 - (np_log P2 - np_log P_i) / (np_log P2 - np_log P1) * (h3 - h4))
        (linspace P2 P1 N) (tr_expansion (gas_traces r)).
Proof.
  intros F NF backend np_log N N2 pr T1_C T3_C eta_c eta_t m_dot l r H P1 P2.
  apply gas_ok in H as (a & b & (_ & H12 & _ & H34 & _) & _ & _ & _ & _ & ->).
  exists (a_h1 a), (gas_h2 eta_c a), (a_h3 a), (gas_h4 eta_t a).
  split; [reflexivity |].
  unfold sampled_along, gas_result.
  cbn [gas_traces tr_compression tr_expansion trace_H trace_T fst snd].
  split; split.
  - exact (combine_map_fst (fun P_i => Hdot (a_h1 a) m_dot (h_12 np_log pr eta_c a P_i)) H12).
  - exact (combine_map_snd (fun t => t - #273.15) H12).
  - exact (combine_map_fst (fun P_i => Hdot (a_h1 a) m_dot (h_34 np_log pr eta_t a P_i)) H34).
  - exact (combine_map_snd (fun t => t - #273.15) H34).
Qed.

Lemma compression_expansion_sampling_witness :
  exists l r h1 h2 h3 h4,
    calculate_gas_cycle_THdot toy_backend ln 12%R 25%R 1100%R 88%R 90%R 1%R
      = (l, inr r) /\
    h_kJ (gas_states r) = [h1 / #1000; h2 / #1000; h3 / #1000; h4 / #1000] /\
    sampled_along toy_backend 1%R h1
      (fun P_i =>
         h1 + (ln P_i - ln #101325) / (ln (#101325 * 12%R) - ln #101325) * (h2 - h1))
      (linspace #101325 (#101325 * 12%R) 60) (tr_compression (gas_traces r)) /\
    sampled_along toy_backend 1%R h1
      (fun P_i =>
         h3 - (ln (#101325 * 12%R) - ln P_i) / (ln (#101325 * 12%R) - ln #101325)
              * (h3 - h4))
      (linspace (#101325 * 12%R) #101325 60) (tr_expansion (gas_traces r)).
Proof.
  destruct (compression_expansion_sampling R_num toy_backend ln 60 80
              _ _ _ _ _ _ toy_gas_default_run)
    as (h1 & h2 & h3 & h4 & E & Hc & He).
  eexists _, _, h1, h2, h3, h4.
  split; [apply toy_gas_default_run |].
  split; [exact E | split; [exact Hc | exact He]].
Defined.

Lemma Forall2_nth X Y (R0 : X -> Y -> Prop) xs ys i x y :
  Forall2 R0 xs ys ->
  nth_error xs i = Some x -> nth_error ys i = Some y -> R0 x y.
Proof.
  intros H; revert i; induction H as [| x' y' xs ys Hxy _ IH]; intros [| i];
    cbn; try discriminate.
  - now intros [= <-] [= <-].
  - apply IH.
Qed.

(** C4, amended.  The actual pump or compressor outlet enthalpy is
    [h_in + (h_ideal - h_in)/eta] in both solvers, and entropy and
    temperature of state 2 are the backend's answers at [(P_out, h_actual)].
    The ideal outlet enthalpy is the linearised [h1 + v1 (P2 - P1)], with
    [v1] the reciprocal of the saturated-liquid density and no further
    backend query, in the steam solver only: the four queries of state 1 are
    followed at once by the two of state 2.  In the gas solver the ideal
    outlet enthalpy is the backend's answer to the isentropic query for the
    enthalpy at [(P2, s1)], the third query of the run. *)
Theorem outlet_enthalpy :
  (forall F (NF : Num F) (backend : Query F -> option F) Pc Pb Tb ep et l r,
     calculate_steam_cycle backend Pc Pb Tb ep et = (l, inr r) ->
     let P1 := Pc * #1000 in
     let P2 := Pb * #1000 in
     let eta_p := ep / #100 in
     exists h1 d1 s2 t2 rest,
       backend (QProps pH pP P1 pQ #0 Water) = Some h1 /\
       backend (QProps pD pP P1 pQ #0 Water) = Some d1 /\
       let v1 := #1 / d1 in
       let h2s := h1 + v1 * (P2 - P1) in
       let h2 := h1 + (h2s - h1) / eta_p in
       backend (QProps pS pP P2 pH h2 Water) = Some s2 /\
       backend (QProps pT pP P2 pH h2 Water) = Some t2 /\
       l = [ QProps pH pP P1 pQ #0 Water; QProps pS pP P1 pQ #0 Water;
             QProps pD pP P1 pQ #0 Water; QProps pT pP P1 pQ #0 Water;
             QProps pS pP P2 pH h2 Water; QProps pT pP P2 pH h2 Water ]
           ++ rest /\
       nth_error (h_kJ (steam_states r)) 1 = Some (h2 / #1000) /\
       nth_error (s_kJ (steam_states r)) 1 = Some (s2 / #1000) /\
       nth_error (T_C (steam_states r)) 1 = Some (t2 - #273.15)) /\
  (forall F (NF : Num F) (backend : Query F -> option F) (np_log : F -> F)
          pr T1_C T3_C eta_c eta_t m_dot l r,
     calculate_gas_cycle_THdot backend np_log pr T1_C T3_C eta_c eta_t m_dot
       = (l, inr r) ->
     let T1 := T1_C + #273.15 in
     let P1 := #101325 in
     let P2 := P1 * pr in
     let ec := eta_c / #100 in
     exists h1 s1 h2s T2 s2 rest,
       backend (QProps pH pP P1 pT T1 Air) = Some h1 /\
       backend (QProps pS pP P1 pT T1 Air) = Some s1 /\
       backend (QProps pH pP P2 pS s1 Air) = Some h2s /\
       let h2 := h1 + (h2s - h1) / ec in
       backend (QProps pT pP P2 pH h2 Air) = Some T2 /\
       backend (QProps pS pP P2 pH h2 Air) = Some s2 /\
       l = [ QProps pH pP P1 pT T1 Air; QProps pS pP P1 pT T1 Air;
             QProps pH pP P2 pS s1 Air;
             QProps pT pP P2 pH h2 Air; QProps pS pP P2 pH h2 Air ]
           ++ rest /\
       nth_error (h_kJ (gas_states r)) 1 = Some (h2 / #1000) /\
       nth_error (s_kJ (gas_states r)) 1 = Some (s2 / #1000) /\
       nth_error (T_C (gas_states r)) 1 = Some (T2 - #273.15)).
Proof.
  split.
  - intros F NF backend Pc Pb Tb ep et l r H P1 P2 eta_p.
    apply steam_ok in H as (a & b & (HS & _) & _ & _ & _ & -> & ->).
    exists (w_h1 a), (w_d1 a), (w_s2 a), (w_t2 a). eexists.
    split; [exact (Forall2_nth 0 HS eq_refl eq_refl) |].
    split; [exact (Forall2_nth 2 HS eq_refl eq_refl) |].
    split; [exact (Forall2_nth 4 HS eq_refl eq_refl) |].
    split; [exact (Forall2_nth 5 HS eq_refl eq_refl) |].
    split; [reflexivity |]. repeat split.
  - intros F NF backend np_log pr T1_C T3_C eta_c eta_t m_dot l r H T1 P1 P2 ec.
    apply gas_ok in H as (a & b & (HS & _) & _ & _ & _ & -> & ->).
    exists (a_h1 a), (a_s1 a), (a_h2s a), (a_T2 a), (a_s2 a). eexists.
    split; [exact (Forall2_nth 0 HS eq_refl eq_refl) |].
    split; [exact (Forall2_nth 1 HS eq_refl eq_refl) |].
    split; [exact (Forall2_nth 2 HS eq_refl eq_refl) |].
    split; [exact (Forall2_nth 3 HS eq_refl eq_refl) |].
    split; [exact (Forall2_nth 4 HS eq_refl eq_refl) |].
    split; [reflexivity |]. repeat split.
Qed.

End Statements.

Section Compressor.

Local Open Scope R_scope.

Lemma outlet_enthalpy_witness :
  (exists l r h2,
     calculate_steam_cycle toy_backend 10 2000 350 85 85 = (l, inr r) /\
     nth_error (h_kJ (steam_states r)) 1 = Some (kilo h2) /\
     nth_error l 4 = Some (QProps pS pP (steam_P2 2000) pH h2 Water)) /\
  (exists l r s1,
     calculate_gas_cycle_THdot toy_backend ln 12 25 1100 88 90 1 = (l, inr r) /\
     nth_error l 2 = Some (QProps pH pP (gas_P2 12) pS s1 Air)).
Proof.
  destruct outlet_enthalpy as [HS HG]. split.
  - destruct (HS _ _ _ _ _ _ _ _ _ _ toy_steam_default_run)
      as (h1 & d1 & s2 & t2 & rest & _ & _ & _ & _ & El & Eh & _).
    eexists _, _, _. split; [apply toy_steam_default_run |].
    split; [exact Eh |]. rewrite El. reflexivity.
  - destruct (HG _ _ _ _ _ _ _ _ _ _ _ _ toy_gas_default_run)
      as (h1 & s1 & h2s & T2 & s2 & rest & _ & _ & _ & _ & _ & El & _).
    eexists _, _, _. split; [apply toy_gas_default_run |].
    rewrite El. reflexivity.
Defined.

(** C4, as stated, fails for the gas solver: its ideal compressor outlet
    enthalpy is not the linearised [h1 + v1 (P2 - P1)].  At the default
    operating point the third backend query asks for the enthalpy at
    [(P2, s1)], the enthalpy reported for state 2 is built from the answer,
    and the answer differs from the linearised value for the specific volume
    [v1 = 1/d1] of the inlet state. *)
Lemma gas_ideal_outlet_is_queried :
  let a := toy_gas_a 12 25 1100 88 90 in
  exists l r d1,
    calculate_gas_cycle_THdot toy_backend ln 12 25 1100 88 90 1 = (l, inr r) /\
    nth_error l 2 = Some (QProps pH pP (gas_P2 12) pS (a_s1 a) Air) /\
    toy_backend (QProps pH pP (gas_P2 12) pS (a_s1 a) Air) = Some (a_h2s a) /\
    nth_error (h_kJ (gas_states r)) 1
      = Some (kilo (a_h1 a + (a_h2s a - a_h1 a) / gas_ec 88)) /\
    toy_backend (QProps pD pP gas_P1 pT (gas_T1 25) Air) = Some d1 /\
    a_h2s a <> a_h1 a + 1 / d1 * (gas_P2 12 - gas_P1).
Proof.
  intros a. eexists _, _, _.
  split; [apply toy_gas_default_run |].
  split; [reflexivity |]. split; [reflexivity |]. split; [reflexivity |].
  split; [reflexivity |].
  unfold a. toy_arith. lra.
Qed.

End Compressor.

(** ** Where the program departs from the specification's wording *)

Section CombustionEnd.

Context {F : Type} {NF : Num F}.
Variable backend : Query F -> option F.
Variable np_log : F -> F.
Local Open Scope num_scope.

(** In every arithmetic the combustion trace ends at the enthalpy rate of
    state 3, and at the temperature [(T3_C + 273.15) - 273.15]: the solver
    converts the turbine inlet temperature to kelvin for the sampling and
    back to Celsius for the trace, while the state point keeps [T3_C]. *)
Lemma combustion_end N N2 pr T1_C T3_C eta_c eta_t m_dot l r :
  (2 <= N2)%nat ->
  gas_cycle_THdot_with backend np_log N N2 pr T1_C T3_C eta_c eta_t m_dot
    = (l, inr r) ->
  exists H,
    state_point r 2 = Some (H, T3_C) /\
    last_sample (tr_combustion (gas_traces r))
    = Some (H, (T3_C + #273.15) - #273.15).
Proof.
  intros HN2 H.
  apply gas_ok in H as (a & b & (HS & _ & H23 & _ & _) & _ & _ & _ & _ & ->).
  assert (Q6 : backend (QProps pH pP (gas_P2 pr) pT (gas_T3 T3_C) Air)
               = Some (a_h3 a))
    by (do 5 (inversion HS as [| ? ? ? ? _ HS']; clear HS; rename HS' into HS);
        inversion HS; assumption).
  clear HS.
  destruct N2 as [| [| n]]; [lia | lia |].
  assert (E23 : T_23_arr (S (S n)) T3_C a
                = linspace_at (a_T2 a) (gas_T3 T3_C) (S (S n)) 0
                  :: map (linspace_at (a_T2 a) (gas_T3 T3_C) (S (S n))) (seq 1 n)
                  ++ [gas_T3 T3_C])
    by reflexivity.
  rewrite E23 in H23.
  apply Forall2_ends in H23 as (ha & hm & hb & _ & _ & Hhb & Ec23).
  unfold q_23 in Hhb. rewrite Q6 in Hhb. injection Hhb as <-.
  exists (Hdot (a_h1 a) m_dot (a_h3 a)).
  split; [reflexivity |].
  unfold last_sample, gas_result.
  cbn [gas_traces tr_combustion trace_H trace_T fst snd].
  rewrite E23, Ec23.
  cbn [map]. rewrite !map_app. cbn [map fst snd].
  rewrite !last_error_ends. reflexivity.
Qed.

End CombustionEnd.

(** C2, as stated, fails on binary64, the arithmetic of the program: with a
    turbine inlet temperature of 1000 degrees Celsius, whatever the backend
    and the other inputs, a solve that returns has state point 3 at 1000
    degrees and the last sample of its combustion trace at
    [(1000 + 273.15) - 273.15 = 1000.0000000000001] degrees, so the end of
    the leg does not match the state point exactly.  On the stand-in backend
    the solve does return, the two points being (975, 1000) and
    (975, 1000.0000000000001). *)
Lemma boundary_is_inexact_in_binary64 :
  let T3_C := float_ofQ 1000 in
  (forall (backend : Query float -> option float) (np_log : float -> float)
          pr T1_C eta_c eta_t m_dot l r,
     calculate_gas_cycle_THdot backend np_log pr T1_C T3_C eta_c eta_t m_dot
       = (l, inr r) ->
     exists H,
       state_point r 2 = Some (H, 1000%float) /\
       last_sample (tr_combustion (gas_traces r))
       = Some (H, 1000.0000000000001%float) /\
       ~ boundary_exact r) /\
  (forall np_log : float -> float,
     exists l r,
       calculate_gas_cycle_THdot toy_backend np_log (float_ofQ 12) (float_ofQ 25)
         T3_C (float_ofQ 88) (float_ofQ 90) (float_ofQ 1) = (l, inr r) /\
       state_point r 2 = Some (975, 1000)%float /\
       last_sample (tr_combustion (gas_traces r))
       = Some (975, 1000.0000000000001)%float).
Proof.
  intros T3_C.
  assert (G : forall (backend : Query float -> option float) np_log
                     pr T1_C eta_c eta_t m_dot l r,
             calculate_gas_cycle_THdot backend np_log pr T1_C T3_C eta_c eta_t m_dot
               = (l, inr r) ->
             exists H,
               state_point r 2 = Some (H, 1000%float) /\
               last_sample (tr_combustion (gas_traces r))
               = Some (H, 1000.0000000000001%float)).
  { intros backend np_log pr T1_C eta_c eta_t m_dot l r H.
    unfold calculate_gas_cycle_THdot in H.
    apply combustion_end in H as (H0 & E1 & E2); [| lia].
    exists H0. split; [exact E1 |]. exact E2. }
  split.
  - intros backend np_log pr T1_C eta_c eta_t m_dot l r H.
    destruct (G _ _ _ _ _ _ _ _ _ H) as (H0 & E1 & E2).
    exists H0. split; [exact E1 |]. split; [exact E2 |].
    intros (p1 & p2 & p3 & p4 & _ & _ & S3 & _ & _ & _ & _ & L3 & _).
    rewrite E1 in S3. rewrite E2 in L3. rewrite <- S3 in L3.
    apply (f_equal (fun o : option (float * float) =>
                      match o with
                      | Some (_, T) => PrimFloat.eqb 1000%float T
                      | None => true
                      end)) in L3.
    vm_compute in L3. discriminate L3.
  - intros np_log.
    pose proof (@gas_run float float_num toy_backend np_log 60 80 (float_ofQ 12)
                  (float_ofQ 25) T3_C (float_ofQ 88) (float_ofQ 90) (float_ofQ 1)
                  _ _ (toy_gas_answered np_log 60 80 (float_ofQ 12) (float_ofQ 25)
                         T3_C (float_ofQ 88) (float_ofQ 90))
                  ltac:(vm_compute; reflexivity)) as Hrun.
    unfold gas_final in Hrun.
    replace (is_zero (gas_turb_w_of (float_ofQ 90) (float_ofQ 1)
                        (toy_gas_a (float_ofQ 12) (float_ofQ 25) T3_C
                           (float_ofQ 88) (float_ofQ 90))))
      with false in Hrun by (vm_compute; reflexivity).
    replace (is_zero (gas_heat_in_of (float_ofQ 88) (float_ofQ 1)
                        (toy_gas_a (float_ofQ 12) (float_ofQ 25) T3_C
                           (float_ofQ 88) (float_ofQ 90))))
      with false in Hrun by (vm_compute; reflexivity).
    eexists _, _. split; [exact Hrun |].
    destruct (G _ _ _ _ _ _ _ _ _ Hrun) as (H0 & E1 & E2).
    assert (E0 : H0 = 975%float).
    { assert (E : state_point
                    (gas_result np_log 60 80 (float_ofQ 12) (float_ofQ 25) T3_C
                       (float_ofQ 88) (float_ofQ 90) (float_ofQ 1)
                       (toy_gas_a (float_ofQ 12) (float_ofQ 25) T3_C
                          (float_ofQ 88) (float_ofQ 90))
                       (toy_gas_b np_log 60 80 (float_ofQ 12) (float_ofQ 25) T3_C
                          (float_ofQ 88) (float_ofQ 90))) 2
                  = Some (975, 1000)%float)
        by (vm_compute; reflexivity).
      rewrite E in E1.
      apply (f_equal (fun o : option (float * float) =>
                        match o with Some (h, _) => h | None => H0 end)) in E1.
      symmetry. exact E1. }
    rewrite E0 in E1, E2. split; [exact E1 | exact E2].
Qed.

Section EvenSpacing.

Local Open Scope R_scope.

(** C5, as stated, fails: the pressures at which the compression leg is
    sampled are not interpolated logarithmically.  At the default operating
    point the first three sampling queries of the compression leg (the
    eleventh to thirteenth of the run) are at pressures in arithmetic
    progression, with the step [(P2 - P1)/59] of [np.linspace(P1, P2, 60)],
    and so not evenly spaced on the logarithmic scale.  With three samples
    and a pressure ratio of 4 the pressures are 101325, 253312.5 and 405300,
    the middle one at 2.5 times [P1] and not at the logarithmic midpoint,
    2 times [P1]. *)
Lemma compression_pressures_are_evenly_spaced :
  (exists l r P_0 P_1 P_2 h_0 h_1 h_2,
     calculate_gas_cycle_THdot toy_backend ln 12 25 1100 88 90 1 = (l, inr r) /\
     nth_error l 10 = Some (QProps pT pP P_0 pH h_0 Air) /\
     nth_error l 11 = Some (QProps pT pP P_1 pH h_1 Air) /\
     nth_error l 12 = Some (QProps pT pP P_2 pH h_2 Air) /\
     P_0 = 101325 /\
     P_1 - P_0 = (101325 * 12 - 101325) / 59 /\
     P_2 - P_1 = P_1 - P_0 /\
     ln P_1 - ln P_0 <> ln P_2 - ln P_1) /\
  P_12 (F := R) 3 4 = [101325; 253312.5; 405300] /\
  253312.5 = 2.5 * 101325 /\
  ln 253312.5 - ln 101325 <> ln 405300 - ln 253312.5.
Proof.
  assert (Geo : forall p d, 0 < p -> 0 < d ->
            ln (p + d) - ln p <> ln (p + 2 * d) - ln (p + d)).
  { intros p d Hp Hd E.
    assert (E' : ln ((p + d) * (p + d)) = ln (p * (p + 2 * d)))
      by (rewrite !ln_mult by lra; lra).
    apply ln_inv in E'; [nra | nra | nra]. }
  split; [| split; [| split]].
  - eexists _, _, _, _, _, _, _, _.
    split; [apply toy_gas_default_run |].
    do 3 (split; [reflexivity |]).
    rewrite !linspace_at_R by lia.
    rewrite gas_P1_R. unfold gas_P2. rewrite gas_P1_R.
    cbn [nmul R_num].
    replace (INR (60 - 1)) with 59 by (cbn; lra).
    replace (INR 0) with 0 by (cbn; lra).
    replace (INR 1) with 1 by (cbn; lra).
    replace (INR 2) with 2 by (cbn; lra).
    split; [lra |]. split; [lra |]. split; [lra |].
    pose proof (Geo 101325 ((101325 * 12 - 101325) / 59) ltac:(lra) ltac:(lra)) as G.
    replace (101325 + 0 * ((101325 * 12 - 101325) / 59)) with 101325 by lra.
    replace (101325 + 1 * ((101325 * 12 - 101325) / 59))
      with (101325 + (101325 * 12 - 101325) / 59) by lra.
    exact G.
  - unfold P_12, linspace. cbn [seq map app].
    rewrite !linspace_at_R by lia.
    rewrite gas_P1_R. unfold gas_P2. rewrite gas_P1_R.
    cbn [nmul R_num].
    replace (INR (3 - 1)) with 2 by (cbn; lra).
    replace (INR 0) with 0 by (cbn; lra).
    replace (INR 1) with 1 by (cbn; lra).
    repeat (f_equal; try lra).
  - lra.
  - pose proof (Geo 101325 151987.5 ltac:(lra) ltac:(lra)) as G.
    replace (101325 + 151987.5) with 253312.5 in G by lra.
    replace (101325 + 2 * 151987.5) with 405300 in G by lra.
    exact G.
Qed.

End EvenSpacing.


(** * Further properties of the program *)

(** ** Which queries a run issues *)

Section QueryLaws.

Context {F : Type} {NF : Num F}.
Variable backend : Query F -> option F.
Variable P : Query F -> Prop.

Lemma all_queries_bind A B (m : M F A) (k : A -> M F B) :
  Forall P (queries m) -> (forall a, Forall P (queries (k a))) ->
  Forall P (queries (bind m k)).
Proof.
  intros Hm Hk. rewrite queries_bind. apply Forall_app. split; [exact Hm |].
  destruct (outcome m); [constructor | apply Hk].
Qed.

Lemma all_queries_ask q : P q -> Forall P (queries (ask backend q)).
Proof. intros H. cbn. now constructor. Qed.

Lemma all_queries_ret A (a : A) : Forall P (queries (ret (F := F) a)).
Proof. constructor. Qed.

Lemma all_queries_pydiv x y : Forall P (queries (pydiv x y)).
Proof. unfold pydiv. destruct (is_zero y); constructor. Qed.

Lemma all_queries_mapM X Y (f : X -> M F Y) xs :
  (forall x, Forall P (queries (f x))) -> Forall P (queries (mapM f xs)).
Proof.
  intros Hf. induction xs as [| x xs IH]; [apply all_queries_ret |].
  cbn [mapM]. apply all_queries_bind; [apply Hf | intros y].
  apply all_queries_bind; [exact IH | intros; apply all_queries_ret].
Qed.

Lemma all_queries_for_each X St (body : X -> St -> M F St) xs :
  (forall x st, Forall P (queries (body x st))) ->
  forall st, Forall P (queries (for_each xs body st)).
Proof.
  intros Hb. induction xs as [| x xs IH]; intros st; [apply all_queries_ret |].
  cbn [for_each]. apply all_queries_bind; [apply Hb | exact IH].
Qed.

Lemma orderly_ret A (a : A) : orderly backend (ret (F := F) a).
Proof. constructor. Qed.

Lemma orderly_ask q : orderly backend (ask backend q).
Proof.
  unfold orderly, ask, outcome, queries, answers. cbn [fst snd].
  destruct (backend q) eqn:E.
  - constructor; [congruence | constructor].
  - exists []. repeat split; [constructor | exact E].
Qed.

Lemma orderly_pydiv x y : orderly backend (pydiv x y).
Proof. unfold pydiv. destruct (is_zero y); constructor. Qed.

Lemma orderly_bind A B (m : M F A) (k : A -> M F B) :
  orderly backend m -> (forall a, orderly backend (k a)) ->
  orderly backend (bind m k).
Proof.
  unfold orderly. intros Hm Hk. rewrite outcome_bind, queries_bind.
  destruct (outcome m) as [e | a].
  - rewrite app_nil_r. exact Hm.
  - specialize (Hk a). destruct (outcome (k a)) as [[q |] | b].
    + destruct Hk as (l & -> & Hl & Hq). exists (queries m ++ l).
      rewrite app_assoc. repeat split; [| exact Hq].
      apply Forall_app. now split.
    + apply Forall_app. now split.
    + apply Forall_app. now split.
Qed.

Lemma orderly_mapM X Y (f : X -> M F Y) xs :
  (forall x, orderly backend (f x)) -> orderly backend (mapM f xs).
Proof.
  intros Hf. induction xs as [| x xs IH]; [apply orderly_ret |].
  cbn [mapM]. apply orderly_bind; [apply Hf | intros y].
  apply orderly_bind; [exact IH | intros; apply orderly_ret].
Qed.

Lemma orderly_for_each X St (body : X -> St -> M F St) xs :
  (forall x st, orderly backend (body x st)) ->
  forall st, orderly backend (for_each xs body st).
Proof.
  intros Hb. induction xs as [| x xs IH]; intros st; [apply orderly_ret |].
  cbn [for_each]. apply orderly_bind; [apply Hb | exact IH].
Qed.

End QueryLaws.

Ltac queries_step :=
  first
  [ apply all_queries_ret
  | apply all_queries_pydiv
  | apply all_queries_ask; cbn; auto 6
  | apply all_queries_mapM; intros ?
  | apply all_queries_for_each; intros ? [? ?]
  | apply all_queries_bind; [ | intros ? ]
  | match goal with
    | |- Forall _ (queries (match ?p with (_, _) => _ end)) => destruct p
    end ].

Ltac orderly_step :=
  first
  [ apply orderly_ret
  | apply orderly_ask
  | apply orderly_pydiv
  | apply orderly_mapM; intros ?
  | apply orderly_for_each; intros ? [? ?]
  | apply orderly_bind; [ | intros ? ]
  | match goal with
    | |- orderly _ (match ?p with (_, _) => _ end) => destruct p
    end ].

(** X1.  Each solver keeps to its own fluid.  Whatever the inputs and the
    backend, and on failing runs too, the steam solver asks only about water:
    the critical pressure, or a state given by the pressure and one of
    quality, enthalpy, temperature and entropy.  The gas solver asks only
    about air, always a state given by the pressure and one of temperature,
    enthalpy and entropy; it never asks for a critical pressure, a quality
    or a density. *)
Theorem solvers_keep_to_their_fluid :
  forall F (NF : Num F) (backend : Query F -> option F) (np_log : F -> F),
    (forall Pc Pb Tb ep et,
       Forall (fun q =>
                 match q with
                 | QProps _ name1 _ name2 _ fluid =>
                     name1 = pP /\ fluid = Water /\
                     (name2 = pQ \/ name2 = pH \/ name2 = pT \/ name2 = pS)
                 | QPcrit fluid => fluid = Water
                 end)
              (queries (calculate_steam_cycle backend Pc Pb Tb ep et))) /\
    (forall N N2 pr T1_C T3_C eta_c eta_t m_dot,
       Forall (fun q =>
                 match q with
                 | QProps out name1 _ name2 _ fluid =>
                     name1 = pP /\ fluid = Air /\ out <> pD /\
                     (name2 = pT \/ name2 = pH \/ name2 = pS)
                 | QPcrit _ => False
                 end)
              (queries (gas_cycle_THdot_with backend np_log N N2 pr T1_C T3_C
                          eta_c eta_t m_dot))).
Proof.
  intros F NF backend np_log. split.
  - intros Pc Pb Tb ep et.
    unfold calculate_steam_cycle, PropsSI, PropsSI_Pcrit. cbv zeta.
    repeat queries_step.
  - intros N N2 pr T1_C T3_C eta_c eta_t m_dot.
    unfold gas_cycle_THdot_with, PropsSI. cbv zeta.
    repeat queries_step; repeat split; auto; discriminate.
Qed.

Section Orderly.

Context {F : Type} {NF : Num F}.
Variable backend : Query F -> option F.
Variable np_log : F -> F.

Lemma steam_orderly Pc Pb Tb ep et :
  orderly backend (calculate_steam_cycle backend Pc Pb Tb ep et).
Proof.
  unfold calculate_steam_cycle, PropsSI, PropsSI_Pcrit. cbv zeta.
  repeat orderly_step.
Qed.

Lemma gas_orderly N N2 pr T1_C T3_C eta_c eta_t m_dot :
  orderly backend
    (gas_cycle_THdot_with backend np_log N N2 pr T1_C T3_C eta_c eta_t m_dot).
Proof.
  unfold gas_cycle_THdot_with, PropsSI. cbv zeta.
  repeat orderly_step.
Qed.

End Orderly.

(** X2.  Failures are orderly in both solvers.  Every query a run issued
    before it stopped was answered by the backend; a run that ends in a
    [ValueError] ends with the one query the backend refused, issued last
    and named by the error.  So the first refusal stops the solve: nothing
    is asked after it and nothing is retried. *)
Theorem solver_failures_are_orderly :
  forall F (NF : Num F) (backend : Query F -> option F) (np_log : F -> F),
    (forall Pc Pb Tb ep et,
       orderly backend (calculate_steam_cycle backend Pc Pb Tb ep et)) /\
    (forall N N2 pr T1_C T3_C eta_c eta_t m_dot,
       orderly backend
         (gas_cycle_THdot_with backend np_log N N2 pr T1_C T3_C
            eta_c eta_t m_dot)).
Proof.
  intros F NF backend np_log. split.
  - apply steam_orderly.
  - apply gas_orderly.
Qed.

(** ** The analysis block *)

Section Analysis.

Context {F : Type} {NF : Num F}.
Variable backend : Query F -> option F.
Variable np_log : F -> F.
Local Open Scope num_scope.

Lemma run_calculations_cost inp :
  cost 1482 (run_calculations backend np_log inp).
Proof.
  unfold run_calculations.
  change 1482%nat with (1212 + (270 + 0))%nat.
  apply cost_bind; [apply steam_cost | intros s].
  apply cost_bind; [apply (gas_cost backend np_log 60 80) | intros g].
  destruct (biomass_outputs _ _ _ _) as [[[[? ?] ?] ?] ?]. apply cost_ret.
Qed.

Lemma run_calculations_orderly inp :
  orderly backend (run_calculations backend np_log inp).
Proof.
  unfold run_calculations.
  apply orderly_bind; [apply steam_orderly | intros s].
  apply orderly_bind; [apply gas_orderly | intros g].
  destruct (biomass_outputs _ _ _ _) as [[[[? ?] ?] ?] ?]. apply orderly_ret.
Qed.

End Analysis.

(** X3.  The analysis block solves the steam cycle first and the gas cycle
    second.  It issues at most 1482 backend queries and its failures are
    orderly.  When the steam solve fails, the analysis stops there with the
    same error and the same queries, the gas solver not having run.  When
    the analysis succeeds, its first 1212 queries are those of the steam
    solve and the other 270 those of the gas solve, it holds the two
    solvers' results and the biomass split, and the biogas power is the
    biogas flow times the heating value times 1000. *)
Theorem analysis_composes :
  forall F (NF : Num F) (backend : Query F -> option F) (np_log : F -> F)
         (inp : Inputs F),
    let steam := calculate_steam_cycle backend (p_cond inp) (p_boiler inp)
                   (t_boiler inp) (pump_eff inp) (s_turb_eff inp) in
    let gas := calculate_gas_cycle_THdot backend np_log (pr_ratio inp)
                 (t_air_in inp) (t_turb_in inp) (comp_eff inp)
                 (g_turb_eff inp) (m_dot_gas inp) in
    let run := run_calculations backend np_log inp in
    orderly backend run /\
    (length (queries run) <= 1482)%nat /\
    (forall e, outcome steam = inl e -> run = (queries steam, inl e)) /\
    (forall c, outcome run = inr c ->
       steam = (firstn 1212 (queries run), inr (calc_steam c)) /\
       gas = (skipn 1212 (queries run), inr (calc_gas c)) /\
       length (queries run) = 1482%nat /\
       calc_biomass c
       = biomass_outputs (m_biomass inp) (moist_pct inp) (ad_eff inp)
           (htc_conv inp) /\
       let '(_, _, m_bio, _, _) := calc_biomass c in
       bio_power c = (m_bio * biogas_lhv inp * #1000)%num).
Proof.
  intros F NF backend np_log inp steam gas run.
  split; [apply run_calculations_orderly |].
  split; [apply run_calculations_cost |].
  split.
  - intros e He. unfold run, run_calculations. fold steam.
    destruct steam as [ls os]. cbn in He. subst os. reflexivity.
  - intros c Hc.
    pose proof (steam_cost backend (p_cond inp) (p_boiler inp) (t_boiler inp)
                  (pump_eff inp) (s_turb_eff inp)) as [_ Hs].
    pose proof (gas_cost backend np_log 60 80 (pr_ratio inp) (t_air_in inp)
                  (t_turb_in inp) (comp_eff inp) (g_turb_eff inp)
                  (m_dot_gas inp)) as [_ Hg].
    fold (calculate_gas_cycle_THdot backend np_log) in Hg.
    fold steam in Hs. fold gas in Hg.
    unfold run, run_calculations in *. fold steam in Hc |- *.
    fold gas in Hc |- *.
    destruct steam as [ls [e | s]]; [discriminate |].
    destruct gas as [lg [e | g]]; [discriminate |].
    specialize (Hs s eq_refl). specialize (Hg g eq_refl).
    cbn [queries fst] in Hs, Hg.
    cbn [bind] in Hc |- *.
    destruct (biomass_outputs (m_biomass inp) (moist_pct inp) (ad_eff inp)
                (htc_conv inp)) as [[[[m_rich m_lean] m_bio] m_char] m_vol] eqn:Eb.
    cbn [ret outcome queries fst snd] in Hc |- *. injection Hc as <-.
    cbn [calc_steam calc_gas calc_biomass bio_power].
    rewrite app_nil_r.
    rewrite <- Hs at 1 2. rewrite firstn_app, Nat.sub_diag, firstn_all.
    rewrite skipn_app, Nat.sub_diag, skipn_all.
    cbn [firstn skipn app]. rewrite app_nil_r.
    repeat split. rewrite length_app. lia.
Qed.

Lemma toy_default_analysis :
  run_calculations toy_backend ln
    (mkInputs 10 50 70 60 22 10 2000 350 85 85 12 25 1100 88 90 1)%R
  = (steam_queries 10 2000 350 85 85 (toy_steam_a 10 2000 350 85 85)
     ++ gas_queries ln 60 80 12 25 1100 88 90 (toy_gas_a 12 25 1100 88 90)
     ++ [],
     inr (mkCalculations
            (steam_result 10 2000 350 85 85 (toy_steam_a 10 2000 350 85 85)
               (toy_steam_b 10 2000 350 85 85))
            (gas_result ln 60 80 12 25 1100 88 90 1
               (toy_gas_a 12 25 1100 88 90)
               (toy_gas_b ln 60 80 12 25 1100 88 90))
            (biomass_outputs 10 50 60 70)
            (10 * 60 / #100 * 22 * #1000)%num))%R.
Proof.
  unfold run_calculations.
  cbn [p_cond p_boiler t_boiler pump_eff s_turb_eff pr_ratio t_air_in
       t_turb_in comp_eff g_turb_eff m_dot_gas m_biomass moist_pct ad_eff
       htc_conv biogas_lhv].
  rewrite toy_steam_default_run. cbn [bind].
  rewrite toy_gas_default_run. reflexivity.
Qed.

Lemma analysis_composes_witness :
  let inp := (mkInputs 10 50 70 60 22 10 2000 350 85 85 12 25 1100 88 90 1)%R in
  let run := run_calculations toy_backend ln inp in
  exists c,
    outcome run = inr c /\
    length (queries run) = 1482%nat /\
    calc_biomass c = biomass_outputs 10%R 50%R 60%R 70%R.
Proof.
  intros inp run.
  destruct (analysis_composes R_num toy_backend ln inp) as (_ & _ & _ & H).
  eexists. split; [unfold run, inp; rewrite toy_default_analysis; reflexivity |].
  assert (E : outcome (run_calculations toy_backend ln inp) = inr _)
    by (unfold inp; rewrite toy_default_analysis; reflexivity).
  destruct (H _ E) as (_ & _ & Hlen & Hbio & _).
  split; [exact Hlen | exact Hbio].
Defined.

(** ** The session state and the tooltips *)

(** X4.  The tooltips of the schematic lag one run behind the analysis.  A
    run of the script builds them from the session state it starts with, so
    in the run that computes new states they still show the old ones (the
    placeholder, from a fresh session).  After a successful analysis the
    tooltips of the next run are those of the states it stored, whatever the
    inputs and the button of that next run.  A failed analysis reports the
    exception and leaves the session state, and so the next tooltips, as
    they were. *)
Theorem tooltips_lag_one_run :
  forall F (NF : Num F) (backend : Query F -> option F) (np_log : F -> F)
         (format_f : nat -> F -> string)
         (sess : Session F) (inp inp' : Inputs F) (btn' : bool),
    let r1 := script_run backend np_log format_f sess inp true in
    let r2 := script_run backend np_log format_f (run_session r1) inp' btn' in
    run_s_tip r1 = tips format_f (ss_steam_states sess) /\
    run_g_tip r1 = tips format_f (ss_gas_states sess) /\
    (sess = mkSession None None None ->
     run_s_tip r1 = repeat "Run analysis to see state properties"%string 4 /\
     run_g_tip r1 = repeat "Run analysis to see state properties"%string 4) /\
    (forall c, outcome (run_calculations backend np_log inp) = inr c ->
       run_report r1 = Results c /\
       run_s_tip r2
       = map (state_tip format_f (steam_states (calc_steam c))) (seq 0 4) /\
       run_g_tip r2
       = map (state_tip format_f (gas_states (calc_gas c))) (seq 0 4)) /\
    (forall e, outcome (run_calculations backend np_log inp) = inl e ->
       run_report r1 = CalculationError e /\
       run_session r1 = sess /\
       run_s_tip r2 = run_s_tip r1 /\ run_g_tip r2 = run_g_tip r1).
Proof.
  intros F NF backend np_log format_f sess inp inp' btn' r1 r2.
  assert (T2 : run_s_tip r2 = tips format_f (ss_steam_states (run_session r1))
               /\ run_g_tip r2 = tips format_f (ss_gas_states (run_session r1))).
  { unfold r2, script_run. destruct btn'; [| now split].
    destruct (run_calculations backend np_log inp') as [l' [e' | c']]; now split. }
  destruct T2 as [T2s T2g].
  assert (T1 : run_s_tip r1 = tips format_f (ss_steam_states sess)
               /\ run_g_tip r1 = tips format_f (ss_gas_states sess)).
  { unfold r1, script_run.
    destruct (run_calculations backend np_log inp) as [l [e | c]]; now split. }
  destruct T1 as [T1s T1g].
  split; [exact T1s |]. split; [exact T1g |]. split; [| split].
  - intros ->. now rewrite T1s, T1g.
  - intros c Hc. rewrite T2s, T2g. unfold r1, script_run.
    destruct (run_calculations backend np_log inp) as [l o].
    cbn in Hc. subst o. cbn [run_report run_session].
    unfold store. destruct (calc_biomass c) as [[[[? ?] ?] ?] ?].
    repeat split.
  - intros e He. rewrite T2s, T2g, T1s, T1g. unfold r1, script_run.
    destruct (run_calculations backend np_log inp) as [l o].
    cbn in He. subst o. repeat split.
Qed.

Lemma tooltips_lag_one_run_witness :
  let inp := (mkInputs 10 50 70 60 22 10 2000 350 85 85 12 25 1100 88 90 1)%R in
  let fmt := fun (_ : nat) (_ : R) => "?"%string in
  let r1 := script_run toy_backend ln fmt (mkSession None None None) inp true in
  let r2 := script_run toy_backend ln fmt (run_session r1) inp false in
  run_s_tip r1 = repeat "Run analysis to see state properties"%string 4 /\
  (exists c, run_report r1 = Results c /\
     run_s_tip r2 = map (state_tip fmt (steam_states (calc_steam c))) (seq 0 4)) /\
  (let r := script_run (fun _ => None) ln fmt (mkSession None None None) inp true in
   exists e, run_report r = CalculationError e /\
             run_session r = mkSession None None None).
Proof.
  intros inp fmt r1 r2. split; [| split].
  - apply (tooltips_lag_one_run R_num toy_backend ln fmt
             (mkSession None None None) inp inp false). reflexivity.
  - eexists.
    assert (E : outcome (run_calculations toy_backend ln inp) = inr _)
      by (unfold inp; rewrite toy_default_analysis; reflexivity).
    destruct (tooltips_lag_one_run R_num toy_backend ln fmt
                (mkSession None None None) inp inp false)
      as (_ & _ & _ & H & _).
    destruct (H _ E) as (H1 & H2 & _). split; [exact H1 | exact H2].
  - intros r.
    assert (E : outcome (run_calculations (F := R) (fun _ => None) ln inp)
                = inl (ValueError (QProps pH pP (10%R * #1000)%num pQ (ofQ 0 : R) Water)))
      by reflexivity.
    eexists.
    destruct (tooltips_lag_one_run R_num (fun _ => None) ln fmt
                (mkSession None None None) inp inp false)
      as (_ & _ & _ & _ & H).
    destruct (H _ E) as (H1 & H2 & _). split; [exact H1 | exact H2].
Defined.

(** X5.  [_fmt] never lets a lookup fail: it answers with a dash.  That is
    the answer for every key other than the four numeric ones (the labels
    included, which are strings) and for every index outside
    [-len .. len - 1] of the list under a numeric key.  Inside that range it
    formats the entry and appends the unit, a negative index counting from
    the end as in Python. *)
Theorem fmt_falls_back_to_dash :
  forall F (format_f : nat -> F -> string) (d : States F)
         (key : string) (i : Z) (unit : string) (dec : nat),
    (~ (key = "T_C" \/ key = "P_kPa" \/ key = "h_kJ" \/ key = "s_kJ")%string ->
     _fmt format_f d key i unit dec = "—"%string) /\
    (forall l, states_lookup d key = Some (Nums l) ->
       let n := Z.of_nat (length l) in
       ((i < - n \/ n <= i)%Z -> _fmt format_f d key i unit dec = "—"%string) /\
       ((0 <= i < n)%Z ->
        exists v, nth_error l (Z.to_nat i) = Some v /\
                  _fmt format_f d key i unit dec
                  = (format_f dec v ++ " " ++ unit)%string) /\
       ((- n <= i < 0)%Z ->
        _fmt format_f d key i unit dec = _fmt format_f d key (n + i) unit dec)).
Proof.
  intros F format_f d key i unit dec. split.
  - intros Hk. unfold _fmt, states_lookup.
    destruct (key =? "labels")%string; [reflexivity |].
    destruct (key =? "T_C")%string eqn:E1;
      [apply String.eqb_eq in E1; tauto |].
    destruct (key =? "P_kPa")%string eqn:E2;
      [apply String.eqb_eq in E2; tauto |].
    destruct (key =? "h_kJ")%string eqn:E3;
      [apply String.eqb_eq in E3; tauto |].
    destruct (key =? "s_kJ")%string eqn:E4;
      [apply String.eqb_eq in E4; tauto |].
    reflexivity.
  - intros l Hl n. unfold _fmt. rewrite Hl. unfold py_index.
    assert (Hn : n = Z.of_nat (length l)) by reflexivity.
    rewrite <- Hn. clearbody n.
    split; [| split].
    + intros [Hi | Hi].
      * destruct (Z.leb_spec 0 i); [lia |].
        destruct (Z.leb_spec (- n) i); [lia | reflexivity].
      * destruct (Z.leb_spec 0 i); [| lia].
        assert (E : nth_error l (Z.to_nat i) = None)
          by (apply nth_error_None; lia).
        now rewrite E.
    + intros Hi. destruct (Z.leb_spec 0 i); [| lia].
      destruct (nth_error l (Z.to_nat i)) as [v |] eqn:E.
      * exists v. now split.
      * apply nth_error_None in E. lia.
    + intros Hi. destruct (Z.leb_spec 0 i); [lia |].
      destruct (Z.leb_spec (- n) i); [| lia].
      destruct (Z.leb_spec 0 (n + i)); [reflexivity | lia].
Qed.

Lemma fmt_falls_back_to_dash_witness :
  let fmt := fun (_ : nat) (x : Z) => if (x =? 7)%Z then "seven"%string else "?"%string in
  let d := mkStates ["a"; "b"]%string [5; 6; 7]%Z [] [] [] in
  _fmt fmt d "colour" 0 "K" 1 = "—"%string /\
  _fmt fmt d "labels" 0 "K" 1 = "—"%string /\
  _fmt fmt d "T_C" 3 "K" 1 = "—"%string /\
  _fmt fmt d "T_C" (-4) "K" 1 = "—"%string /\
  (exists v, nth_error [5; 6; 7]%Z (Z.to_nat 2) = Some v /\
             _fmt fmt d "T_C" 2 "K" 1 = (fmt 1%nat v ++ " " ++ "K")%string) /\
  _fmt fmt d "T_C" (-1) "K" 1 = _fmt fmt d "T_C" (3 + -1) "K" 1.
Proof.
  intros fmt d.
  split; [apply (fmt_falls_back_to_dash fmt d "colour" 0 "K" 1); intros H;
          decompose [or] H; discriminate |].
  split; [apply (fmt_falls_back_to_dash fmt d "labels" 0 "K" 1); intros H;
          decompose [or] H; discriminate |].
  split.
  { destruct (proj2 (fmt_falls_back_to_dash fmt d "T_C" 3 "K" 1)
                [5; 6; 7]%Z eq_refl) as (H & _ & _).
    apply H. cbn [length]. lia. }
  split.
  { destruct (proj2 (fmt_falls_back_to_dash fmt d "T_C" (-4) "K" 1)
                [5; 6; 7]%Z eq_refl) as (H & _ & _).
    apply H. cbn [length]. lia. }
  split.
  { destruct (proj2 (fmt_falls_back_to_dash fmt d "T_C" 2 "K" 1)
                [5; 6; 7]%Z eq_refl) as (_ & H & _).
    apply H. cbn [length]. lia. }
  destruct (proj2 (fmt_falls_back_to_dash fmt d "T_C" (-1) "K" 1)
              [5; 6; 7]%Z eq_refl) as (_ & _ & H).
  apply H. cbn [length]. lia.
Defined.

(** X6.  After a solve that returned, the tooltips show no dash.  The
    [states] of either solver hold four entries under each numeric key, so
    each of the four tooltips built from them is the full line: temperature
    to one decimal, pressure to none, enthalpy to one and entropy to four,
    each with its unit. *)
Theorem tooltips_of_a_solve_are_complete :
  forall F (NF : Num F) (backend : Query F -> option F) (np_log : F -> F)
         (format_f : nat -> F -> string),
    let complete (d : States F) :=
      forall i, (i < 4)%nat ->
        exists T P h s,
          nth_error (T_C d) i = Some T /\ nth_error (P_kPa d) i = Some P /\
          nth_error (h_kJ d) i = Some h /\ nth_error (s_kJ d) i = Some s /\
          nth_error (tips format_f (Some d)) i
          = Some ("T=" ++ (format_f 1%nat T ++ " " ++ "°C")
                  ++ " | P=" ++ (format_f 0%nat P ++ " " ++ "kPa")
                  ++ "<br>h=" ++ (format_f 1%nat h ++ " " ++ "kJ/kg")
                  ++ " | s=" ++ (format_f 4%nat s ++ " " ++ "kJ/kg·K"))%string in
    (forall Pc Pb Tb ep et l r,
       calculate_steam_cycle backend Pc Pb Tb ep et = (l, inr r) ->
       complete (steam_states r)) /\
    (forall N N2 pr T1_C T3_C eta_c eta_t m_dot l r,
       gas_cycle_THdot_with backend np_log N N2 pr T1_C T3_C eta_c eta_t m_dot
         = (l, inr r) ->
       complete (gas_states r)).
Proof.
  intros F NF backend np_log format_f complete. split.
  - intros Pc Pb Tb ep et l r H.
    apply steam_ok in H as (a & b & _ & _ & _ & _ & _ & ->).
    intros i Hi.
    destruct i as [| [| [| [| i]]]]; try lia;
      do 4 eexists; repeat split; reflexivity.
  - intros N N2 pr T1_C T3_C eta_c eta_t m_dot l r H.
    apply gas_ok in H as (a & b & _ & _ & _ & _ & _ & ->).
    intros i Hi.
    destruct i as [| [| [| [| i]]]]; try lia;
      do 4 eexists; repeat split; reflexivity.
Qed.

Lemma tooltips_of_a_solve_are_complete_witness :
  let fmt := fun (_ : nat) (_ : R) => "?"%string in
  exists l r,
    calculate_steam_cycle toy_backend 10%R 2000%R 350%R 85%R 85%R = (l, inr r) /\
    nth_error (tips fmt (Some (steam_states r))) 3
    = Some "T=? °C | P=? kPa<br>h=? kJ/kg | s=? kJ/kg·K"%string.
Proof.
  intros fmt. eexists _, _. split; [apply toy_steam_default_run |].
  destruct (proj1 (tooltips_of_a_solve_are_complete R_num toy_backend ln fmt)
              _ _ _ _ _ _ _ toy_steam_default_run 3%nat ltac:(lia))
    as (T & P & h & s & _ & _ & _ & _ & E).
  exact E.
Defined.

(** ** The shape of the results *)

Lemma Forall2_nth_both X Y (R0 : X -> Y -> Prop) xs ys i :
  Forall2 R0 xs ys -> (i < length xs)%nat ->
  exists x y, nth_error xs i = Some x /\ nth_error ys i = Some y /\ R0 x y.
Proof.
  intros H; revert i; induction H as [| x y xs ys Hxy _ IH]; intros i Hi;
    cbn in Hi; [lia |].
  destruct i as [| i]; [exists x, y; auto |].
  apply IH. lia.
Qed.

Lemma length_sampled X Y Z (R0 : X -> Y -> Prop) (f : X * Y -> Z) xs ys :
  Forall2 R0 xs ys -> length (map f (combine xs ys)) = length xs.
Proof.
  intros H. rewrite length_map, length_combine, <- (Forall2_length H). lia.
Qed.

(** X7.  The traces of a solved gas cycle can be plotted as they are: in each
    of the four the enthalpy-rate list and the temperature list have the
    same length, the sample count of the leg ([N], [N2], [N], [N]; 60, 80,
    60, 60 in the program), and the two lists of state points have four
    entries each. *)
Theorem gas_result_shape :
  forall F (NF : Num F) (backend : Query F -> option F) (np_log : F -> F)
         N N2 pr T1_C T3_C eta_c eta_t m_dot l r,
    gas_cycle_THdot_with backend np_log N N2 pr T1_C T3_C eta_c eta_t m_dot
      = (l, inr r) ->
    let sized n (t : Trace F) := length (trace_H t) = n /\ length (trace_T t) = n in
    sized N (tr_compression (gas_traces r)) /\
    sized N2 (tr_combustion (gas_traces r)) /\
    sized N (tr_expansion (gas_traces r)) /\
    sized N (tr_heat_rejection (gas_traces r)) /\
    length (gas_h_states r) = 4%nat /\ length (gas_T_states r) = 4%nat.
Proof.
  intros F NF backend np_log N N2 pr T1_C T3_C eta_c eta_t m_dot l r H sized.
  apply gas_ok in H as (a & b & (_ & H12 & H23 & H34 & H41) & _ & _ & _ & _ & ->).
  unfold sized, gas_result.
  cbn [gas_traces tr_compression tr_combustion tr_expansion tr_heat_rejection
       trace_H trace_T fst snd gas_h_states gas_T_states].
  rewrite !(length_sampled _ H12), !(length_sampled _ H23),
    !(length_sampled _ H34), !(length_sampled _ H41).
  unfold P_12, T_23_arr, P_34, T_41_arr. rewrite !linspace_length.
  repeat split.
Qed.

Lemma gas_result_shape_witness :
  exists l r,
    calculate_gas_cycle_THdot toy_backend ln 12%R 25%R 1100%R 88%R 90%R 1%R
      = (l, inr r) /\
    length (trace_H (tr_combustion (gas_traces r))) = 80%nat /\
    length (trace_T (tr_combustion (gas_traces r))) = 80%nat.
Proof.
  eexists _, _. split; [apply toy_gas_default_run |].
  destruct (gas_result_shape R_num toy_backend ln 60 80 _ _ _ _ _ _
              toy_gas_default_run) as (_ & H & _).
  exact H.
Defined.

(** X8.  The cycle a solved steam cycle draws is closed.  [h_cycle] and
    [s_cycle] hold the four state values followed by the first one again,
    and the [i]-th process line of the h-s diagram joins state [i + 1] to
    the next state, the fourth line returning to state 1 (by the index
    [(i+1) % 4], so no index is ever out of range). *)
Theorem steam_cycle_is_closed :
  forall F (NF : Num F) (backend : Query F -> option F) Pc Pb Tb ep et l r,
    calculate_steam_cycle backend Pc Pb Tb ep et = (l, inr r) ->
    let st := steam_states r in
    length (h_kJ st) = 4%nat /\ length (s_kJ st) = 4%nat /\
    steam_h_cycle r = h_kJ st ++ firstn 1 (h_kJ st) /\
    steam_s_cycle r = s_kJ st ++ firstn 1 (s_kJ st) /\
    forall i, (i < 4)%nat ->
      exists si hi sj hj,
        nth_error (s_kJ st) i = Some si /\ nth_error (h_kJ st) i = Some hi /\
        nth_error (s_kJ st) ((i + 1) mod 4) = Some sj /\
        nth_error (h_kJ st) ((i + 1) mod 4) = Some hj /\
        process_line r i = Some ((si, hi), (sj, hj)).
Proof.
  intros F NF backend Pc Pb Tb ep et l r H st.
  apply steam_ok in H as (a & b & _ & _ & _ & _ & _ & ->).
  unfold st. do 4 (split; [reflexivity |]).
  intros i Hi.
  destruct i as [| [| [| [| i]]]]; try lia;
    do 4 eexists; repeat split; reflexivity.
Qed.

Lemma steam_cycle_is_closed_witness :
  exists l r,
    calculate_steam_cycle toy_backend 10%R 2000%R 350%R 85%R 85%R = (l, inr r) /\
    steam_h_cycle r = h_kJ (steam_states r) ++ firstn 1 (h_kJ (steam_states r)) /\
    exists si hi sj hj,
      nth_error (s_kJ (steam_states r)) 3 = Some si /\
      nth_error (h_kJ (steam_states r)) 3 = Some hi /\
      nth_error (s_kJ (steam_states r)) 0 = Some sj /\
      nth_error (h_kJ (steam_states r)) 0 = Some hj /\
      process_line r 3 = Some ((si, hi), (sj, hj)).
Proof.
  eexists _, _. split; [apply toy_steam_default_run |].
  destruct (steam_cycle_is_closed R_num toy_backend _ _ _ _ _
              toy_steam_default_run) as (_ & _ & Hh & _ & H).
  split; [exact Hh |].
  apply (H 3%nat). lia.
Defined.

Lemma nth_error_app_rev X (l1 l2 : list X) i :
  (i < length l2)%nat ->
  nth_error (l1 ++ rev l2) (length l1 + length l2 - 1 - i) = nth_error l2 i.
Proof.
  intros Hi. rewrite nth_error_app2 by lia. rewrite nth_error_rev.
  replace (length l1 + length l2 - 1 - i - length l1)%nat
    with (length l2 - 1 - i)%nat by lia.
  destruct (Nat.ltb_spec (length l2 - 1 - i) (length l2)); [| lia].
  f_equal. lia.
Qed.

Section DomeOutline.

Local Open Scope num_scope.

(** X9.  The outline of the saturation dome in the h-s diagram is a closed
    loop of 600 points that pairs each pressure sample with itself: point
    [i] is the saturated liquid and point [599 - i] the saturated vapour at
    the [i]-th of the 300 pressures, so the outline goes up the liquid line
    and comes back down the vapour line through the same pressures. *)
Theorem dome_outline_pairs_liquid_and_vapour :
  forall F (NF : Num F) (backend : Query F -> option F) Pc Pb Tb ep et l r,
    calculate_steam_cycle backend Pc Pb Tb ep et = (l, inr r) ->
    exists pc,
      backend (QPcrit Water) = Some pc /\
      length (fst (dome_outline r)) = 600%nat /\
      length (snd (dome_outline r)) = 600%nat /\
      forall i, (i < 300)%nat ->
        exists p sf sg hf hg,
          nth_error (linspace (#700) (pc * #0.9995) 300) i = Some p /\
          backend (QProps pS pP p pQ (#0) Water) = Some sf /\
          backend (QProps pS pP p pQ (#1) Water) = Some sg /\
          backend (QProps pH pP p pQ (#0) Water) = Some hf /\
          backend (QProps pH pP p pQ (#1) Water) = Some hg /\
          nth_error (fst (dome_outline r)) i = Some (sf / #1000) /\
          nth_error (snd (dome_outline r)) i = Some (hf / #1000) /\
          nth_error (fst (dome_outline r)) (599 - i) = Some (sg / #1000) /\
          nth_error (snd (dome_outline r)) (599 - i) = Some (hg / #1000).
Proof.
  intros F NF backend Pc Pb Tb ep et l r H.
  apply steam_ok in H as (a & b & (HS & Hhf & Hsf & Hhg & Hsg) & _ & _ & _ & _ & ->).
  exists (w_pcrit a).
  assert (Hpc : backend (QPcrit Water) = Some (w_pcrit a)).
  { do 11 (inversion HS as [| ? ? ? ? _ HS']; clear HS; rename HS' into HS).
    inversion HS as [| ? ? ? ? Hq _]. exact Hq. }
  clear HS. unfold P_sat_arr, q_sat in *.
  set (P_sat := linspace (#700) (w_pcrit a * #0.9995) 300) in *.
  assert (Hlen : length P_sat = 300%nat) by apply linspace_length.
  pose proof (Forall2_length Hhf) as Lhf. pose proof (Forall2_length Hsf) as Lsf.
  pose proof (Forall2_length Hhg) as Lhg. pose proof (Forall2_length Hsg) as Lsg.
  rewrite Hlen in Lhf, Lsf, Lhg, Lsg.
  unfold dome_outline, steam_result. cbn [steam_sf steam_sg steam_hf steam_hg fst snd].
  split; [exact Hpc |].
  split; [rewrite length_app, length_rev, !length_map; lia |].
  split; [rewrite length_app, length_rev, !length_map; lia |].
  intros i Hi.
  destruct (Forall2_nth_both (i := i) Hsf) as (p & sf & Ep & Esf & Qsf); [lia |].
  destruct (Forall2_nth_both (i := i) Hsg) as (p1 & sg & Ep1 & Esg & Qsg); [lia |].
  destruct (Forall2_nth_both (i := i) Hhf) as (p2 & hf & Ep2 & Ehf & Qhf); [lia |].
  destruct (Forall2_nth_both (i := i) Hhg) as (p3 & hg & Ep3 & Ehg & Qhg); [lia |].
  rewrite Ep in Ep1, Ep2, Ep3.
  injection Ep1 as <-. injection Ep2 as <-. injection Ep3 as <-.
  exists p, sf, sg, hf, hg.
  do 5 (split; [assumption |]).
  split; [rewrite nth_error_app1 by (rewrite length_map; lia);
          rewrite nth_error_map, Esf; reflexivity |].
  split; [rewrite nth_error_app1 by (rewrite length_map; lia);
          rewrite nth_error_map, Ehf; reflexivity |].
  split.
  - replace (599 - i)%nat
      with (length (map kilo (w_sf b)) + length (map kilo (w_sg b)) - 1 - i)%nat
      by (rewrite !length_map; lia).
    rewrite nth_error_app_rev by (rewrite length_map; lia).
    rewrite nth_error_map, Esg; reflexivity.
  - replace (599 - i)%nat
      with (length (map kilo (w_hf b)) + length (map kilo (w_hg b)) - 1 - i)%nat
      by (rewrite !length_map; lia).
    rewrite nth_error_app_rev by (rewrite length_map; lia).
    rewrite nth_error_map, Ehg; reflexivity.
Qed.

Lemma dome_outline_pairs_liquid_and_vapour_witness :
  exists l r,
    calculate_steam_cycle toy_backend 10%R 2000%R 350%R 85%R 85%R = (l, inr r) /\
    length (fst (dome_outline r)) = 600%nat.
Proof.
  eexists _, _. split; [apply toy_steam_default_run |].
  destruct (dome_outline_pairs_liquid_and_vapour R_num toy_backend _ _ _ _ _
              toy_steam_default_run) as (pc & _ & H & _).
  exact H.
Defined.

End DomeOutline.

(** ** Balances, in real arithmetic *)

Section Balances.

Local Open Scope R_scope.

Lemma Q2R_0 : Q2R 0 = 0.
Proof. unfold Q2R. cbn. lra. Qed.

Lemma Q2R_1 : Q2R 1 = 1.
Proof. unfold Q2R. cbn. lra. Qed.

Lemma Q2R_100 : Q2R 100 = 100.
Proof. unfold Q2R. cbn. lra. Qed.

Lemma Q2R_1000 : Q2R 1000 = 1000.
Proof. unfold Q2R. cbn. lra. Qed.

(** X10.  The first law holds for what the steam solver returns, exactly in
    real arithmetic: the net work is the boiler heat less the condenser
    heat, so the five bars of the energy chart balance, and the efficiency
    is the share of the boiler heat that is not rejected.  The boiler heat
    of a returned result is not zero. *)
Theorem steam_energy_balance (backend : Query R -> option R) Pc Pb Tb ep et l r :
  calculate_steam_cycle backend Pc Pb Tb ep et = (l, inr r) ->
  steam_boiler_q r <> 0 /\
  steam_net_w r = steam_boiler_q r - steam_cond_q r /\
  steam_boiler_q r + steam_pump_w r = steam_turb_w r + steam_cond_q r /\
  steam_eta r = (1 - steam_cond_q r / steam_boiler_q r) * 100 /\
  nth 3 (vals_s r) 0 = nth 0 (vals_s r) 0 - nth 4 (vals_s r) 0.
Proof.
  intros H.
  apply steam_ok in H as (a & b & _ & _ & _ & Hb & _ & ->).
  apply R_is_zero_false_inv in Hb.
  unfold vals_s, steam_result.
  cbn [steam_boiler_q steam_net_w steam_cond_q steam_pump_w steam_turb_w
       steam_eta nth].
  set (bq := steam_boiler_q_of Pc Pb ep a) in *.
  assert (Ebq : bq = (w_h3 a - steam_h2 Pc Pb ep a) / 1000)
    by (unfold bq, steam_boiler_q_of; cbn [nsub ndiv ofQ R_num];
        now rewrite Q2R_1000).
  unfold steam_turb_w_of, steam_pump_w_of, steam_cond_q_of.
  cbn [nadd nsub nmul ndiv ofQ R_num]. rewrite Q2R_1000, Q2R_100.
  split; [exact Hb |].
  split; [lra |]. split; [lra |]. split; [| lra].
  field_simplify_eq; [lra | exact Hb].
Qed.

Lemma steam_energy_balance_witness :
  exists l r,
    calculate_steam_cycle toy_backend 10 2000 350 85 85 = (l, inr r) /\
    steam_net_w r = steam_boiler_q r - steam_cond_q r.
Proof.
  eexists _, _. split; [apply toy_steam_default_run |].
  destruct (@steam_energy_balance toy_backend _ _ _ _ _ _ _
              toy_steam_default_run) as (_ & H & _).
  exact H.
Defined.

(** X11.  The pump work the steam solver returns has a closed form: the
    pressure rise in kPa over the density of the saturated liquid at the
    condenser pressure times the pump efficiency as a fraction.  No other
    property of water enters it, and its sign is that of the pressure rise:
    with a positive density and efficiency, a boiler pressure below the
    condenser pressure gives negative pump work. *)
Theorem pump_work_closed_form (backend : Query R -> option R) Pc Pb Tb ep et l r :
  calculate_steam_cycle backend Pc Pb Tb ep et = (l, inr r) ->
  exists d1,
    backend (QProps pD pP (Pc * 1000) pQ 0 Water) = Some d1 /\
    d1 <> 0 /\ ep <> 0 /\
    steam_pump_w r = (Pb - Pc) / (d1 * (ep / 100)) /\
    (0 < d1 -> 0 < ep ->
     (Pc < Pb -> 0 < steam_pump_w r) /\ (Pb < Pc -> steam_pump_w r < 0) /\
     (Pb = Pc -> steam_pump_w r = 0)).
Proof.
  intros H.
  apply steam_ok in H as (a & b & (HS & _) & Hd & Hp & _ & _ & ->).
  apply R_is_zero_false_inv in Hd. apply R_is_zero_false_inv in Hp.
  exists (w_d1 a).
  assert (Hq : backend (QProps pD pP (Pc * 1000) pQ 0 Water) = Some (w_d1 a)).
  { do 2 (inversion HS as [| ? ? ? ? _ HS']; clear HS; rename HS' into HS).
    inversion HS as [| ? ? ? ? Hq _].
    unfold q_sat, steam_P1 in Hq. cbn [nmul ofQ R_num] in Hq.
    rewrite Q2R_1000, Q2R_0 in Hq. exact Hq. }
  assert (Hep : ep <> 0).
  { intros ->. apply Hp. unfold steam_eta_p. cbn [ndiv ofQ R_num]. lra. }
  assert (E : steam_pump_w (steam_result Pc Pb Tb ep et a b)
              = (Pb - Pc) / (w_d1 a * (ep / 100))).
  { unfold steam_result. cbn [steam_pump_w].
    unfold steam_pump_w_of, steam_h2, steam_h2s, steam_v1, steam_P1, steam_P2,
      steam_eta_p.
    cbn [nadd nsub nmul ndiv ofQ R_num]. rewrite Q2R_1000, Q2R_100, Q2R_1.
    field. split; assumption. }
  do 3 (split; [assumption |]). split; [exact E |].
  intros Hd0 Hep0. rewrite E.
  assert (Hden : 0 < w_d1 a * (ep / 100)) by (apply Rmult_lt_0_compat; lra).
  split; [| split].
  - intros Hlt. apply Rdiv_lt_0_compat; lra.
  - intros Hlt.
    assert (Hpos : 0 < (Pc - Pb) / (w_d1 a * (ep / 100)))
      by (apply Rdiv_lt_0_compat; lra).
    unfold Rdiv in *. lra.
  - intros ->. unfold Rdiv. replace (Pc - Pc) with 0 by lra. lra.
Qed.

Lemma pump_work_closed_form_witness :
  exists l r d1,
    calculate_steam_cycle toy_backend 10 2000 350 85 85 = (l, inr r) /\
    toy_backend (F := R) (QProps pD pP (10 * 1000) pQ 0 Water) = Some d1 /\
    steam_pump_w r = (2000 - 10) / (d1 * (85 / 100)).
Proof.
  destruct (@pump_work_closed_form toy_backend _ _ _ _ _ _ _
              toy_steam_default_run)
    as (d1 & Hq & _ & _ & E & _).
  eexists _, _, d1. split; [apply toy_steam_default_run |].
  split; [exact Hq | exact E].
Defined.

(** X12.  The state points of the gas cycle's T-Hdot diagram accumulate the
    energy flows: state 1 is at zero, state 2 at the compressor work, state 3
    at the compressor work plus the heat input and state 4 at that less the
    turbine work.  The fifth bar of the energy chart, heat input less net
    work, is the enthalpy rate of state 4: the heat that must be rejected to
    return to state 1. *)
Theorem gas_state_points_accumulate (backend : Query R -> option R)
  N N2 pr T1_C T3_C eta_c eta_t m_dot l r :
  gas_cycle_THdot_with backend ln N N2 pr T1_C T3_C eta_c eta_t m_dot
    = (l, inr r) ->
  gas_h_states r
  = [0; gas_comp_w r; gas_comp_w r + gas_heat_in r;
     gas_comp_w r + gas_heat_in r - gas_turb_w r] /\
  nth 4 (vals_g r) 0 = nth 3 (gas_h_states r) 0 /\
  gas_heat_in r <> 0 /\ gas_turb_w r <> 0 /\
  gas_eta r = (1 - nth 3 (gas_h_states r) 0 / gas_heat_in r) * 100.
Proof.
  intros H.
  apply gas_ok in H as (a & b & _ & _ & Ht & Hh & _ & ->).
  apply R_is_zero_false_inv in Ht. apply R_is_zero_false_inv in Hh.
  unfold vals_g, gas_result.
  cbn [gas_h_states gas_comp_w gas_heat_in gas_turb_w gas_net_w gas_eta nth].
  set (qi := gas_heat_in_of eta_c m_dot a) in *.
  set (tw := gas_turb_w_of eta_t m_dot a) in *.
  assert (Eqi : qi = (a_h3 a - gas_h2 eta_c a) * m_dot / 1000)
    by (unfold qi, gas_heat_in_of; cbn [nsub nmul ndiv ofQ R_num];
        now rewrite Q2R_1000).
  assert (Etw : tw = (a_h3 a - gas_h4 eta_t a) * m_dot / 1000)
    by (unfold tw, gas_turb_w_of; cbn [nsub nmul ndiv ofQ R_num];
        now rewrite Q2R_1000).
  assert (Ecw : gas_comp_w_of eta_c m_dot a = (gas_h2 eta_c a - a_h1 a) * m_dot / 1000)
    by (unfold gas_comp_w_of; cbn [nsub nmul ndiv ofQ R_num];
        now rewrite Q2R_1000).
  rewrite Ecw. unfold Hdot.
  cbn [nadd nsub nmul ndiv ofQ R_num]. rewrite Q2R_1000, Q2R_100, Q2R_0.
  split.
  { match goal with
    | |- [?x0; ?x1; ?x2; ?x3] = [?y0; ?y1; ?y2; ?y3] =>
        replace x0 with y0 by lra; replace x1 with y1 by lra;
        replace x2 with y2 by lra; replace x3 with y3 by lra; reflexivity
    end. }
  split; [lra |].
  do 2 (split; [assumption |]).
  field_simplify_eq; [lra | exact Hh].
Qed.

Lemma gas_state_points_accumulate_witness :
  exists l r,
    calculate_gas_cycle_THdot toy_backend ln 12 25 1100 88 90 1 = (l, inr r) /\
    nth 4 (vals_g r) 0 = nth 3 (gas_h_states r) 0.
Proof.
  eexists _, _. split; [apply toy_gas_default_run |].
  destruct (@gas_state_points_accumulate toy_backend 60 80 _ _ _ _ _ _ _ _
              toy_gas_default_run)
    as (_ & H & _).
  exact H.
Defined.

(** X13.  In real arithmetic, with a total flow that is not negative and the
    three percentages between 0 and 100, no stream of the biomass split is
    negative and none exceeds the total; hydrochar and volatiles do not
    exceed the moisture-lean stream they come from.  The biogas flow is taken from the
    total flow, not from the moisture-rich stream that feeds the digester:
    for a positive total it exceeds that stream exactly when the digester
    efficiency exceeds the moisture percentage. *)
Theorem biomass_streams_bounded (m_total moist_pct ad_eff_pct htc_conv_pct : R) :
  0 <= m_total ->
  0 <= moist_pct <= 100 ->
  0 <= ad_eff_pct <= 100 ->
  0 <= htc_conv_pct <= 100 ->
  let '(m_rich, m_lean, m_bio, m_char, m_vol) :=
    biomass_outputs m_total moist_pct ad_eff_pct htc_conv_pct in
  0 <= m_rich <= m_total /\ 0 <= m_lean <= m_total /\
  0 <= m_bio <= m_total /\
  0 <= m_char <= m_lean /\ 0 <= m_vol <= m_lean /\
  (0 < m_total -> (m_rich < m_bio <-> moist_pct < ad_eff_pct)).
Proof.
  intros Hm Hw Ha Hc. unfold biomass_outputs.
  cbn [nadd nsub nmul ndiv ofQ R_num]. rewrite Q2R_100, Q2R_1.
  assert (Hl : 0 <= m_total * (1 - moist_pct / 100)) by nra.
  repeat split; try nra.
Qed.

Lemma biomass_streams_bounded_witness :
  let '(m_rich, m_lean, m_bio, m_char, m_vol) := biomass_outputs 10 50 60 70 in
  0 <= m_rich <= 10 /\ 0 <= m_lean <= 10 /\
  0 <= m_bio <= 10 /\
  0 <= m_char <= m_lean /\ 0 <= m_vol <= m_lean /\
  (0 < 10 -> (m_rich < m_bio <-> 50 < 60)).
Proof. apply (@biomass_streams_bounded 10 50 60 70); lra. Defined.

End Balances.

(** On binary64 the bounds hold up to rounding only: with all of the feed
    moist the moisture-rich stream [m_total * 100 / 100] can round to the
    next double above the total. *)
Example biomass_rich_stream_rounds_above_total :
  let m_total := 29.093662494875932%float in
  let '(m_rich, _, _, _, _) :=
    biomass_outputs m_total (float_ofQ 100) (float_ofQ 60) (float_ofQ 70) in
  m_rich = 29.093662494875936%float /\ PrimFloat.ltb m_total m_rich = true.
Proof. vm_compute. split; reflexivity. Qed.

(** ** The interpolated legs of the gas cycle, in real arithmetic *)

Section InterpolatedLegs.

Local Open Scope R_scope.

Lemma linspace_decreasing_R (a b : R) (num i j : nat) :
  (2 <= num)%nat -> b < a -> (i < j)%nat -> (j < num)%nat ->
  nth j (linspace a b num) 0 < nth i (linspace a b num) 0.
Proof.
  intros Hn Hab Hij Hj. rewrite !linspace_nth_R by lia.
  assert (Hd : 0 < INR (num - 1)) by (apply lt_0_INR; lia).
  assert (Hs : 0 < (a - b) / INR (num - 1)) by (apply Rdiv_lt_0_compat; lra).
  assert (INR i < INR j) by (apply lt_INR; lia).
  unfold Rdiv in *. nra.
Qed.

Lemma linspace_between_R (a b : R) (num i : nat) :
  (2 <= num)%nat -> (i < num)%nat ->
  Rmin a b <= nth i (linspace a b num) 0 <= Rmax a b.
Proof.
  intros Hn Hi. rewrite linspace_nth_R by lia.
  assert (Hd : 0 < INR (num - 1)) by (apply lt_0_INR; lia).
  assert (H0 : 0 <= INR i) by apply pos_INR.
  assert (H1 : INR i <= INR (num - 1)) by (apply le_INR; lia).
  set (s := (b - a) / INR (num - 1)).
  assert (Es : s * INR (num - 1) = b - a) by (unfold s; field; lra).
  unfold Rmin, Rmax. destruct (Rle_dec a b) as [Hab | Hab].
  - assert (0 <= s) by (unfold s; apply Rle_mult_inv_pos; lra). nra.
  - assert (0 <= - s).
    { replace (- s) with ((a - b) / INR (num - 1)) by (unfold s; field; lra).
      apply Rle_mult_inv_pos; lra. }
    nra.
Qed.

Lemma nth_sampled_fst (g : R -> R) (xs vs : list R) (i : nat) :
  length xs = length vs -> (i < length xs)%nat ->
  nth i (map (fun xv : R * R => g (fst xv)) (combine xs vs)) 0 = g (nth i xs 0).
Proof.
  intros E Hi.
  rewrite (nth_indep _ 0 ((fun xv : R * R => g (fst xv)) (0, 0)))
    by (rewrite length_map, length_combine; lia).
  rewrite (map_nth (fun xv : R * R => g (fst xv))).
  now rewrite combine_nth.
Qed.

Variables (pr eta_c eta_t m_dot : R) (a : GasAnswers (F := R)).
Hypothesis Hpr : 1 < pr.

Lemma Hdot_12 (P_i : R) :
  Hdot (a_h1 a) m_dot (h_12 ln pr eta_c a P_i)
  = log_frac_up ln gas_P1 (gas_P2 pr) P_i * gas_comp_w_of eta_c m_dot a.
Proof.
  unfold Hdot, h_12, gas_comp_w_of. cbn [nadd nsub nmul ndiv ofQ R_num].
  rewrite Q2R_1000. lra.
Qed.

Lemma Hdot_34 (P_i : R) :
  Hdot (a_h1 a) m_dot (h_34 ln pr eta_t a P_i)
  = Hdot (a_h1 a) m_dot (a_h3 a)
    - log_frac_down ln gas_P1 (gas_P2 pr) P_i * gas_turb_w_of eta_t m_dot a.
Proof.
  unfold Hdot, h_34, gas_turb_w_of. cbn [nadd nsub nmul ndiv ofQ R_num].
  rewrite Q2R_1000. lra.
Qed.

Lemma log_frac_up_increasing (x y : R) :
  0 < x -> x < y ->
  log_frac_up ln gas_P1 (gas_P2 pr) x < log_frac_up ln gas_P1 (gas_P2 pr) y.
Proof.
  intros Hx Hxy. unfold log_frac_up. cbn [nsub ndiv R_num].
  assert (Hs : 0 < ln (gas_P2 pr) - ln gas_P1).
  { unfold gas_P2. rewrite gas_P1_R. cbn [nmul R_num].
    assert (ln 101325 < ln (101325 * pr)) by (apply ln_increasing; nra). lra. }
  assert (Hl : ln x < ln y) by (apply ln_increasing; lra).
  unfold Rdiv. apply Rmult_lt_compat_r; [apply Rinv_0_lt_compat; exact Hs | lra].
Qed.

Lemma log_frac_up_between (x : R) :
  gas_P1 <= x <= gas_P2 pr ->
  0 <= log_frac_up ln gas_P1 (gas_P2 pr) x <= 1.
Proof.
  intros [H1 H2]. unfold log_frac_up. cbn [nsub ndiv R_num].
  assert (Hp : 0 < @gas_P1 R _) by (rewrite gas_P1_R; lra).
  assert (Hs : 0 < ln (gas_P2 pr) - ln gas_P1).
  { unfold gas_P2. rewrite gas_P1_R. cbn [nmul R_num].
    assert (ln 101325 < ln (101325 * pr)) by (apply ln_increasing; nra). lra. }
  assert (L1 : ln gas_P1 <= ln x).
  { destruct H1 as [H1 | <-]; [left; apply ln_increasing; lra | right; reflexivity]. }
  assert (L2 : ln x <= ln (gas_P2 pr)).
  { destruct H2 as [H2 | ->]; [left; apply ln_increasing; lra | right; reflexivity]. }
  split.
  - apply Rle_mult_inv_pos; lra.
  - apply (Rmult_le_reg_r (ln (gas_P2 pr) - ln gas_P1)); [exact Hs |].
    unfold Rdiv. rewrite Rmult_assoc, Rinv_l by lra. lra.
Qed.

Lemma log_frac_down_up (x : R) :
  log_frac_down ln gas_P1 (gas_P2 pr) x
  = 1 - log_frac_up ln gas_P1 (gas_P2 pr) x.
Proof.
  unfold log_frac_down, log_frac_up. cbn [nsub ndiv R_num].
  field. now apply log_span_R.
Qed.

Lemma gas_P12_R : @gas_P1 R _ < gas_P2 pr.
Proof. unfold gas_P2. rewrite gas_P1_R. cbn [nmul R_num]. nra. Qed.

End InterpolatedLegs.

Section LegsStatement.

Local Open Scope R_scope.

(** X14.  On the compression and the expansion leg of the T-Hdot diagram the
    enthalpy rate does not come from the backend: with a pressure ratio above
    1 and at least two samples, sample [i] of the compression leg lies at a
    fraction between 0 and 1 of the compressor work and sample [i] of the
    expansion leg at a fraction of the turbine work below state 3.  With
    positive compressor work the compression leg rises strictly from sample
    to sample, and with positive turbine work the expansion leg falls
    strictly. *)
Theorem gas_legs_are_monotone (backend : Query R -> option R)
  N N2 pr T1_C T3_C eta_c eta_t m_dot l r :
  gas_cycle_THdot_with backend ln N N2 pr T1_C T3_C eta_c eta_t m_dot
    = (l, inr r) ->
  (2 <= N)%nat -> 1 < pr ->
  let H12 := trace_H (tr_compression (gas_traces r)) in
  let H34 := trace_H (tr_expansion (gas_traces r)) in
  (forall i, (i < N)%nat ->
     exists f, 0 <= f <= 1 /\ nth i H12 0 = f * gas_comp_w r) /\
  (forall i, (i < N)%nat ->
     exists f, 0 <= f <= 1 /\
       nth i H34 0 = nth 2 (gas_h_states r) 0 - f * gas_turb_w r) /\
  (0 < gas_comp_w r ->
   forall i j, (i < j < N)%nat -> nth i H12 0 < nth j H12 0) /\
  (0 < gas_turb_w r ->
   forall i j, (i < j < N)%nat -> nth j H34 0 < nth i H34 0).
Proof.
  intros H HN Hpr H12 H34.
  apply gas_ok in H as (a & b & (_ & A12 & _ & A34 & _) & _ & _ & _ & _ & ->).
  unfold H12, H34, gas_result.
  cbn [gas_traces tr_compression tr_expansion trace_H fst snd gas_h_states
       gas_comp_w gas_turb_w nth].
  pose proof (Forall2_length A12) as L12. pose proof (Forall2_length A34) as L34.
  assert (N12 : length (P_12 N pr) = N) by apply linspace_length.
  assert (N34 : length (P_34 N pr) = N) by apply linspace_length.
  pose proof (gas_P12_R Hpr) as HP.
  assert (Hp1 : 0 < @gas_P1 R _) by (rewrite gas_P1_R; lra).
  assert (B12 : forall i, (i < N)%nat ->
            gas_P1 <= nth i (P_12 N pr) 0 <= gas_P2 pr).
  { intros i Hi. pose proof (@linspace_between_R gas_P1 (gas_P2 pr) N i HN Hi) as B.
    rewrite Rmin_left, Rmax_right in B by lra. exact B. }
  assert (B34 : forall i, (i < N)%nat ->
            gas_P1 <= nth i (P_34 N pr) 0 <= gas_P2 pr).
  { intros i Hi. pose proof (@linspace_between_R (gas_P2 pr) gas_P1 N i HN Hi) as B.
    rewrite Rmin_right, Rmax_left in B by lra. exact B. }
  assert (E12 : forall i, (i < N)%nat ->
            nth i (map (fun xv : R * R =>
                          Hdot (a_h1 a) m_dot (h_12 ln pr eta_c a (fst xv)))
                     (combine (P_12 N pr) (t_12 b))) 0
            = log_frac_up ln gas_P1 (gas_P2 pr) (nth i (P_12 N pr) 0)
              * gas_comp_w_of eta_c m_dot a).
  { intros i Hi.
    rewrite (nth_sampled_fst (fun P_i => Hdot (a_h1 a) m_dot (h_12 ln pr eta_c a P_i)))
      by lia.
    apply Hdot_12. }
  assert (E34 : forall i, (i < N)%nat ->
            nth i (map (fun xv : R * R =>
                          Hdot (a_h1 a) m_dot (h_34 ln pr eta_t a (fst xv)))
                     (combine (P_34 N pr) (t_34 b))) 0
            = Hdot (a_h1 a) m_dot (a_h3 a)
              - log_frac_down ln gas_P1 (gas_P2 pr) (nth i (P_34 N pr) 0)
                * gas_turb_w_of eta_t m_dot a).
  { intros i Hi.
    rewrite (nth_sampled_fst (fun P_i => Hdot (a_h1 a) m_dot (h_34 ln pr eta_t a P_i)))
      by lia.
    apply Hdot_34. }
  split; [| split; [| split]].
  - intros i Hi. eexists. split; [| apply E12; exact Hi].
    apply log_frac_up_between; auto.
  - intros i Hi. eexists. split; [| apply E34; exact Hi].
    rewrite log_frac_down_up by exact Hpr.
    pose proof (log_frac_up_between Hpr (B34 i Hi)). lra.
  - intros Hcw i j Hij. rewrite !E12 by lia.
    apply Rmult_lt_compat_r; [exact Hcw |].
    apply log_frac_up_increasing; [exact Hpr | |].
    + pose proof (B12 i ltac:(lia)). lra.
    + apply linspace_increasing_R; [lia | exact HP | lia | lia].
  - intros Htw i j Hij. rewrite !E34 by lia.
    rewrite !log_frac_down_up by exact Hpr.
    assert (log_frac_up ln gas_P1 (gas_P2 pr) (nth j (P_34 N pr) 0)
            < log_frac_up ln gas_P1 (gas_P2 pr) (nth i (P_34 N pr) 0)).
    { apply log_frac_up_increasing; [exact Hpr | |].
      - pose proof (B34 j ltac:(lia)). lra.
      - apply linspace_decreasing_R; [lia | exact HP | lia | lia]. }
    nra.
Qed.

Lemma gas_legs_are_monotone_witness :
  exists l r,
    calculate_gas_cycle_THdot toy_backend ln 12 25 1100 88 90 1 = (l, inr r) /\
    (2 <= 60)%nat /\ 1 < 12 /\
    exists f, 0 <= f <= 1 /\
      nth 7 (trace_H (tr_compression (gas_traces r))) 0 = f * gas_comp_w r.
Proof.
  eexists _, _. split; [apply toy_gas_default_run |].
  assert (H60 : (2 <= 60)%nat) by lia.
  assert (H12 : 1 < 12) by lra.
  split; [exact H60 |]. split; [exact H12 |].
  destruct (@gas_legs_are_monotone toy_backend 60 80 _ _ _ _ _ _ _ _
              toy_gas_default_run H60 H12) as (H & _).
  apply (H 7%nat). lia.
Defined.

End LegsStatement.

(** ** The efficiency the dashboard prints, in binary64 *)

(** X15.  Whatever binary64 value a solver returned as its efficiency, the
    value the dashboard prints for it, [max(0, eff)], compares as at least
    zero: it is never negative and never a NaN.  A NaN and minus infinity are
    both printed as zero, and a positive efficiency is printed unchanged. *)
Theorem printed_efficiency_is_not_negative :
  (forall eff : float,
     PrimFloat.leb (float_ofQ 0) (display_eff eff) = true /\
     PrimFloat.is_nan (display_eff eff) = false /\
     (PrimFloat.ltb (float_ofQ 0) eff = true -> display_eff eff = eff)) /\
  display_eff PrimFloat.nan = float_ofQ 0 /\
  display_eff PrimFloat.neg_infinity = float_ofQ 0.
Proof.
  split; [| split; reflexivity].
  intros eff. unfold display_eff. cbn [nltb ofQ float_num].
  destruct (PrimFloat.ltb (float_ofQ 0) eff) eqn:E;
    [| split; [reflexivity | split; [reflexivity | discriminate]]].
  rewrite FloatAxioms.ltb_spec in E. unfold SFltb in E.
  split; [| split; [| reflexivity]].
  - rewrite FloatAxioms.leb_spec. unfold SFleb.
    destruct (SFcompare (Prim2SF (float_ofQ 0)) (Prim2SF eff)) as [[] |];
      congruence.
  - unfold PrimFloat.is_nan. rewrite FloatAxioms.eqb_spec. unfold SFeqb.
    destruct (Prim2SF eff) as [s | s | | s m e] eqn:P.
    + destruct s; reflexivity.
    + destruct s; reflexivity.
    + change (Prim2SF (float_ofQ 0)) with (S754_zero false) in E.
      discriminate.
    + cbn [SFcompare]. destruct s.
      * rewrite Z.compare_refl.
        rewrite Pos.compare_cont_refl. reflexivity.
      * rewrite Z.compare_refl.
        rewrite Pos.compare_cont_refl. reflexivity.
Qed.
